(** * CESIS E-Ink server: event selection and the events cache

    A shallow embedding of the [POST /data] handler of the signage server
    and of the in-memory events cache behind it ([loadEventsCache], the
    selection loop, the response assembly and the invalidation done by
    [parseICal]).

    JavaScript values are the ones [JSON.parse] can produce; exceptions are
    explicit ([result]); the two module-level variables [eventsCache] and
    [cacheTimestamp] are threaded through a small state-and-exception monad
    that also logs the file-system and console calls.  Library functions
    the server calls but does not define ([Date.parse], the host time zone,
    [JSON.parse], number formatting, the headless-browser renderer) are the
    fields of a [Host] every definition is parameterised by, so every
    theorem holds for all of them. *)

From Stdlib Require Import ZArith List String Ascii Bool Lia.
Import ListNotations.

Local Open Scope string_scope.
Local Open Scope Z_scope.

(* ================================================================== *)
(** * JavaScript values and exceptions *)
(* ================================================================== *)

Module JS.

(** Values held by the parsed store.  [VUndefined] is what reading an
    absent property gives.  Numbers are the integral ones (time values and
    counts); an object keeps its properties in source order, one binding
    per key as [JSON.parse] leaves them. *)
#[warnings="-register-all"]
Inductive value : Type :=
| VUndefined
| VNull
| VBool (b : bool)
| VNum (n : Z)
| VStr (s : string)
| VArr (elems : list value)
| VObj (props : list (string * value)).

Inductive error : Type :=
| TypeError
| SyntaxError
| RangeError
| SystemError
| RenderError.

Inductive result (A : Type) : Type :=
| Ok (a : A)
| Throw (e : error).

Arguments Ok {A} a.
Arguments Throw {A} e.

Definition rbind {A B} (r : result A) (k : A -> result B) : result B :=
  match r with
  | Ok a => k a
  | Throw e => Throw e
  end.

(** ToBoolean. *)
Definition truthy (v : value) : bool :=
  match v with
  | VUndefined | VNull => false
  | VBool b => b
  | VNum n => negb (n =? 0)
  | VStr s => negb (s =? EmptyString)%string
  | VArr _ | VObj _ => true
  end.

Fixpoint lookup (k : string) (props : list (string * value)) : value :=
  match props with
  | [] => VUndefined
  | (k', v) :: rest => if (k =? k')%string then v else lookup k rest
  end.

(** Property read [o.k].  Reading from [null] or [undefined] throws; a
    primitive or an array has none of the properties the server reads
    apart from [length]. *)
Definition get (o : value) (k : string) : result value :=
  match o with
  | VUndefined | VNull => Throw TypeError
  | VObj props => Ok (lookup k props)
  | VArr elems =>
      Ok (if (k =? "length")%string then VNum (Z.of_nat (List.length elems))
          else VUndefined)
  | VStr s =>
      Ok (if (k =? "length")%string then VNum (Z.of_nat (String.length s))
          else VUndefined)
  | VBool _ | VNum _ => Ok VUndefined
  end.

(** The double-quote character, as a one-character string. *)
Definition dquote : string := String (ascii_of_nat 34) EmptyString.

(** Does the object have an own property [k]? *)
Definition has_key (k : string) (props : list (string * value)) : bool :=
  existsb (fun kv => (fst kv =? k)%string) props.

(** [a || b] on values. *)
Definition or_else (a b : value) : value := if truthy a then a else b.

(** [String.prototype.includes]: does [needle] occur in [hay]? *)
Fixpoint str_includes (hay needle : string) : bool :=
  if String.prefix needle hay then true
  else match hay with
       | EmptyString => false
       | String _ rest => str_includes rest needle
       end.

(** SameValueZero of an array element against a string. *)
Definition same_string (room : string) (v : value) : bool :=
  match v with
  | VStr s => (s =? room)%string
  | _ => false
  end.

(** [loc.includes(room)] for a string [room].  Only strings and arrays
    have an [includes] method; calling it on anything else is a
    TypeError. *)
Definition includes (loc : value) (room : string) : result bool :=
  match loc with
  | VStr s => Ok (str_includes s room)
  | VArr elems => Ok (existsb (same_string room) elems)
  | _ => Throw TypeError
  end.

(** What [for (const x of v)] iterates over: the elements of an array,
    the characters of a string (one-character strings; none of them has a
    property the loop reads); nothing else [JSON.parse] yields is
    iterable. *)
Fixpoint chars (s : string) : list value :=
  match s with
  | EmptyString => []
  | String c rest => VStr (String c EmptyString) :: chars rest
  end.

Definition iterate (v : value) : result (list value) :=
  match v with
  | VArr elems => Ok elems
  | VStr s => Ok (chars s)
  | _ => Throw TypeError
  end.

(** Relational operators on time values; [None] is NaN, for which every
    comparison is false and [!==] is true. *)
Definition num_ge (a b : option Z) : bool :=
  match a, b with Some x, Some y => y <=? x | _, _ => false end.
Definition num_le (a b : option Z) : bool :=
  match a, b with Some x, Some y => x <=? y | _, _ => false end.
Definition num_gt (a b : option Z) : bool :=
  match a, b with Some x, Some y => y <? x | _, _ => false end.
Definition num_lt (a b : option Z) : bool :=
  match a, b with Some x, Some y => x <? y | _, _ => false end.
Definition num_neq (a b : option Z) : bool :=
  match a, b with Some x, Some y => negb (x =? y) | _, _ => true end.

(** Induction over values, through the elements of arrays and the
    properties of objects. *)
Section Nested.

Variable P : value -> Prop.
Hypothesis on_undefined : P VUndefined.
Hypothesis on_null : P VNull.
Hypothesis on_bool : forall b, P (VBool b).
Hypothesis on_num : forall n, P (VNum n).
Hypothesis on_str : forall s, P (VStr s).
Hypothesis on_arr : forall elems, Forall P elems -> P (VArr elems).
Hypothesis on_obj :
  forall props, Forall (fun kv => P (snd kv)) props -> P (VObj props).

Fixpoint value_nested_ind (v : value) : P v :=
  match v with
  | VUndefined => on_undefined
  | VNull => on_null
  | VBool b => on_bool b
  | VNum n => on_num n
  | VStr s => on_str s
  | VArr elems =>
      on_arr elems
        ((fix go (l : list value) : Forall P l :=
            match l with
            | [] => Forall_nil P
            | x :: rest => Forall_cons x (value_nested_ind x) (go rest)
            end) elems)
  | VObj props =>
      on_obj props
        ((fix go (l : list (string * value))
            : Forall (fun kv => P (snd kv)) l :=
            match l with
            | [] => Forall_nil _
            | (k, x) :: rest =>
                Forall_cons (k, x) (value_nested_ind x) (go rest)
            end) props)
  end.

End Nested.

End JS.
Import JS.

(* ================================================================== *)
(** * Calendar arithmetic of [Date] *)
(* ================================================================== *)

Module Calendar.

Definition msPerDay : Z := 86400000.

(** Day number of a time value (days since 1970-01-01, floor). *)
Definition Day (t : Z) : Z := t / msPerDay.
Definition TimeWithinDay (t : Z) : Z := t mod msPerDay.

(** Proleptic Gregorian date (year, month 1..12, day 1..31) of a day
    number. *)
Definition civil_from_days (z : Z) : Z * Z * Z :=
  let z := z + 719468 in
  let era := z / 146097 in
  let doe := z - era * 146097 in
  let yoe := (doe - doe / 1460 + doe / 36524 - doe / 146096) / 365 in
  let y := yoe + era * 400 in
  let doy := doe - (365 * yoe + yoe / 4 - yoe / 100) in
  let mp := (5 * doy + 2) / 153 in
  let d := doy - (153 * mp + 2) / 5 + 1 in
  let m := if mp <? 10 then mp + 3 else mp - 9 in
  ((if m <=? 2 then y + 1 else y), m, d).

(** Inverse direction, used to read ISO timestamps. *)
Definition days_from_civil (y m d : Z) : Z :=
  let y := if m <=? 2 then y - 1 else y in
  let era := y / 400 in
  let yoe := y - era * 400 in
  let mp := if 2 <? m then m - 3 else m + 9 in
  let doy := (153 * mp + 2) / 5 + d - 1 in
  let doe := yoe * 365 + yoe / 4 - yoe / 100 + doy in
  era * 146097 + doe - 719468.

Definition YearFromTime (t : Z) : Z := fst (fst (civil_from_days (Day t))).
(** Months are numbered from 0, as [getMonth] reports them. *)
Definition MonthFromTime (t : Z) : Z := snd (fst (civil_from_days (Day t))) - 1.
Definition DateFromTime (t : Z) : Z := snd (civil_from_days (Day t)).

(** TimeClip: a time value is within 8.64e15 ms of the epoch. *)
Definition TimeClip (n : Z) : option Z :=
  if Z.abs n <=? 8640000000000000 then Some n else None.

Definition digit (n : Z) : ascii := ascii_of_nat (48 + Z.to_nat (n mod 10)).

(** [w] decimal digits of [n], zero padded. *)
Fixpoint pad (w : nat) (n : Z) : string :=
  match w with
  | O => EmptyString
  | S w' => pad w' (n / 10) ++ String (digit n) EmptyString
  end.

(** [Date.prototype.toISOString] of a valid time value (always UTC). *)
Definition isoFormat (t : Z) : string :=
  let '(y, m, d) := civil_from_days (Day t) in
  let ms := TimeWithinDay t in
  let year :=
    if (0 <=? y) && (y <=? 9999) then pad 4 y
    else (if y <? 0 then "-" else "+") ++ pad 6 (Z.abs y) in
  year ++ "-" ++ pad 2 m ++ "-" ++ pad 2 d
       ++ "T" ++ pad 2 (ms / 3600000)
       ++ ":" ++ pad 2 ((ms / 60000) mod 60)
       ++ ":" ++ pad 2 ((ms / 1000) mod 60)
       ++ "." ++ pad 3 (ms mod 1000) ++ "Z".

End Calendar.
Import Calendar.

(* ================================================================== *)
(** * The host: library functions the server calls *)
(* ================================================================== *)

(** What the runtime and the collaborators provide.  [Date_parse] is
    [Date.parse] ([None] for NaN), [LocalTZA] the offset in milliseconds of
    the server's local time zone at a given instant, [JSON_parse] is
    [JSON.parse] ([None] when it throws a SyntaxError), [Number_toString]
    formats a number, [generateEventImage] is the renderer (it drives a
    headless browser and may reject). *)
Record Host : Type := {
  Date_parse : string -> option Z;
  LocalTZA : Z -> Z;
  JSON_parse : string -> option value;
  Number_toString : Z -> string;
  generateEventImage : value -> string -> value -> result string
}.

(** The store file [json/structured_events.json] as the server sees it
    when it exists: its modification time ([stats.mtime.getTime()]) and
    its text ([None] when [readFileSync] fails). *)
Record file : Type := {
  mtime : Z;
  data : option string
}.

(** The module-level variables [eventsCache] and [cacheTimestamp]. *)
Record cache : Type := {
  eventsCache : value;
  cacheTimestamp : option Z
}.

(** Initial values of the two variables (both [null]). *)
Definition initial_cache : cache :=
  {| eventsCache := VNull; cacheTimestamp := None |}.

Inductive effect : Type :=
| ExistsSync
| StatSync
| ReadFileSync
| WriteFileSync
| ConsoleLog
| ConsoleError.

(** What a request sees of the outside: the store file if there is one,
    the wall clock, and whether the test image can be written. *)
Record world : Type := {
  disk : option file;
  clock : Z;
  imageWritable : bool
}.

Module Response.

Record payload : Type := {
  room : string;
  currentTime : string;
  event : value;
  nextEvent : value;
  nextEventMessage : option string;
  imageBase64 : string
}.

Inductive body : Type :=
| ErrorJson (error : string)
| DataJson (p : payload).

Record response : Type := {
  status : Z;
  json : body
}.

End Response.

(* ================================================================== *)
(** * State, exceptions and a log of effects *)
(* ================================================================== *)

Module Eff.

(** A computation reads and writes the cache variables, may throw, and
    logs its effects.  A throw keeps the assignments made before it. *)
Definition M (A : Type) : Type := cache -> result A * cache * list effect.

Definition ret {A} (a : A) : M A := fun s => (Ok a, s, []).

Definition bind {A B} (m : M A) (k : A -> M B) : M B :=
  fun s =>
    match m s with
    | (Ok a, s1, t1) =>
        match k a s1 with
        | (r, s2, t2) => (r, s2, (t1 ++ t2)%list)
        end
    | (Throw e, s1, t1) => (Throw e, s1, t1)
    end.

Definition throw {A} (e : error) : M A := fun s => (Throw e, s, []).

Definition lift {A} (r : result A) : M A := fun s => (r, s, []).

Definition tell (ef : effect) : M unit := fun s => (Ok tt, s, [ef]).

Definition try_catch {A} (m : M A) (h : error -> M A) : M A :=
  fun s =>
    match m s with
    | (Ok a, s1, t1) => (Ok a, s1, t1)
    | (Throw e, s1, t1) =>
        match h e s1 with
        | (r, s2, t2) => (r, s2, (t1 ++ t2)%list)
        end
    end.

Definition read_eventsCache : M value :=
  fun s => (Ok (eventsCache s), s, []).
Definition read_cacheTimestamp : M (option Z) :=
  fun s => (Ok (cacheTimestamp s), s, []).
Definition set_eventsCache (v : value) : M unit :=
  fun s => (Ok tt, {| eventsCache := v; cacheTimestamp := cacheTimestamp s |}, []).
Definition set_cacheTimestamp (t : option Z) : M unit :=
  fun s => (Ok tt, {| eventsCache := eventsCache s; cacheTimestamp := t |}, []).

Definition outcome {A} (x : result A * cache * list effect) : result A :=
  fst (fst x).
Definition final {A} (x : result A * cache * list effect) : cache :=
  snd (fst x).
Definition trace {A} (x : result A * cache * list effect) : list effect :=
  snd x.

End Eff.
Import Eff.

Declare Scope eff_scope.
Delimit Scope eff_scope with eff.
Notation "x <- m ;; k" := (bind m (fun x => k))
  (at level 61, m at next level, right associativity) : eff_scope.
Notation "m ;; k" := (bind m (fun _ => k))
  (at level 61, right associativity) : eff_scope.

Declare Scope result_scope.
Delimit Scope result_scope with result.
Notation "x <-- r ;; k" := (rbind r (fun x => k))
  (at level 61, r at next level, right associativity) : result_scope.

(* ================================================================== *)
(** * The ingestion job's collaborators *)
(* ================================================================== *)

(** What [parseICal] calls: [fromURL] is the calendar feed as node-ical
    parses it ([ical.async.fromURL(process.env.ICAL_URL)]), an object
    keyed by uid whose entries are taken as [JSON.stringify] shows them;
    [generateContent] is the text of the language model's reply to a
    prompt; [JSON_stringify] is [JSON.stringify(v, null, 2)];
    [String_trim] is [String.prototype.trim]. *)
Record Ingest : Type := {
  fromURL : result value;
  generateContent : string -> result string;
  JSON_stringify : value -> string;
  String_trim : string -> string
}.

(** The [json] directory when the job gets to writing: whether it exists,
    whether [mkdirSync] and [writeFileSync] succeed, and the modification
    time the written file gets.  A failed write is taken to leave the
    store file as it was. *)
Record volume : Type := {
  dirPresent : bool;
  mkdirOk : bool;
  writeOk : bool;
  writeClock : Z
}.

(** What [parseICal] returns. *)
Record ingestion : Type := {
  originalEventCount : Z;
  structuredEvents : value
}.

Module Fences.

Definition newline : ascii := ascii_of_nat 10.
Definition backtick : ascii := ascii_of_nat 96.

Definition fence : string := "```".
Definition fence_json : string := "```json".

Fixpoint skip (n : nat) (s : string) : string :=
  match n, s with
  | S n', String _ rest => skip n' rest
  | _, _ => s
  end.

(** The optional [\n] of the two patterns. *)
Definition drop_newline (s : string) : string :=
  match s with
  | String c rest => if (c =? newline)%char then rest else s
  | EmptyString => s
  end.

(** [s.replace(/pat\n?/g, '')] for a literal, non-empty [pat]: the text is
    scanned from the left; where [pat] occurs it is dropped together with
    one newline right after it and the scan resumes behind them; any
    other character is kept.  Each step consumes a character, so
    [String.length s] steps are enough. *)
Fixpoint remove_all (pat : string) (fuel : nat) (s : string) : string :=
  match fuel with
  | O => EmptyString
  | S fuel' =>
      match s with
      | EmptyString => EmptyString
      | String c rest =>
          if prefix pat s
          then remove_all pat fuel' (drop_newline (skip (String.length pat) s))
          else String c (remove_all pat fuel' rest)
      end
  end.

Definition replace_fence (pat s : string) : string :=
  remove_all pat (String.length s) s.

(** [text.replace(/```json\n?/g, '').replace(/```\n?/g, '')]. *)
Definition strip_fences (text : string) : string :=
  replace_fence fence (replace_fence fence_json text).

(** No backtick occurs in [s]. *)
Fixpoint plain (s : string) : bool :=
  match s with
  | EmptyString => true
  | String c rest => negb (c =? backtick)%char && plain rest
  end.

End Fences.
Import Fences.

(** The fixed part of the prompt (lines 198-209); the feed entries follow
    it. *)
Definition promptHead : string := "You are a calendar event parser. Parse the following iCal events and return a clean, structured JSON array.
For each event, extract and organize:
- title (from summary)
- startTime (ISO 8601 format)
- endTime (ISO 8601 format)
- location (There may be multiple, separate with an array of locations)
- subject code (Cod. XXXXXX from the summary)
- organizer (name and email if available)

Return ONLY valid JSON, no markdown formatting or explanation.

Events data:
".

(* ================================================================== *)
(** * The page templates of [generateEventImage] *)
(* ================================================================== *)

Module Template.

(** The [style] constant (lines 57-99). *)
Definition style : string := "
    <style>
            body {
                width: 854px;
                height: 480px;
                margin: 0;
                display: flex;
                flex-direction: column;
                align-items: center;
                justify-content: space-between;
                font-family: eurostile, sans-serif;
                background-color: #ffffff;
            }
            .event-container {
                margin: 30px;
                width: calc(100% - 60px);
            }
            .event-title {
                font-size: 65px;
                font-weight: 700;
                margin-bottom: 18px;
                color: #1a1a1a;
            }
            .event-time {
                font-size: 45px;
                margin-bottom: 16px;
                color: #333;
            }
            .event-teacher {
                font-size: 40px;
                color: #555;
            }
            .logo-container {
                width: 100%;
                display: flex;
                justify-content: flex-start;
                align-items: center;
                padding-top: 20px;
                padding-left: 40px;
                background-color: #e3e0e0ff;
            }
        </style>
        ".

(** The template of lines 114-132, for a free room. *)
Definition freeRoomPage (roomName message : string) : string :=
  "
        <html>
        <head>
            "
  ++ style
  ++ "
        </head>
            <body>
        <div class=" ++ dquote ++ "logo-container" ++ dquote ++ ">
        <img src=" ++ dquote ++ "https://upload.wikimedia.org/wikipedia/commons/thumb/e/e0/Universitat_de_Val%C3%A8ncia_logo.svg/1280px-Universitat_de_Val%C3%A8ncia_logo.svg.png" ++ dquote ++ " alt=" ++ dquote ++ "CESIS Logo" ++ dquote ++ " style=" ++ dquote ++ "width:200px; margin-bottom:20px;" ++ dquote ++ ">
        </div>
        <div class=" ++ dquote ++ "event-container" ++ dquote ++ ">
            <div class=" ++ dquote ++ "event-time" ++ dquote ++ ">
                Sala Lliure
            </div>
            <div class=" ++ dquote ++ "event-title" ++ dquote ++ " style=" ++ dquote ++ "font-size: 68px;" ++ dquote ++ ">"
  ++ roomName
  ++ "</div>
            <div class=" ++ dquote ++ "event-teacher" ++ dquote ++ " style=" ++ dquote ++ "font-size:36px; margin-top:12px;" ++ dquote ++ ">"
  ++ message
  ++ "</div>
        </div>
    </body>
        </html>
        ".

(** The template of lines 144-162, for a room with a current event. *)
Definition eventPage (startText endText title teachers : string) : string :=
  "
    <html>
    <head>
        "
  ++ style
  ++ "
    </head>
    <body>
        <div class=" ++ dquote ++ "logo-container" ++ dquote ++ ">
        <img src=" ++ dquote ++ "https://upload.wikimedia.org/wikipedia/commons/thumb/e/e0/Universitat_de_Val%C3%A8ncia_logo.svg/1280px-Universitat_de_Val%C3%A8ncia_logo.svg.png" ++ dquote ++ " alt=" ++ dquote ++ "CESIS Logo" ++ dquote ++ " style=" ++ dquote ++ "width:200px; margin-bottom:20px;" ++ dquote ++ ">
        </div>
        <div class=" ++ dquote ++ "event-container" ++ dquote ++ ">
            <div class=" ++ dquote ++ "event-time" ++ dquote ++ ">
                "
  ++ startText
  ++ " - "
  ++ endText
  ++ "
            </div>
            <div class=" ++ dquote ++ "event-title" ++ dquote ++ ">"
  ++ title
  ++ "</div>
            <div class=" ++ dquote ++ "event-teacher" ++ dquote ++ ">"
  ++ teachers
  ++ "</div>
        </div>
    </body>
    </html>
    ".

End Template.

(** The headless browser as [generateEventImage] drives it: whether
    [puppeteer.launch], [browser.newPage], [page.setViewport],
    [page.setContent] (of a given page text) and [page.close] resolve,
    and the base64 text of the PNG [page.screenshot] gives for a page. *)
Record Puppeteer : Type := {
  launchOk : bool;
  newPageOk : bool;
  setViewportOk : bool;
  setContentOk : string -> bool;
  screenshot : string -> result string;
  closeOk : bool
}.

Inductive browser_call : Type :=
| Launch
| NewPage
| SetViewport
| SetContent (html : string)
| Screenshot
| ClosePage.

(* ================================================================== *)
(** * A sample host and sample stores *)
(* ================================================================== *)

Module Sample.

Definition digit_of (c : ascii) : option Z :=
  let n := Z.of_nat (nat_of_ascii c) in
  if (48 <=? n) && (n <=? 57) then Some (n - 48) else None.

Fixpoint number (s : string) (acc : Z) : option Z :=
  match s with
  | EmptyString => Some acc
  | String c rest =>
      match digit_of c with
      | Some d => number rest (acc * 10 + d)
      | None => None
      end
  end.

Definition in_range (lo hi : Z) (x : option Z) : option Z :=
  match x with
  | Some n => if (lo <=? n) && (n <=? hi) then Some n else None
  | None => None
  end.

(** [Date.parse] on the form [YYYY-MM-DDTHH:MM:SSZ]; anything else is
    taken as unparseable. *)
Definition iso_parse (s : string) : option Z :=
  let part i n := number (substring i n s) 0 in
  if (String.length s =? 20)%nat
     && (substring 4 1 s =? "-")%string && (substring 7 1 s =? "-")%string
     && (substring 10 1 s =? "T")%string && (substring 13 1 s =? ":")%string
     && (substring 16 1 s =? ":")%string && (substring 19 1 s =? "Z")%string
  then
    match part 0%nat 4%nat, in_range 1 12 (part 5%nat 2%nat),
          in_range 1 31 (part 8%nat 2%nat), in_range 0 23 (part 11%nat 2%nat),
          in_range 0 59 (part 14%nat 2%nat), in_range 0 59 (part 17%nat 2%nat)
    with
    | Some y, Some mo, Some d, Some h, Some mi, Some se =>
        Some (days_from_civil y mo d * msPerDay
              + h * 3600000 + mi * 60000 + se * 1000)
    | _, _, _, _, _, _ => None
    end
  else None.

Fixpoint decimal_digits (fuel : nat) (n : Z) : string :=
  match fuel with
  | O => EmptyString
  | S fuel' =>
      if n <? 10 then String (digit n) EmptyString
      else decimal_digits fuel' (n / 10) ++ String (digit n) EmptyString
  end.

Definition decimal (n : Z) : string :=
  if n <? 0 then "-" ++ decimal_digits 25 (- n) else decimal_digits 25 n.

(** [JSON.stringify] without indentation, for texts free of characters
    that need escaping. *)
Fixpoint stringify (v : value) : string :=
  match v with
  | VUndefined | VNull => "null"
  | VBool b => if b then "true" else "false"
  | VNum n => decimal n
  | VStr s => dquote ++ s ++ dquote
  | VArr elems =>
      "[" ++ (fix items (l : list value) : string :=
                match l with
                | [] => EmptyString
                | x :: rest =>
                    match rest with
                    | [] => stringify x
                    | _ :: _ => stringify x ++ "," ++ items rest
                    end
                end) elems ++ "]"
  | VObj props =>
      "{" ++ (fix members (l : list (string * value)) : string :=
                match l with
                | [] => EmptyString
                | (k, x) :: rest =>
                    let m := dquote ++ k ++ dquote ++ ":" ++ stringify x in
                    match rest with
                    | [] => m
                    | _ :: _ => m ++ "," ++ members rest
                    end
                end) props ++ "}"
  end.

Definition lesson (title start finish : string) (rooms : list string) : value :=
  VObj [("title", VStr title);
        ("startTime", VStr start);
        ("endTime", VStr finish);
        ("location", VArr (map VStr rooms));
        ("organizer", VObj [("name", VStr "M. Ferrer")])].

Definition anatomy : value :=
  lesson "Anatomia" "2025-11-07T09:00:00Z" "2025-11-07T10:00:00Z" ["2.05"].
Definition histology : value :=
  lesson "Histologia" "2025-11-07T11:00:00Z" "2025-11-07T12:00:00Z" ["2.05"].
Definition surgery : value :=
  lesson "Cirurgia" "2025-11-07T11:00:00Z" "2025-11-07T13:00:00Z"
         ["2.05"; "1.10"].
Definition tomorrow : value :=
  lesson "Fisiologia" "2025-11-08T09:00:00Z" "2025-11-08T10:00:00Z" ["2.05"].
(** An entry the normalisation step left without an end time. *)
Definition untimed : value :=
  VObj [("title", VStr "Tutoria");
        ("startTime", VStr "2025-11-07T09:00:00Z");
        ("location", VArr [VStr "2.05"])].

(** The stores the sample [JSON.parse] knows; every other text is
    malformed. *)
Definition stores : list value :=
  [VArr [];
   VArr [anatomy];
   VArr [anatomy; histology];
   VArr [histology; anatomy];
   VArr [untimed; anatomy]].

Definition json_parse (text : string) : option value :=
  find (fun v => (stringify v =? text)%string) stores.

Definition png : string := "iVBORw0KGgoAAAANSUhEUgAA".

(** A server in UTC whose renderer always succeeds. *)
Definition utc : Host :=
  {| Date_parse := iso_parse;
     LocalTZA := fun _ => 0;
     JSON_parse := json_parse;
     Number_toString := decimal;
     generateEventImage := fun _ _ _ => Ok png |}.

(** The same server an hour ahead of UTC. *)
Definition cet : Host :=
  {| Date_parse := iso_parse;
     LocalTZA := fun _ => 3600000;
     JSON_parse := json_parse;
     Number_toString := decimal;
     generateEventImage := fun _ _ _ => Ok png |}.

Definition late : value :=
  lesson "Guardia" "2025-11-07T23:30:00Z" "2025-11-08T00:30:00Z" ["2.05"].

Definition at_0900 : Z := 1762506000000.
Definition at_1000 : Z := 1762509600000.
Definition at_2200 : Z := 1762552800000.
Definition at_0930 : Z := 1762507800000.
Definition at_1030 : Z := 1762511400000.

Definition store_file (stamp : Z) (v : value) : file :=
  {| mtime := stamp; data := Some (stringify v) |}.

Definition corrupt_file (stamp : Z) : file :=
  {| mtime := stamp; data := Some "[{" |}.

(** A cache loaded earlier from a one-lesson store stamped 100. *)
Definition loaded_cache : cache :=
  {| eventsCache := VArr [anatomy]; cacheTimestamp := Some 100 |}.

Definition ended : value :=
  lesson "Bioquimica" "2025-11-07T07:00:00Z" "2025-11-07T08:00:00Z" ["2.05"].
Definition elsewhere : value :=
  lesson "Farmacologia" "2025-11-07T09:00:00Z" "2025-11-07T10:00:00Z" ["1.10"].
(** An entry whose location is a number. *)
Definition misplaced : value :=
  VObj [("title", VStr "Seminari");
        ("startTime", VStr "2025-11-07T09:00:00Z");
        ("endTime", VStr "2025-11-07T10:00:00Z");
        ("location", VNum 205)].

(** A JSON object with a property named [toString]: converting it to a
    string or to a date throws. *)
Definition unprintable : value := VObj [("toString", VNum 1)].

(** Entries of the room whose start time, end time, title or summary is
    such an object. *)
Definition badStart : value :=
  VObj [("title", VStr "Seminari");
        ("startTime", unprintable);
        ("endTime", VStr "2025-11-07T10:00:00Z");
        ("location", VArr [VStr "2.05"])].
Definition badEnd : value :=
  VObj [("title", VStr "Seminari");
        ("startTime", VStr "2025-11-07T11:00:00Z");
        ("endTime", unprintable);
        ("location", VArr [VStr "2.05"])].
Definition badSummary : value :=
  VObj [("summary", unprintable);
        ("startTime", VStr "2025-11-07T11:00:00Z");
        ("endTime", VStr "2025-11-07T12:00:00Z");
        ("location", VArr [VStr "2.05"])].
Definition badTitle : value :=
  VObj [("title", unprintable);
        ("startTime", VStr "2025-11-07T09:00:00Z");
        ("endTime", VStr "2025-11-07T10:00:00Z");
        ("location", VArr [VStr "2.05"])].

(** More stores for a second sample [JSON.parse]: texts that parse to
    something that is not a list, or to a list with an entry the handler
    cannot process. *)
Definition odd_stores : list value :=
  [VNull; VBool false; VObj [("events", VArr [anatomy])];
   VArr [ended; misplaced; histology];
   VArr [ended; badEnd; histology];
   VArr [badStart];
   VArr [badSummary];
   VObj [("length", unprintable)]].

Definition json_parse_any (text : string) : option value :=
  find (fun v => (stringify v =? text)%string) (stores ++ odd_stores).

Definition lenient : Host :=
  {| Date_parse := iso_parse;
     LocalTZA := fun _ => 0;
     JSON_parse := json_parse_any;
     Number_toString := decimal;
     generateEventImage := fun _ _ _ => Ok png |}.

(** A server whose renderer always rejects. *)
Definition unrendered : Host :=
  {| Date_parse := iso_parse;
     LocalTZA := fun _ => 0;
     JSON_parse := json_parse;
     Number_toString := decimal;
     generateEventImage := fun _ _ _ => Throw RenderError |}.

Definition blank (c : ascii) : bool :=
  let n := nat_of_ascii c in
  ((n =? 32) || (n =? 9) || (n =? 10) || (n =? 13))%nat.

Fixpoint trim_start (s : string) : string :=
  match s with
  | String c rest => if blank c then trim_start rest else s
  | EmptyString => s
  end.

Definition reverse (s : string) : string :=
  string_of_list_ascii (rev (list_ascii_of_string s)).

(** [trim] for texts whose only white space is ASCII. *)
Definition trim (s : string) : string :=
  reverse (trim_start (reverse (trim_start s))).

Definition line_break : string := String newline EmptyString.

(** A reply wrapped in a Markdown fence. *)
Definition fenced (v : value) : string :=
  fence_json ++ line_break ++ stringify v ++ line_break ++ fence.

Definition feed : value :=
  VObj [("a1@uv.es",
         VObj [("type", VStr "VEVENT");
               ("summary", VStr "Anatomia (Cod. 34201)");
               ("start", VStr "2025-11-07T09:00:00.000Z");
               ("end", VStr "2025-11-07T10:00:00.000Z");
               ("location", VStr "2.05");
               ("uid", VStr "a1@uv.es")]);
        ("h2@uv.es",
         VObj [("type", VStr "VEVENT");
               ("summary", VStr "Histologia (Cod. 34202)");
               ("start", VStr "2025-11-07T11:00:00.000Z");
               ("end", VStr "2025-11-07T12:00:00.000Z");
               ("location", VStr "2.05");
               ("uid", VStr "h2@uv.es")])].

(** A model that answers with the two lessons in a fence. *)
Definition fencing_model : Ingest :=
  {| fromURL := Ok feed;
     generateContent := fun _ => Ok (fenced (VArr [anatomy; histology]));
     JSON_stringify := stringify;
     String_trim := trim |}.

(** A model that answers with prose. *)
Definition chatty_model : Ingest :=
  {| fromURL := Ok feed;
     generateContent := fun _ => Ok "Here are the events you asked for.";
     JSON_stringify := stringify;
     String_trim := trim |}.

Definition json_dir (stamp : Z) : volume :=
  {| dirPresent := true; mkdirOk := true; writeOk := true;
     writeClock := stamp |}.

(** A browser where everything works, and one where setting the page
    content fails. *)
Definition chrome : Puppeteer :=
  {| launchOk := true; newPageOk := true; setViewportOk := true;
     setContentOk := fun _ => true; screenshot := fun _ => Ok png;
     closeOk := true |}.

Definition stalling : Puppeteer :=
  {| launchOk := true; newPageOk := true; setViewportOk := true;
     setContentOk := fun _ => false; screenshot := fun _ => Ok png;
     closeOk := true |}.

Definition request_world (store : option file) (now : Z) : world :=
  {| disk := store; clock := now; imageWritable := true |}.

End Sample.

(* ================================================================== *)
(** * The server *)
(* ================================================================== *)

Section Server.

Variable host : Host.

(** ** Dates *)

(** ToString, as template literals, string concatenation and
    [new Date(object)] apply it.  An object is first converted to a
    primitive through its [toString] and [valueOf]: a parsed object with
    an own property named [toString] (never a function) has none that
    works and the conversion throws a TypeError; any other parsed object
    prints as ["[object Object]"].  An array prints its elements joined
    by commas, [null] printing as nothing, and throws when an element
    does. *)
Fixpoint ToString (v : value) : result string :=
  match v with
  | VUndefined => Ok "undefined"
  | VNull => Ok "null"
  | VBool b => Ok (if b then "true" else "false")
  | VNum n => Ok (Number_toString host n)
  | VStr s => Ok s
  | VArr elems =>
      (fix join (l : list value) : result string :=
         match l with
         | [] => Ok EmptyString
         | x :: rest =>
             match match x with
                   | VUndefined | VNull => Ok EmptyString
                   | _ => ToString x
                   end
             with
             | Throw e => Throw e
             | Ok sx =>
                 match rest with
                 | [] => Ok sx
                 | _ :: _ =>
                     match join rest with
                     | Throw e => Throw e
                     | Ok tail => Ok (sx ++ "," ++ tail)
                     end
                 end
             end
         end) elems
  | VObj props =>
      if has_key "toString" props then Throw TypeError
      else Ok "[object Object]"
  end.

(** Time value of [new Date(v)]; [None] is an invalid date.  An object or
    an array is converted to a string first, which may throw. *)
Definition newDate (v : value) : result (option Z) :=
  match v with
  | VUndefined => Ok None
  | VNull => Ok (TimeClip 0)
  | VBool b => Ok (TimeClip (if b then 1 else 0))
  | VNum n => Ok (TimeClip n)
  | VStr s => Ok (Date_parse host s)
  | VArr _ | VObj _ =>
      (text <-- ToString v ;; Ok (Date_parse host text))%result
  end.

Definition LocalTime (t : Z) : Z := t + LocalTZA host t.

Definition getFullYear (d : option Z) : option Z :=
  option_map (fun t => YearFromTime (LocalTime t)) d.
Definition getMonth (d : option Z) : option Z :=
  option_map (fun t => MonthFromTime (LocalTime t)) d.
Definition getDate (d : option Z) : option Z :=
  option_map (fun t => DateFromTime (LocalTime t)) d.

(** [toISOString] throws a RangeError on an invalid date. *)
Definition toISOString (d : option Z) : result string :=
  match d with
  | Some t => Ok (isoFormat t)
  | None => Throw RangeError
  end.

(** ** The selection loop of [POST /data] *)

(** How one turn of the loop ends: [continue] (or falling off the end of
    the body) with the value [nextEvent] now has, or [break] with
    [currentEvent] set. *)
Inductive flow : Type :=
| Continue (nextEvent : value)
| Break (currentEvent nextEvent : value).

Definition loop_body (room : string) (timeNow : Z) (event nextEvent : value)
  : result flow :=
  (let todayYear := getFullYear (Some timeNow) in
   let todayMonth := getMonth (Some timeNow) in
   let todayDate := getDate (Some timeNow) in
   let timeNowMs := Some timeNow in
   startTime <-- get event "startTime" ;;
   if negb (truthy startTime) then Ok (Continue nextEvent) else
   endTime <-- get event "endTime" ;;
   if negb (truthy endTime) then Ok (Continue nextEvent) else
   location <-- get event "location" ;;
   if negb (truthy location) then Ok (Continue nextEvent) else
   listed <-- includes location room ;;
   if negb listed then Ok (Continue nextEvent) else
   eventStart <-- newDate startTime ;;
   if num_neq (getFullYear eventStart) todayYear
      || num_neq (getMonth eventStart) todayMonth
      || num_neq (getDate eventStart) todayDate
   then Ok (Continue nextEvent) else
   let eventStartMs := eventStart in
   eventEndMs <-- newDate endTime ;;
   if num_ge timeNowMs eventStartMs && num_le timeNowMs eventEndMs
   then Ok (Break event nextEvent) else
   if num_gt eventStartMs timeNowMs then
     if negb (truthy nextEvent) then Ok (Continue event) else
     nextStart <-- get nextEvent "startTime" ;;
     nextStartMs <-- newDate nextStart ;;
     if num_lt eventStartMs nextStartMs then Ok (Continue event)
     else Ok (Continue nextEvent)
   else Ok (Continue nextEvent))%result.

(** The [for ... of] loop, started with [currentEvent = null]. *)
Fixpoint for_of (room : string) (timeNow : Z) (events : list value)
  (nextEvent : value) : result (value * value) :=
  match events with
  | [] => Ok (VNull, nextEvent)
  | event :: rest =>
      match loop_body room timeNow event nextEvent with
      | Throw e => Throw e
      | Ok (Break currentEvent nextEvent') => Ok (currentEvent, nextEvent')
      | Ok (Continue nextEvent') => for_of room timeNow rest nextEvent'
      end
  end.

(** Lines 249-287: the pair ([currentEvent], [nextEvent]) the loop leaves. *)
Definition select (allEvents : value) (room : string) (timeNow : Z)
  : result (value * value) :=
  (events <-- iterate allEvents ;;
   for_of room timeNow events VNull)%result.

(** ** The cache *)

Definition readFileSync (f : file) : M string :=
  (tell ReadFileSync ;;
   match data f with
   | Some text => ret text
   | None => throw SystemError
   end)%eff.

Definition parse (text : string) : M value :=
  match JSON_parse host text with
  | Some v => ret v
  | None => throw SyntaxError
  end.

(** [!cacheTimestamp] is false exactly for a non-zero number. *)
Definition timestamp_truthy (t : option Z) : bool :=
  match t with
  | Some n => negb (n =? 0)
  | None => false
  end.

(** [!eventsCache || !cacheTimestamp || fileModTime > cacheTimestamp]. *)
Definition reload_due (cached : value) (stamp : option Z) (fileModTime : Z)
  : bool :=
  negb (truthy cached)
  || negb (timestamp_truthy stamp)
  || num_gt (Some fileModTime) stamp.

Definition loadEventsCache (store : option file) : M value :=
  (tell ExistsSync ;;
   match store with
   | None =>
       set_eventsCache VNull ;;
       set_cacheTimestamp None ;;
       ret VNull
   | Some f =>
       tell StatSync ;;
       let fileModTime := mtime f in
       cached <- read_eventsCache ;;
       stamp <- read_cacheTimestamp ;;
       (if reload_due cached stamp fileModTime then
          rawData <- readFileSync f ;;
          parsed <- parse rawData ;;
          set_eventsCache parsed ;;
          set_cacheTimestamp (Some fileModTime) ;;
          loaded <- read_eventsCache ;;
          length <- lift (get loaded "length") ;;
          lift (ToString length) ;;
          tell ConsoleLog
        else ret tt) ;;
       read_eventsCache
   end)%eff.

(** The last statement of [parseICal], run after the ingestion job has
    written a new store file: [cacheTimestamp = null]. *)
Definition invalidate : M unit := set_cacheTimestamp None.

(** ** The request handler *)

(** [new Date('2025-11-07T09:00:00Z').getTime()]. *)
Definition pinnedNow : Z := 1762506000000.

(** Lines 299-307. *)
Definition nextEventMessage (currentEvent nextEvent : value)
  : result (option string) :=
  (if negb (truthy currentEvent) then
     if truthy nextEvent then
       nextStart <-- get nextEvent "startTime" ;;
       started <-- newDate nextStart ;;
       startIso <-- toISOString started ;;
       title <-- get nextEvent "title" ;;
       shown <-- (if truthy title then Ok title
                  else summary <-- get nextEvent "summary" ;;
                       Ok (or_else summary (VStr "No Title"))) ;;
       text <-- ToString shown ;;
       Ok (Some ("Next event " ++ dquote ++ text ++ dquote
                 ++ " starts at " ++ startIso))
     else Ok (Some "No upcoming events for this room")
   else Ok None)%result.

Definition writeTestImage (w : world) : M unit :=
  (tell WriteFileSync ;;
   if imageWritable w then tell ConsoleLog else throw SystemError)%eff.

(** The instant a request is answered for: pinned when [SKIP_PARSE] is
    set, the wall clock otherwise. *)
Definition timeNow (skipParse : bool) (w : world) : Z :=
  if skipParse then pinnedNow else clock w.

(** The [POST /data] handler for a body [{ room }] with a string room.
    Everything runs inside the [try] block, whose [catch] answers 500;
    [res.json] without [res.status] answers 200. *)
Definition handler (skipParse : bool) (w : world) (room : string)
  : M Response.response :=
  try_catch
    (allEvents <- loadEventsCache (disk w) ;;
     if negb (truthy allEvents) then
       ret {| Response.status := 500;
              Response.json :=
                Response.ErrorJson "Structured events data not found" |}
     else
       found <- lift (select allEvents room (timeNow skipParse w)) ;;
       let currentEvent := fst found in
       let nextEvent := snd found in
       image <- lift (generateEventImage host currentEvent room nextEvent) ;;
       (if skipParse then writeTestImage w else ret tt) ;;
       message <- lift (nextEventMessage currentEvent nextEvent) ;;
       ret {| Response.status := 200;
              Response.json :=
                Response.DataJson
                  {| Response.room := room;
                     Response.currentTime :=
                       isoFormat (timeNow skipParse w);
                     Response.event := currentEvent;
                     Response.nextEvent := or_else nextEvent VNull;
                     Response.nextEventMessage := message;
                     Response.imageBase64 := image |} |})%eff
    (fun _ =>
       (tell ConsoleError ;;
        ret {| Response.status := 500;
               Response.json :=
                 Response.ErrorJson "Internal server error" |})%eff).

(* ------------------------------------------------------------------ *)
(** ** The ingestion job *)
(* ------------------------------------------------------------------ *)

Variable ing : Ingest.

(** [Object.values(o)]: the property values of an object in its own
    order, the elements of an array, the characters of a string, nothing
    for another primitive; [null] and [undefined] throw. *)
Definition Object_values (o : value) : result (list value) :=
  match o with
  | VUndefined | VNull => Throw TypeError
  | VObj props => Ok (map snd props)
  | VArr elems => Ok elems
  | VStr s => Ok (chars s)
  | VBool _ | VNum _ => Ok []
  end.

(** The callback of [.map] at lines 183-194. *)
Definition pickFields (event : value) : result value :=
  (type <-- get event "type" ;;
   summary <-- get event "summary" ;;
   description <-- get event "description" ;;
   start <-- get event "start" ;;
   finish <-- get event "end" ;;
   location <-- get event "location" ;;
   organizer <-- get event "organizer" ;;
   attendee <-- get event "attendee" ;;
   status <-- get event "status" ;;
   uid <-- get event "uid" ;;
   Ok (VObj [("type", type); ("summary", summary);
             ("description", description); ("start", start);
             ("end", finish); ("location", location);
             ("organizer", organizer); ("attendees", attendee);
             ("status", status); ("uid", uid)]))%result.

Fixpoint map_result {A B} (f : A -> result B) (l : list A) : result (list B) :=
  match l with
  | [] => Ok []
  | x :: rest =>
      (y <-- f x ;;
       ys <-- map_result f rest ;;
       Ok (y :: ys))%result
  end.

Definition mkdirSync (vol : volume) : M unit :=
  if mkdirOk vol then ret tt else throw SystemError.

Definition writeFileSync (vol : volume) (text : string) : M file :=
  (tell WriteFileSync ;;
   if writeOk vol
   then ret {| mtime := writeClock vol; data := Some text |}
   else throw SystemError)%eff.

(** [parseICal] (lines 178-229).  Besides the value the function returns,
    the result carries the store file as the function has written it. *)
Definition parseICal (vol : volume) : M (ingestion * file) :=
  (events <- lift (fromURL ing) ;;
   entries <- lift (Object_values events) ;;
   eventsArray <- lift (map_result pickFields entries) ;;
   let prompt := promptHead ++ JSON_stringify ing (VArr eventsArray) in
   reply <- lift (generateContent ing prompt) ;;
   let structuredData := String_trim ing (strip_fences reply) in
   parsedData <- parse structuredData ;;
   tell ExistsSync ;;
   (if dirPresent vol then ret tt else mkdirSync vol) ;;
   written <- writeFileSync vol (JSON_stringify ing parsedData) ;;
   tell ConsoleLog ;;
   invalidate ;;
   ret ({| originalEventCount := Z.of_nat (List.length eventsArray);
           structuredEvents := parsedData |}, written))%eff.

(** The store file after a run of the job that found [store]. *)
Definition store_after (store : option file)
  (run : result (ingestion * file) * cache * list effect) : option file :=
  match outcome run with
  | Ok (_, written) => Some written
  | Throw _ => store
  end.

(** [parseICal().catch(err => console.error(...))], as started at launch
    and by the weekly schedule. *)
Definition ingestionJob (vol : volume) : M unit :=
  try_catch (parseICal vol ;; ret tt)%eff (fun _ => tell ConsoleError).

(* ------------------------------------------------------------------ *)
(** ** The renderer *)
(* ------------------------------------------------------------------ *)

(** [date.toLocaleTimeString('en-GB', { hour: '2-digit', minute:
    '2-digit' })]: hours and minutes of the local time, 24-hour clock;
    an invalid date prints as ["Invalid Date"]. *)
Definition toLocaleTimeString (d : option Z) : string :=
  match d with
  | Some t =>
      let ms := TimeWithinDay (LocalTime t) in
      pad 2 (ms / 3600000) ++ ":" ++ pad 2 ((ms / 60000) mod 60)
  | None => "Invalid Date"
  end.

(** [o.k1 || o.k2]. *)
Definition get_or (o : value) (k1 k2 : string) : result value :=
  (first <-- get o k1 ;;
   if truthy first then Ok first else get o k2)%result.

(** [formatTime] (lines 137-142). *)
Definition formatTime (v : value) : result string :=
  (if negb (truthy v) then Ok "Unknown"
   else
     date <-- newDate v ;;
     match date with
     | None => Ok "Unknown"
     | Some t => Ok (toLocaleTimeString (Some t))
     end)%result.

(** [message] (lines 104-112).  The three holes of the template are
    filled from left to right, each converted to a string. *)
Definition freeRoomMessage (nextEvent : value) : result string :=
  (if truthy nextEvent then
     startVal <-- get_or nextEvent "startTime" "start" ;;
     shown <-- get nextEvent "title" ;;
     let title := or_else shown (VStr "Sense Títol") in
     organizer <-- get nextEvent "organizer" ;;
     teacher <-- (if truthy organizer then
                    name <-- get organizer "name" ;;
                    if truthy name then get organizer "name"
                    else Ok (VStr EmptyString)
                  else Ok (VStr EmptyString)) ;;
     titleText <-- ToString title ;;
     teacherPart <-- (if truthy teacher then
                        teacherText <-- ToString teacher ;;
                        Ok ("amb <b>" ++ teacherText ++ "</b>")
                      else Ok EmptyString) ;;
     timePart <-- (if truthy startVal then
                     date <-- newDate startVal ;;
                     Ok ("a les <b>" ++ toLocaleTimeString date ++ "</b>")
                   else Ok EmptyString) ;;
     Ok ("La pròxima classe és <b>" ++ titleText ++ "</b> "
         ++ teacherPart ++ " " ++ timePart)
   else Ok "Hui no hi han pròxims esdeveniments a aquesta sala")%result.

(** [teachers] (line 136). *)
Definition teachersOf (event : value) : result value :=
  (organizer <-- get event "organizer" ;;
   if truthy organizer then
     name <-- get organizer "name" ;;
     if truthy name then get organizer "name" else Ok organizer
   else
     again <-- get event "organizer" ;;
     Ok (or_else again (VStr EmptyString)))%result.

(** The page text [canvasHtml] (lines 101-163). *)
Definition canvasHtml (event : value) (roomCode : string) (nextEvent : value)
  : result string :=
  (if negb (truthy event) then
     let roomName := if (roomCode =? EmptyString)%string then "Unknown Room"
                     else roomCode in
     message <-- freeRoomMessage nextEvent ;;
     Ok (Template.freeRoomPage roomName message)
   else
     startTime <-- get_or event "startTime" "start" ;;
     endTime <-- get_or event "endTime" "end" ;;
     teachers <-- teachersOf event ;;
     startText <-- formatTime startTime ;;
     endText <-- formatTime endTime ;;
     title <-- get event "title" ;;
     shown <-- (if truthy title then Ok title
                else summary <-- get event "summary" ;;
                     Ok (or_else summary (VStr "No Title"))) ;;
     titleText <-- ToString shown ;;
     teachersText <-- ToString (or_else teachers (VStr EmptyString)) ;;
     Ok (Template.eventPage startText endText titleText teachersText))%result.

Variable pup : Puppeteer.

(** [getBrowser] (lines 23-31) on the module-level [browserInstance]
    ([false] for [null]): the outcome, the variable afterwards and the
    calls made. *)
Definition getBrowser (browserInstance : bool)
  : result unit * bool * list browser_call :=
  if negb browserInstance then
    if launchOk pup then (Ok tt, true, [Launch])
    else (Throw RenderError, false, [Launch])
  else (Ok tt, browserInstance, []).

(** The [try] block of lines 167-171: its outcome and the calls made. *)
Definition shoot (html : string) : result string * list browser_call :=
  if negb (setViewportOk pup) then (Throw RenderError, [SetViewport])
  else if negb (setContentOk pup html)
       then (Throw RenderError, [SetViewport; SetContent html])
       else (screenshot pup html, [SetViewport; SetContent html; Screenshot]).

(** [generateEventImage] (lines 55-175).  The page is opened before the
    [try]; [finally] closes it, and a failing [close] replaces the
    outcome of the block. *)
Definition generateEventImage_impl (event : value) (roomCode : string)
  (nextEvent : value) (browserInstance : bool)
  : result string * bool * list browser_call :=
  match canvasHtml event roomCode nextEvent with
  | Throw e => (Throw e, browserInstance, [])
  | Ok html =>
      match getBrowser browserInstance with
      | (Throw e, instance, calls) => (Throw e, instance, calls)
      | (Ok _, instance, calls) =>
          if negb (newPageOk pup)
          then (Throw RenderError, instance, (calls ++ [NewPage])%list)
          else
            let '(taken, made) := shoot html in
            ((if closeOk pup then taken else Throw RenderError),
             instance,
             (calls ++ NewPage :: made ++ [ClosePage])%list)
      end
  end.

(* ------------------------------------------------------------------ *)
(** ** What the properties speak about *)
(* ------------------------------------------------------------------ *)

(** The property [k] of an entry, [undefined] when there is none. *)
Definition field (e : value) (k : string) : value :=
  match get e k with
  | Ok v => v
  | Throw _ => VUndefined
  end.

(** The instant a value stands for as a date; none when it is not a
    valid date or cannot be converted. *)
Definition timeOf (v : value) : option Z :=
  match newDate v with
  | Ok date => date
  | Throw _ => None
  end.

Definition startMs (e : value) : option Z := timeOf (field e "startTime").
Definition endMs (e : value) : option Z := timeOf (field e "endTime").

(** Year, month and day of an instant in the server's local time zone. *)
Definition local_date (t : Z) : Z * Z * Z :=
  civil_from_days (Day (LocalTime t)).

Definition same_date (a b : Z * Z * Z) : bool :=
  let '(y1, m1, d1) := a in
  let '(y2, m2, d2) := b in
  (y1 =? y2) && (m1 =? m2) && (d1 =? d2).

(** The entry's [startTime] is a valid instant on the calendar date of
    [now]. *)
Definition starts_today (now : Z) (e : value) : bool :=
  match startMs e with
  | Some s => same_date (local_date s) (local_date now)
  | None => false
  end.

(** The entry's [location] is there and contains the room: as a member
    when it is a list, as a substring when it is one string. *)
Definition lists_room (room : string) (e : value) : bool :=
  truthy (field e "location")
  && match includes (field e "location") room with
     | Ok b => b
     | Throw _ => false
     end.

(** An entry the loop looks at: [startTime] and [endTime] present, the
    room among its locations, starting today. *)
Definition eligible (room : string) (now : Z) (e : value) : bool :=
  truthy (field e "startTime") && truthy (field e "endTime")
  && lists_room room e && starts_today now e.

(** [startTime <= now <= endTime], both bounds included. *)
Definition in_progress (now : Z) (e : value) : bool :=
  num_le (startMs e) (Some now) && num_le (Some now) (endMs e).

Definition is_current (room : string) (now : Z) (e : value) : bool :=
  eligible room now e && in_progress now e.

(** A candidate for next: eligible and [startTime > now]. *)
Definition is_future (room : string) (now : Z) (e : value) : bool :=
  eligible room now e && num_gt (startMs e) (Some now).

(** An entry is missing a required field: [startTime], [endTime] or
    [location] is absent, [null] or empty. *)
Definition empty_location (v : value) : bool :=
  match v with
  | VArr [] => true
  | _ => negb (truthy v)
  end.

Definition incomplete (e : value) : bool :=
  negb (truthy (field e "startTime"))
  || negb (truthy (field e "endTime"))
  || empty_location (field e "location").

(** An event record is a JSON object. *)
Definition is_record (e : value) : bool :=
  match e with
  | VObj _ => true
  | _ => false
  end.

(** The loop body throws on the entry [e] (for this room and instant):
    the body is run on [e] with no candidate held.  It throws when [e]
    is [null]; when both times are present and the location is present
    but is neither a list nor a string; and, for an entry that lists the
    room, when [startTime] (or, if it starts today, [endTime]) is an
    object or array that cannot be converted to a string. *)
Definition entry_throws (room : string) (now : Z) (e : value) : bool :=
  match loop_body room now e VNull with
  | Ok _ => false
  | Throw _ => true
  end.

(** A value none of whose objects, however deep, has a property named
    [toString]: every conversion to a string succeeds on it. *)
Fixpoint safe (v : value) : bool :=
  match v with
  | VArr elems =>
      (fix all (l : list value) : bool :=
         match l with
         | [] => true
         | x :: rest => safe x && all rest
         end) elems
  | VObj props =>
      negb (has_key "toString" props)
      && (fix all (l : list (string * value)) : bool :=
            match l with
            | [] => true
            | (_, x) :: rest => safe x && all rest
            end) props
  | _ => true
  end.

(** An entry as the data model has it, as far as the loop reads it: not
    [null], and with a location that, when present, is a list or a
    string. *)
Definition has_includes (v : value) : bool :=
  match v with
  | VStr _ | VArr _ => true
  | _ => false
  end.

Definition shaped (e : value) : bool :=
  match get e "startTime" with
  | Throw _ => false
  | Ok _ =>
      negb (truthy (field e "location")) || has_includes (field e "location")
  end.

(** What the loop may hold as candidate: nothing, or a candidate. *)
Definition settled (room : string) (now : Z) (kept : value) : Prop :=
  kept = VNull \/ is_future room now kept = true.

(** The candidate the loop keeps when [e] is a candidate and [kept] is
    what it held before: [e] if nothing was held or [e] starts strictly
    earlier. *)
Definition keep_earlier (e kept : value) : value :=
  if negb (truthy kept) then e
  else if num_lt (startMs e) (startMs kept) then e else kept.

(** What the body does with an entry, in the words of the vocabulary. *)
Definition verdict (room : string) (now : Z) (e kept : value) : flow :=
  if is_current room now e then Break e kept
  else if is_future room now e then Continue (keep_earlier e kept)
  else Continue kept.

(** The candidate held after the loop has gone through [events] without
    meeting a current event, starting from [kept]. *)
Definition keep (room : string) (now : Z) (kept e : value) : value :=
  if is_future room now e then keep_earlier e kept else kept.

Definition scan (room : string) (now : Z) (events : list value)
  (kept : value) : value :=
  fold_left (keep room now) events kept.

(** [n] is the first among the earliest candidates of [pre ++ n :: post]. *)
Definition first_earliest (room : string) (now : Z)
  (pre : list value) (n : value) (post : list value) : Prop :=
  is_future room now n = true
  /\ (forall x, In x pre -> is_future room now x = true ->
                num_lt (startMs n) (startMs x) = true)
  /\ (forall x, In x post -> is_future room now x = true ->
                num_le (startMs n) (startMs x) = true).

(** The cache variables after a call either are both untouched or were
    both assigned. *)
Definition wholesale (before after : cache) (store : option file) : Prop :=
  after = before
  \/ after = initial_cache
  \/ exists f text v,
       store = Some f /\ data f = Some text
       /\ JSON_parse host text = Some v
       /\ after = {| eventsCache := v; cacheTimestamp := Some (mtime f) |}.

(** What a reload leaves: an unreadable or malformed file throws before
    either variable is assigned; otherwise both are assigned, and only
    then is the length of the parsed value read and printed into the log
    line. *)
Definition reloaded (s : cache) (f : file)
  : result value * cache * list effect :=
  match data f with
  | None => (Throw SystemError, s, [ExistsSync; StatSync; ReadFileSync])
  | Some text =>
      match JSON_parse host text with
      | None => (Throw SyntaxError, s, [ExistsSync; StatSync; ReadFileSync])
      | Some v =>
          let s' := {| eventsCache := v; cacheTimestamp := Some (mtime f) |} in
          match (length <-- get v "length" ;; ToString length)%result with
          | Ok _ => (Ok v, s', [ExistsSync; StatSync; ReadFileSync; ConsoleLog])
          | Throw e => (Throw e, s', [ExistsSync; StatSync; ReadFileSync])
          end
      end
  end.

(** The ingestion job clears the timestamp, then a request arrives. *)
Definition invalidate_then_load (f : file) : M value :=
  (invalidate ;; loadEventsCache (Some f))%eff.

(* ------------------------------------------------------------------ *)
(** ** Properties *)
(* ------------------------------------------------------------------ *)

Arguments getFullYear : simpl never.
Arguments getMonth : simpl never.
Arguments getDate : simpl never.
Arguments newDate : simpl never.
Arguments ToString : simpl never.
Arguments local_date : simpl never.
Arguments same_date : simpl never.

(** ** Reading properties *)

Lemma get_field e k v : get e k = Ok v -> field e k = v.
Proof. unfold field. intros ->. reflexivity. Qed.

Lemma get_everywhere e k v k' : get e k = Ok v -> get e k' = Ok (field e k').
Proof.
  unfold field. destruct e; simpl; intros H; try discriminate; reflexivity.
Qed.

Lemma truthy_get e : truthy e = true -> forall k, get e k = Ok (field e k).
Proof.
  unfold field. destruct e; simpl; intros H k; try discriminate; reflexivity.
Qed.

Lemma field_truthy_get e k :
  truthy (field e k) = true -> forall k', get e k' = Ok (field e k').
Proof.
  intros H k'. destruct (get e k) eqn:G.
  - eapply get_everywhere; eassumption.
  - unfold field in H. rewrite G in H. discriminate.
Qed.

Lemma field_truthy_entry e k : truthy (field e k) = true -> truthy e = true.
Proof.
  unfold field. destruct e; simpl; intros H; try reflexivity;
    try discriminate H.
  destruct (k =? "length")%string; simpl in H; [|discriminate H].
  destruct s; [discriminate H | reflexivity].
Qed.

Lemma get_throws_TypeError e k err : get e k = Throw err -> err = TypeError.
Proof. destruct e; simpl; intros H; inversion H; reflexivity. Qed.

Lemma includes_throws_TypeError v room err :
  includes v room = Throw err -> err = TypeError.
Proof. destruct v; simpl; intros H; inversion H; reflexivity. Qed.

(** ** Conversions *)

Lemma ToString_arr elems :
  ToString (VArr elems)
  = match elems with
    | [] => Ok EmptyString
    | x :: rest =>
        match match x with
              | VUndefined | VNull => Ok EmptyString
              | _ => ToString x
              end
        with
        | Throw e => Throw e
        | Ok sx =>
            match rest with
            | [] => Ok sx
            | _ :: _ =>
                match ToString (VArr rest) with
                | Throw e => Throw e
                | Ok tail => Ok (sx ++ "," ++ tail)
                end
            end
        end
    end.
Proof. destruct elems; reflexivity. Qed.

Lemma safe_arr x rest : safe (VArr (x :: rest)) = safe x && safe (VArr rest).
Proof. reflexivity. Qed.

Lemma ToString_throws_TypeError v :
  forall err, ToString v = Throw err -> err = TypeError.
Proof.
  induction v using value_nested_ind; try (intros err H; discriminate H).
  - induction H as [|x rest Hx Hrest IH]; intros err; rewrite ToString_arr;
      [discriminate|].
    assert (Hx' : forall e0,
               match x with
               | VUndefined | VNull => Ok EmptyString
               | _ => ToString x
               end = Throw e0 -> e0 = TypeError)
      by (intros e0; destruct x; try discriminate; apply Hx).
    destruct (match x with
              | VUndefined | VNull => Ok EmptyString
              | _ => ToString x
              end) as [sx|e0]; [|intros E; inversion E; subst; auto].
    destruct rest as [|y rest]; [discriminate|].
    destruct (ToString (VArr (y :: rest))) as [tail|e1];
      [discriminate|]. intros E; inversion E; subst. apply IH. reflexivity.
  - intros err. unfold ToString. destruct (has_key "toString" props);
      intros E; inversion E; reflexivity.
Qed.

Lemma newDate_throws_TypeError v err : newDate v = Throw err -> err = TypeError.
Proof.
  unfold newDate. destruct v; try discriminate;
    (destruct (ToString _) eqn:T; simpl; intros E; inversion E; subst;
     eapply ToString_throws_TypeError; eassumption).
Qed.

Lemma safe_ToString v : safe v = true -> exists s, ToString v = Ok s.
Proof.
  induction v using value_nested_ind; try (intros _; eexists; reflexivity).
  - induction H as [|x rest Hx Hrest IH]; intros S; [eexists; reflexivity|].
    rewrite safe_arr in S. apply andb_prop in S as [Sx Sr].
    rewrite ToString_arr. destruct (IH Sr) as [tail Et].
    assert (Ex : exists sx, match x with
                            | VUndefined | VNull => Ok EmptyString
                            | _ => ToString x
                            end = Ok sx)
      by (destruct x; try (eexists; reflexivity); apply Hx; exact Sx).
    destruct Ex as [sx ->]. destruct rest; [eauto|]. rewrite Et. eauto.
  - intros S. unfold ToString. simpl in S. apply andb_prop in S as [S _].
    destruct (has_key "toString" props); [discriminate|]. eauto.
Qed.

Lemma safe_newDate v : safe v = true -> exists d, newDate v = Ok d.
Proof.
  intros S. unfold newDate.
  destruct v; try (eexists; reflexivity);
    destruct (safe_ToString _ S) as [s ->]; simpl; eauto.
Qed.

Lemma safe_lookup k props :
  (fix all (l : list (string * value)) : bool :=
     match l with
     | [] => true
     | (_, x) :: rest => safe x && all rest
     end) props = true ->
  safe (lookup k props) = true.
Proof.
  induction props as [|[k' x] rest IH]; intros S; [reflexivity|].
  apply andb_prop in S as [Sx Sr]. simpl.
  destruct (k =? k')%string; auto.
Qed.

Lemma safe_field e k : safe e = true -> safe (field e k) = true.
Proof.
  unfold field. destruct e; simpl; try reflexivity.
  - destruct (k =? "length")%string; reflexivity.
  - destruct (k =? "length")%string; reflexivity.
  - intros S. apply andb_prop in S as [_ S]. apply safe_lookup. exact S.
Qed.

(** ** Comparisons and dates *)

Lemma num_ge_le a b : num_ge a b = num_le b a.
Proof. destruct a, b; reflexivity. Qed.

Lemma same_date_getters d now :
  num_neq (getFullYear d) (getFullYear (Some now))
  || num_neq (getMonth d) (getMonth (Some now))
  || num_neq (getDate d) (getDate (Some now))
  = negb match d with
         | Some s => same_date (local_date s) (local_date now)
         | None => false
         end.
Proof.
  destruct d as [s|]; [|reflexivity].
  unfold getFullYear, getMonth, getDate, YearFromTime, MonthFromTime,
    DateFromTime, local_date, same_date; cbn [option_map num_neq].
  destruct (civil_from_days (Day (LocalTime s))) as [[y1 m1] d1].
  destruct (civil_from_days (Day (LocalTime now))) as [[y2 m2] d2].
  cbn [fst snd].
  destruct (Z.eqb_spec y1 y2), (Z.eqb_spec m1 m2), (Z.eqb_spec d1 d2),
    (Z.eqb_spec (m1 - 1) (m2 - 1)); simpl; try reflexivity; lia.
Qed.

Lemma timeOf_some v s : timeOf v = Some s -> newDate v = Ok (Some s).
Proof.
  unfold timeOf. destruct (newDate v) as [d|]; [|discriminate].
  intros ->. reflexivity.
Qed.

(** ** One turn of the loop *)

Lemma eligible_fields room now e :
  eligible room now e = true ->
  truthy (field e "startTime") = true /\ truthy (field e "endTime") = true
  /\ truthy (field e "location") = true
  /\ includes (field e "location") room = Ok true
  /\ starts_today now e = true.
Proof.
  unfold eligible, lists_room. intros H.
  apply andb_prop in H as [H Ht]. apply andb_prop in H as [H Hl].
  apply andb_prop in H as [Hs He]. apply andb_prop in Hl as [Hl Hi].
  destruct (includes (field e "location") room) as [[|]|]; try discriminate.
  auto.
Qed.

Lemma eligible_truthy room now e : eligible room now e = true -> truthy e = true.
Proof.
  intros H. apply eligible_fields in H as (Hs & _).
  eapply field_truthy_entry; eassumption.
Qed.

Lemma future_start room now e :
  is_future room now e = true ->
  exists s, startMs e = Some s /\ now < s.
Proof.
  unfold is_future. intros H. apply andb_prop in H as [_ H].
  destruct (startMs e) as [s|]; [|discriminate].
  exists s. split; [reflexivity|]. apply Z.ltb_lt. exact H.
Qed.

Lemma future_truthy room now e : is_future room now e = true -> truthy e = true.
Proof.
  unfold is_future. intros H. apply andb_prop in H as [H _].
  eapply eligible_truthy; eassumption.
Qed.

Lemma current_not_future room now e :
  is_current room now e = true -> is_future room now e = false.
Proof.
  unfold is_current, is_future, in_progress. intros H.
  apply andb_prop in H as [-> H]. apply andb_prop in H as [H _]. simpl.
  destruct (startMs e); simpl in *; [|reflexivity].
  apply Z.leb_le in H. apply Z.ltb_ge. exact H.
Qed.

(** What the body does with an entry, for any candidate the loop may
    hold: it throws exactly as it does with no candidate held, and
    otherwise ends as [verdict] says. *)
Lemma loop_body_spec room now e kept :
  settled room now kept ->
  loop_body room now e kept
  = match loop_body room now e VNull with
    | Throw err => Throw err
    | Ok _ => Ok (verdict room now e kept)
    end.
Proof.
  intros K.
  unfold verdict, is_current, is_future, eligible, lists_room, starts_today,
    in_progress, keep_earlier, startMs, endMs, timeOf, loop_body.
  destruct (get e "startTime") as [st|err] eqn:G; [|reflexivity].
  rewrite (get_everywhere _ _ _ "endTime" G).
  rewrite (get_everywhere _ _ _ "location" G).
  rewrite (get_field _ _ _ G). cbn [rbind].
  destruct (truthy st); cbn [negb andb]; [|reflexivity].
  destruct (truthy (field e "endTime")); cbn [negb andb]; [|reflexivity].
  destruct (truthy (field e "location")); cbn [negb andb]; [|reflexivity].
  destruct (includes (field e "location") room) as [[|]|err]; cbn [rbind negb];
    [|reflexivity|reflexivity].
  destruct (newDate st) as [d|err]; cbn [rbind]; [|reflexivity].
  rewrite same_date_getters.
  destruct d as [s|]; cbn [negb andb]; [|reflexivity].
  destruct (same_date (local_date s) (local_date now)); cbn [negb andb];
    [|reflexivity].
  destruct (newDate (field e "endTime")) as [en|err]; cbn [rbind];
    [|reflexivity].
  rewrite num_ge_le.
  destruct (num_le (Some s) (Some now) && num_le (Some now) en);
    [reflexivity|].
  cbn [num_gt truthy negb].
  destruct (now <? s); [|reflexivity].
  destruct (truthy kept) eqn:T; cbn [negb]; [|reflexivity].
  destruct K as [->|F]; [discriminate T|].
  destruct (future_start _ _ _ F) as (s' & S' & _).
  unfold startMs in S'. pose proof (timeOf_some _ _ S') as N.
  rewrite (truthy_get _ T "startTime"). cbn [rbind]. rewrite N.
  cbn [rbind]. destruct (num_lt (Some s) (Some s')); reflexivity.
Qed.

Lemma loop_body_verdict room now e kept :
  settled room now kept ->
  entry_throws room now e = false ->
  loop_body room now e kept = Ok (verdict room now e kept).
Proof.
  intros K T. rewrite (loop_body_spec _ _ _ _ K). unfold entry_throws in T.
  destruct (loop_body room now e VNull); [reflexivity | discriminate].
Qed.

Lemma loop_body_error room now e kept err :
  loop_body room now e kept = Throw err -> err = TypeError.
Proof.
  unfold loop_body.
  destruct (get e "startTime") as [st|e0] eqn:G;
    [|intros E; inversion E; subst; eapply get_throws_TypeError; eassumption].
  rewrite (get_everywhere _ _ _ "endTime" G).
  rewrite (get_everywhere _ _ _ "location" G). cbn [rbind].
  destruct (truthy st); cbn [negb]; [|discriminate].
  destruct (truthy (field e "endTime")); cbn [negb]; [|discriminate].
  destruct (truthy (field e "location")); cbn [negb]; [|discriminate].
  destruct (includes (field e "location") room) as [[|]|e0] eqn:I;
    cbn [rbind negb];
    [| discriminate
     | intros E; inversion E; subst; eapply includes_throws_TypeError;
       eassumption].
  destruct (newDate st) as [d|e0] eqn:N; cbn [rbind];
    [|intros E; inversion E; subst; eapply newDate_throws_TypeError;
      eassumption].
  match goal with |- context [if ?c then Ok (Continue kept) else _] =>
    destruct c end; [discriminate|].
  destruct (newDate (field e "endTime")) as [en|e0] eqn:N2; cbn [rbind];
    [|intros E; inversion E; subst; eapply newDate_throws_TypeError;
      eassumption].
  match goal with |- context [if ?c then Ok (Break e kept) else _] =>
    destruct c end; [discriminate|].
  destruct (num_gt d (Some now)); [|discriminate].
  destruct (negb (truthy kept)); [discriminate|].
  destruct (get kept "startTime") as [ns|e0] eqn:G2; cbn [rbind];
    [|intros E; inversion E; subst; eapply get_throws_TypeError; eassumption].
  destruct (newDate ns) as [nd|e0] eqn:N3; cbn [rbind];
    [|intros E; inversion E; subst; eapply newDate_throws_TypeError;
      eassumption].
  destruct (num_lt d nd); discriminate.
Qed.

Lemma loop_body_throws room now e kept :
  settled room now kept ->
  entry_throws room now e = true ->
  loop_body room now e kept = Throw TypeError.
Proof.
  intros K T. rewrite (loop_body_spec _ _ _ _ K). unfold entry_throws in T.
  destruct (loop_body room now e VNull) as [|err] eqn:L; [discriminate|].
  rewrite (loop_body_error _ _ _ _ _ L). reflexivity.
Qed.

Lemma eligible_current_no_throw room now e :
  is_current room now e = true -> entry_throws room now e = false.
Proof.
  intros C. unfold entry_throws.
  unfold is_current, in_progress in C.
  apply andb_prop in C as [E P]. apply andb_prop in P as [Ps Pe].
  pose proof (eligible_fields _ _ _ E) as (Ts & Te & Tl & I & D).
  unfold starts_today, startMs, endMs in *.
  destruct (timeOf (field e "startTime")) as [s|] eqn:S; [|discriminate].
  destruct (timeOf (field e "endTime")) as [en|] eqn:En; [|discriminate].
  apply timeOf_some in S. apply timeOf_some in En.
  unfold loop_body. rewrite !(field_truthy_get _ _ Ts). cbn [rbind].
  rewrite Ts, Te, Tl, I. cbn [negb rbind]. rewrite S. cbn [rbind].
  rewrite same_date_getters, D. cbn [negb]. rewrite En. cbn [rbind].
  rewrite num_ge_le, Ps, Pe. reflexivity.
Qed.

Lemma settled_keep room now kept e :
  settled room now kept -> settled room now (keep room now kept e).
Proof.
  intros K. unfold keep. destruct (is_future room now e) eqn:F; [|exact K].
  unfold keep_earlier. destruct (negb (truthy kept)); [right; exact F|].
  destruct (num_lt (startMs e) (startMs kept)); [right; exact F | exact K].
Qed.

Lemma settled_null room now : settled room now VNull.
Proof. left. reflexivity. Qed.

(** An entry as the data model has it never makes the body throw: it is
    not [null], its location, when present, is a list or a string, and no
    object in it has a property named [toString]. *)
Lemma shaped_safe_no_throw room now e :
  shaped e = true -> safe e = true -> entry_throws room now e = false.
Proof.
  unfold shaped, entry_throws, loop_body. intros Sh Sa.
  destruct (get e "startTime") as [st|err] eqn:G; [|discriminate].
  rewrite (get_everywhere _ _ _ "endTime" G).
  rewrite (get_everywhere _ _ _ "location" G). cbn [rbind].
  pose proof (get_field _ _ _ G) as Est. subst st.
  destruct (truthy (field e "startTime")); cbn [negb]; [|reflexivity].
  destruct (truthy (field e "endTime")); cbn [negb]; [|reflexivity].
  destruct (truthy (field e "location")); cbn [negb orb] in *; [|reflexivity].
  assert (I : exists b, includes (field e "location") room = Ok b)
    by (destruct (field e "location"); try discriminate Sh; simpl; eauto).
  destruct I as [b ->]. cbn [rbind]. destruct b; cbn [negb]; [|reflexivity].
  destruct (safe_newDate _ (safe_field _ "startTime" Sa)) as [d ->].
  cbn [rbind].
  match goal with |- context [if ?c then Ok (Continue VNull) else _] =>
    destruct c end; [reflexivity|].
  destruct (safe_newDate _ (safe_field _ "endTime" Sa)) as [en ->].
  cbn [rbind].
  match goal with |- context [if ?c then Ok (Break e VNull) else _] =>
    destruct c end; [reflexivity|].
  cbn [truthy negb]. destruct (num_gt d (Some now)); reflexivity.
Qed.

(** Conversely, the body throws on an entry of the room whose start
    time cannot be converted (line 263), and on one starting today whose
    end time cannot be converted (line 273). *)
Lemma unconvertible_start_throws room now e err :
  truthy (field e "startTime") = true ->
  truthy (field e "endTime") = true ->
  lists_room room e = true ->
  newDate (field e "startTime") = Throw err ->
  entry_throws room now e = true.
Proof.
  intros Ts Te L N. unfold entry_throws, loop_body.
  unfold lists_room in L. apply andb_prop in L as [Tl I].
  destruct (includes (field e "location") room) as [[|]|] eqn:Inc;
    try discriminate I.
  rewrite !(field_truthy_get _ _ Ts). cbn [rbind].
  rewrite Ts, Te, Tl, Inc. cbn [negb rbind]. rewrite N. reflexivity.
Qed.

Lemma unconvertible_end_throws room now e err :
  eligible room now e = true ->
  newDate (field e "endTime") = Throw err ->
  entry_throws room now e = true.
Proof.
  intros E N. unfold entry_throws, loop_body.
  pose proof (eligible_fields _ _ _ E) as (Ts & Te & Tl & I & D).
  unfold starts_today, startMs in D.
  destruct (timeOf (field e "startTime")) as [s|] eqn:S; [|discriminate].
  apply timeOf_some in S.
  rewrite !(field_truthy_get _ _ Ts). cbn [rbind].
  rewrite Ts, Te, Tl, I. cbn [negb rbind]. rewrite S. cbn [rbind].
  rewrite same_date_getters, D. cbn [negb]. rewrite N. reflexivity.
Qed.

(** ** The whole loop *)

Lemma for_of_hit room now e rest kept :
  settled room now kept ->
  is_current room now e = true ->
  for_of room now (e :: rest) kept = Ok (e, kept).
Proof.
  intros K H. simpl.
  rewrite (loop_body_verdict _ _ _ _ K (eligible_current_no_throw _ _ _ H)).
  unfold verdict. rewrite H. reflexivity.
Qed.

Lemma for_of_pass room now e rest kept :
  settled room now kept ->
  entry_throws room now e = false ->
  is_current room now e = false ->
  for_of room now (e :: rest) kept = for_of room now rest (keep room now kept e).
Proof.
  intros K T C. simpl. rewrite (loop_body_verdict _ _ _ _ K T).
  unfold verdict, keep. rewrite C.
  destruct (is_future room now e); reflexivity.
Qed.

Lemma settled_scan room now events :
  forall kept, settled room now kept -> settled room now (scan room now events kept).
Proof.
  induction events as [|x events IH]; intros kept K; [exact K|].
  apply (IH (keep room now kept x)). apply settled_keep. exact K.
Qed.

Lemma for_of_quiet room now pre rest :
  Forall (fun x => entry_throws room now x = false) pre ->
  Forall (fun x => is_current room now x = false) pre ->
  forall kept,
    settled room now kept ->
    for_of room now (pre ++ rest) kept
    = for_of room now rest (scan room now pre kept).
Proof.
  induction pre as [|x pre IH]; intros T C kept K; [reflexivity|].
  inversion T; inversion C; subst.
  rewrite <- app_comm_cons, for_of_pass by assumption.
  apply IH; try assumption. apply settled_keep. exact K.
Qed.

Lemma for_of_all_quiet room now events kept :
  settled room now kept ->
  Forall (fun x => entry_throws room now x = false) events ->
  Forall (fun x => is_current room now x = false) events ->
  for_of room now events kept = Ok (VNull, scan room now events kept).
Proof.
  intros K T C. rewrite <- (app_nil_r events) at 1.
  rewrite for_of_quiet by assumption. reflexivity.
Qed.

(** ** The candidate kept by a scan *)

Lemma scan_snoc room now events x kept :
  scan room now (events ++ [x]) kept
  = keep room now (scan room now events kept) x.
Proof. unfold scan. rewrite fold_left_app. reflexivity. Qed.

Lemma scan_no_future room now events kept :
  Forall (fun x => is_future room now x = false) events ->
  scan room now events kept = kept.
Proof.
  revert kept. induction events as [|x events IH]; intros kept H;
    [reflexivity|].
  inversion H as [|? ? Hx Hrest]; subst.
  change (scan room now events (keep room now kept x) = kept).
  unfold keep. rewrite Hx. apply IH; assumption.
Qed.

Lemma no_future_forall room now events :
  existsb (is_future room now) events = false ->
  Forall (fun x => is_future room now x = false) events.
Proof.
  intros Ex. apply Forall_forall. intros y Hy.
  destruct (is_future room now y) eqn:Fy; [|reflexivity].
  assert (existsb (is_future room now) events = true)
    by (apply existsb_exists; exists y; auto).
  congruence.
Qed.

Lemma scan_first_earliest room now events :
  existsb (is_future room now) events = true ->
  exists pre n post,
    events = (pre ++ n :: post)%list
    /\ scan room now events VNull = n
    /\ first_earliest room now pre n post.
Proof.
  induction events as [|x events IH] using rev_ind; [discriminate|].
  rewrite existsb_app, scan_snoc. simpl. rewrite orb_false_r.
  destruct (existsb (is_future room now) events) eqn:Ex.
  - intros _. destruct (IH eq_refl) as (pre & n & post & -> & Hs & Hn & Hpre & Hpost).
    rewrite Hs. unfold keep.
    destruct (is_future room now x) eqn:Fx.
    + unfold keep_earlier. rewrite (future_truthy _ _ _ Hn). simpl.
      destruct (future_start _ _ _ Fx) as (sx & Sx & _).
      destruct (future_start _ _ _ Hn) as (sn & Sn & _).
      rewrite Sx, Sn. simpl.
      destruct (sx <? sn) eqn:Lt.
      * exists (pre ++ n :: post)%list, x, []. split; [reflexivity|].
        split; [reflexivity|]. split; [exact Fx|]. split; [|intros ? []].
        apply Z.ltb_lt in Lt.
        intros y Hy Fy. rewrite Sx.
        destruct (future_start _ _ _ Fy) as (sy & Sy & _). rewrite Sy. simpl.
        apply Z.ltb_lt. apply in_app_or in Hy as [Hy|[<-|Hy]].
        -- specialize (Hpre _ Hy Fy). rewrite Sn, Sy in Hpre. simpl in Hpre.
           apply Z.ltb_lt in Hpre. lia.
        -- rewrite Sn in Sy. inversion Sy; subst. exact Lt.
        -- specialize (Hpost _ Hy Fy). rewrite Sn, Sy in Hpost. simpl in Hpost.
           apply Z.leb_le in Hpost. lia.
      * exists pre, n, (post ++ [x])%list. rewrite <- app_assoc. simpl.
        split; [reflexivity|]. split; [reflexivity|]. split; [exact Hn|].
        split; [exact Hpre|].
        intros y Hy Fy. apply in_app_or in Hy as [Hy|[<-|[]]].
        -- apply Hpost; assumption.
        -- rewrite Sn, Sx. simpl. apply Z.leb_le. apply Z.ltb_ge in Lt. exact Lt.
    + exists pre, n, (post ++ [x])%list. rewrite <- app_assoc. simpl.
      split; [reflexivity|]. split; [reflexivity|]. split; [exact Hn|].
      split; [exact Hpre|].
      intros y Hy Fy. apply in_app_or in Hy as [Hy|[<-|[]]].
      * apply Hpost; assumption.
      * rewrite Fx in Fy. discriminate.
  - simpl. intros Fx.
    pose proof (no_future_forall _ _ _ Ex) as Q.
    rewrite (scan_no_future _ _ _ _ Q). unfold keep. rewrite Fx.
    exists events, x, []. split; [reflexivity|]. split; [reflexivity|].
    split; [exact Fx|]. split; [|intros ? []].
    intros y Hy Fy. rewrite Forall_forall in Q. rewrite (Q _ Hy) in Fy.
    discriminate.
Qed.

(** ** What the loop can report *)

Lemma keep_earlier_cases e kept :
  keep_earlier e kept = e \/ keep_earlier e kept = kept.
Proof.
  unfold keep_earlier. destruct (negb (truthy kept)); [left; reflexivity|].
  destruct (num_lt (startMs e) (startMs kept)); auto.
Qed.

Lemma for_of_step room now x events kept :
  settled room now kept ->
  for_of room now (x :: events) kept
  = if entry_throws room now x then Throw TypeError
    else if is_current room now x then Ok (x, kept)
    else for_of room now events (keep room now kept x).
Proof.
  intros K. simpl. destruct (entry_throws room now x) eqn:T.
  - rewrite (loop_body_throws _ _ _ _ K T). reflexivity.
  - rewrite (loop_body_verdict _ _ _ _ K T). unfold verdict, keep.
    destruct (is_current room now x); [reflexivity|].
    destruct (is_future room now x); reflexivity.
Qed.

Lemma for_of_reports room now events :
  forall kept c n,
    settled room now kept ->
    for_of room now events kept = Ok (c, n) ->
    (c = VNull \/ is_current room now c = true)
    /\ settled room now n.
Proof.
  induction events as [|x events IH]; intros kept c n K.
  - simpl. intros H. inversion H; subst. auto.
  - rewrite (for_of_step _ _ _ _ _ K).
    destruct (entry_throws room now x); [discriminate|].
    destruct (is_current room now x) eqn:C.
    + intros H. inversion H; subst. auto.
    + apply IH. apply settled_keep. exact K.
Qed.

Lemma select_reports allEvents room now c n :
  select allEvents room now = Ok (c, n) ->
  (c = VNull \/ is_current room now c = true)
  /\ (n = VNull \/ is_future room now n = true).
Proof.
  unfold select. destruct (iterate allEvents) as [events|]; simpl;
    [|discriminate].
  apply for_of_reports. apply settled_null.
Qed.

Lemma eligible_today room now e :
  eligible room now e = true -> starts_today now e = true.
Proof. intros H. apply eligible_fields in H. tauto. Qed.

(** ** Entries with a missing field *)

Lemma loop_body_incomplete room now e kept :
  is_record e = true -> incomplete e = true ->
  loop_body room now e kept = Ok (Continue kept).
Proof.
  destruct e; try discriminate. intros _.
  unfold incomplete, empty_location, loop_body, field. cbn [get rbind].
  destruct (truthy (lookup "startTime" props)); cbn [negb orb];
    [|reflexivity].
  destruct (truthy (lookup "endTime" props)); cbn [negb orb]; [|reflexivity].
  destruct (lookup "location" props) as [| |b|n|s|[|]|]; cbn [truthy negb];
    try discriminate; try reflexivity.
  - destruct b; [discriminate | reflexivity].
  - destruct (n =? 0); [reflexivity | discriminate].
  - destruct (negb (s =? EmptyString)%string); [discriminate | reflexivity].
Qed.

Lemma for_of_without room now e pre post :
  (forall kept, loop_body room now e kept = Ok (Continue kept)) ->
  forall kept,
    for_of room now (pre ++ e :: post) kept
    = for_of room now (pre ++ post) kept.
Proof.
  intros Skip. induction pre as [|x pre IH]; intros kept; simpl.
  - rewrite Skip. reflexivity.
  - destruct (loop_body room now x kept) as [[k|c k]|]; auto.
Qed.

(* ------------------------------------------------------------------ *)
(** ** The selector *)
(* ------------------------------------------------------------------ *)

(** C1.  Whenever the store holds an event [e] that is eligible for the
    room (both times present, the room among its locations, starting on
    the calendar date of [now]) with [startTime <= now <= endTime], bounds
    included, the selector returns a current event, and it is the first
    such event of the store in iteration order.  The entries ahead of [e]
    are ones on which the loop body does not throw. *)
Theorem select_first_current room now pre e post :
  is_current room now e = true ->
  Forall (fun x => entry_throws room now x = false) pre ->
  exists c n,
    select (VArr (pre ++ e :: post)) room now = Ok (c, n)
    /\ find (is_current room now) (pre ++ e :: post) = Some c
    /\ is_current room now c = true.
Proof.
  intros He. unfold select. simpl. generalize (settled_null room now).
  generalize VNull.
  induction pre as [|x pre IH]; intros kept K T.
  - exists e, kept. cbn [app]. rewrite for_of_hit by assumption.
    simpl. rewrite He. auto.
  - inversion T as [|? ? Tx Tpre]; subst.
    destruct (is_current room now x) eqn:Cx.
    + exists x, kept. rewrite <- app_comm_cons, for_of_hit by assumption.
      simpl. rewrite Cx. auto.
    + destruct (IH (keep room now kept x) (settled_keep _ _ _ _ K) Tpre)
        as (c & n & H1 & H2 & H3).
      exists c, n. rewrite <- app_comm_cons, for_of_pass by assumption.
      simpl. rewrite Cx. auto.
Qed.

(** C2, as the code has it.  When a current event is found the loop stops
    there, so no event after it is reported; what is returned as next is
    whatever the loop held on reaching the current event: [null] when no
    candidate (eligible, [startTime > now]) comes before it in iteration
    order, as in Scenario A, and otherwise the first among the earliest of
    the candidates before it.  The entries ahead of the current event are
    ones on which the loop body does not throw. *)
Theorem next_beside_current room now pre e post :
  is_current room now e = true ->
  Forall (fun x => entry_throws room now x = false) pre ->
  Forall (fun x => is_current room now x = false) pre ->
  select (VArr (pre ++ e :: post)) room now = Ok (e, scan room now pre VNull)
  /\ (existsb (is_future room now) pre = false ->
      scan room now pre VNull = VNull)
  /\ (existsb (is_future room now) pre = true ->
      exists a n b,
        pre = (a ++ n :: b)%list /\ scan room now pre VNull = n
        /\ first_earliest room now a n b).
Proof.
  intros He T C. split; [|split].
  - unfold select. simpl.
    rewrite for_of_quiet by (try assumption; apply settled_null).
    apply for_of_hit; [|exact He]. apply settled_scan, settled_null.
  - intros Ex. apply scan_no_future, no_future_forall. exact Ex.
  - apply scan_first_earliest.
Qed.

(** C3.  When no event of the store is current for the room and at least
    one eligible event of today has [startTime > now], the selector
    returns no current event and, as next, a candidate with the minimal
    [startTime]; among candidates with exactly that start time it is the
    first in iteration order (every candidate before it starts strictly
    later).  The entries of the store are ones on which the loop body
    does not throw. *)
Theorem select_earliest_next room now events e :
  Forall (fun x => entry_throws room now x = false) events ->
  Forall (fun x => is_current room now x = false) events ->
  In e events ->
  is_future room now e = true ->
  exists pre n post,
    events = (pre ++ n :: post)%list
    /\ select (VArr events) room now = Ok (VNull, n)
    /\ is_future room now n = true
    /\ (forall x, In x pre -> is_future room now x = true ->
                  num_lt (startMs n) (startMs x) = true)
    /\ (forall x, In x post -> is_future room now x = true ->
                  num_le (startMs n) (startMs x) = true).
Proof.
  intros T C Hin Fe.
  assert (Ex : existsb (is_future room now) events = true)
    by (apply existsb_exists; exists e; auto).
  destruct (scan_first_earliest _ _ _ Ex) as (pre & n & post & E & S & F & P & Q).
  exists pre, n, post. split; [exact E|]. split; [|auto].
  unfold select. simpl.
  rewrite for_of_all_quiet by (try assumption; apply settled_null).
  rewrite S. reflexivity.
Qed.

(** C5.  An event whose [startTime] is not on the calendar date of [now]
    (year, month and day in the server's local time zone) is never what
    the selector returns, neither as current nor as next, whatever the
    store, the room and the instant. *)
Theorem other_day_never_reported allEvents room now c n e :
  select allEvents room now = Ok (c, n) ->
  e <> VNull ->
  starts_today now e = false ->
  c <> e /\ n <> e.
Proof.
  intros H Ne D. apply select_reports in H as [[Hc|Hc] [Hn|Hn]].
  - subst. auto.
  - split; [subst; auto|]. intros ->.
    apply andb_prop in Hn as [Hn _]. apply eligible_today in Hn. congruence.
  - split; [|subst; auto]. intros ->.
    apply andb_prop in Hc as [Hc _]. apply eligible_today in Hc. congruence.
  - split; intros ->.
    + apply andb_prop in Hc as [Hc _]. apply eligible_today in Hc. congruence.
    + apply andb_prop in Hn as [Hn _]. apply eligible_today in Hn. congruence.
Qed.

(** C6.  An event record of the store that lacks [startTime], [endTime]
    or a non-empty [location] is skipped: the loop body continues with
    nothing changed and without throwing, and the selection over the
    whole store is exactly the selection over the store without that
    record. *)
Theorem incomplete_event_skipped room now pre e post :
  is_record e = true ->
  incomplete e = true ->
  (forall kept, loop_body room now e kept = Ok (Continue kept))
  /\ select (VArr (pre ++ e :: post)) room now
     = select (VArr (pre ++ post)) room now.
Proof.
  intros R I.
  assert (Skip : forall kept, loop_body room now e kept = Ok (Continue kept))
    by (intros; apply loop_body_incomplete; assumption).
  split; [exact Skip|]. unfold select. simpl.
  apply for_of_without. exact Skip.
Qed.

(* ------------------------------------------------------------------ *)
(** ** The cache *)
(* ------------------------------------------------------------------ *)

Lemma load_absent s :
  loadEventsCache None s = (Ok VNull, initial_cache, [ExistsSync]).
Proof. reflexivity. Qed.

Lemma load_fresh s f :
  reload_due (eventsCache s) (cacheTimestamp s) (mtime f) = false ->
  loadEventsCache (Some f) s = (Ok (eventsCache s), s, [ExistsSync; StatSync]).
Proof.
  intros H. unfold loadEventsCache, bind, tell, read_eventsCache,
    read_cacheTimestamp, ret. rewrite H. reflexivity.
Qed.

Lemma load_reload s f :
  reload_due (eventsCache s) (cacheTimestamp s) (mtime f) = true ->
  loadEventsCache (Some f) s = reloaded s f.
Proof.
  intros H. unfold loadEventsCache, reloaded, bind, tell, read_eventsCache,
    read_cacheTimestamp, ret, readFileSync, parse, throw.
  rewrite H. simpl.
  destruct (data f) as [text|]; simpl; [|reflexivity].
  destruct (JSON_parse host text) as [v|]; simpl; [|reflexivity].
  unfold lift. destruct (get v "length") as [len|]; simpl; [|reflexivity].
  destruct (ToString len); reflexivity.
Qed.

Lemma reload_due_invalidated cached fileModTime :
  reload_due cached None fileModTime = true.
Proof. unfold reload_due. destruct (truthy cached); reflexivity. Qed.

Lemma reload_due_initial fileModTime :
  reload_due (eventsCache initial_cache) (cacheTimestamp initial_cache)
             fileModTime = true.
Proof. reflexivity. Qed.

Lemma reloaded_final s f text v :
  data f = Some text -> JSON_parse host text = Some v ->
  final (reloaded s f)
  = {| eventsCache := v; cacheTimestamp := Some (mtime f) |}.
Proof.
  intros Hd Hp. unfold reloaded. rewrite Hd, Hp.
  destruct (get v "length") as [len|]; simpl; [|reflexivity].
  destruct (ToString len); reflexivity.
Qed.

Lemma reloaded_outcome s f text v :
  data f = Some text -> JSON_parse host text = Some v ->
  outcome (reloaded s f)
  = rbind (get v "length") (fun len => rbind (ToString len) (fun _ => Ok v)).
Proof.
  intros Hd Hp. unfold reloaded. rewrite Hd, Hp.
  destruct (get v "length") as [len|]; simpl; [|reflexivity].
  destruct (ToString len); reflexivity.
Qed.

Lemma reloaded_list s f text events :
  data f = Some text -> JSON_parse host text = Some (VArr events) ->
  reloaded s f
  = (Ok (VArr events),
     {| eventsCache := VArr events; cacheTimestamp := Some (mtime f) |},
     [ExistsSync; StatSync; ReadFileSync; ConsoleLog]).
Proof. intros Hd Hp. unfold reloaded. rewrite Hd, Hp. reflexivity. Qed.

Lemma load_wholesale s store :
  wholesale s (final (loadEventsCache store s)) store.
Proof.
  destruct store as [f|]; [|right; left; reflexivity].
  destruct (reload_due (eventsCache s) (cacheTimestamp s) (mtime f)) eqn:D.
  - rewrite (load_reload _ _ D).
    destruct (data f) as [text|] eqn:Hd;
      [|unfold reloaded; rewrite Hd; left; reflexivity].
    destruct (JSON_parse host text) as [v|] eqn:Hp;
      [|unfold reloaded; rewrite Hd, Hp; left; reflexivity].
    right; right. exists f, text, v.
    rewrite (reloaded_final _ _ _ _ Hd Hp). auto.
  - rewrite (load_fresh _ _ D). left; reflexivity.
Qed.

(* ------------------------------------------------------------------ *)
(** ** The handler *)
(* ------------------------------------------------------------------ *)

Lemma handler_load_throws skipParse w room s e s' t :
  loadEventsCache (disk w) s = (Throw e, s', t) ->
  handler skipParse w room s
  = (Ok {| Response.status := 500;
           Response.json := Response.ErrorJson "Internal server error" |},
     s', (t ++ [ConsoleError])%list).
Proof.
  intros L. unfold handler, try_catch, bind. rewrite L. reflexivity.
Qed.

Lemma handler_not_found skipParse w room s v s' t :
  loadEventsCache (disk w) s = (Ok v, s', t) ->
  truthy v = false ->
  handler skipParse w room s
  = (Ok {| Response.status := 500;
           Response.json :=
             Response.ErrorJson "Structured events data not found" |},
     s', (t ++ [])%list).
Proof.
  intros L V. unfold handler, try_catch, bind. rewrite L, V. reflexivity.
Qed.

Lemma handler_served skipParse w room s v s' t c n image message :
  loadEventsCache (disk w) s = (Ok v, s', t) ->
  truthy v = true ->
  select v room (timeNow skipParse w) = Ok (c, n) ->
  generateEventImage host c room n = Ok image ->
  (skipParse = true -> imageWritable w = true) ->
  nextEventMessage c n = Ok message ->
  outcome (handler skipParse w room s)
  = Ok {| Response.status := 200;
          Response.json :=
            Response.DataJson
              {| Response.room := room;
                 Response.currentTime := isoFormat (timeNow skipParse w);
                 Response.event := c;
                 Response.nextEvent := or_else n VNull;
                 Response.nextEventMessage := message;
                 Response.imageBase64 := image |} |}
  /\ final (handler skipParse w room s) = s'.
Proof.
  intros L V S G W N. unfold handler, try_catch, bind, lift, writeTestImage.
  rewrite L, V, S. cbn [negb fst snd]. rewrite G, N.
  destruct skipParse.
  - rewrite (W eq_refl). split; reflexivity.
  - split; reflexivity.
Qed.

(** The message is defined for what the loop reports, when that has a
    title that can be printed. *)
Lemma message_defined room now c n :
  c = VNull \/ is_current room now c = true ->
  settled room now n ->
  safe n = true ->
  exists message,
    nextEventMessage c n = Ok message
    /\ (message = None <-> c <> VNull).
Proof.
  intros [->|C] N Sa.
  - destruct N as [->|F];
      [eexists; split; [reflexivity|]; split; [discriminate | congruence]|].
    unfold nextEventMessage. cbn [truthy negb].
    rewrite (future_truthy _ _ _ F).
    rewrite !(truthy_get _ (future_truthy _ _ _ F)).
    destruct (future_start _ _ _ F) as (st & St & _).
    unfold startMs in St. cbn [rbind]. rewrite (timeOf_some _ _ St).
    cbn [toISOString rbind].
    destruct (truthy (field n "title")); cbn [rbind].
    + destruct (safe_ToString _ (safe_field n "title" Sa)) as [text ->].
      eexists; split; [reflexivity|]. split; [discriminate | congruence].
    + assert (Ss : safe (or_else (field n "summary") (VStr "No Title")) = true)
        by (unfold or_else; destruct (truthy (field n "summary"));
            [apply safe_field; exact Sa | reflexivity]).
      destruct (safe_ToString _ Ss) as [text ->].
      eexists; split; [reflexivity|]. split; [discriminate | congruence].
  - unfold nextEventMessage. pose proof C as C'.
    apply andb_prop in C as [C _].
    rewrite (eligible_truthy _ _ _ C). eexists; split; [reflexivity|].
    split; [|reflexivity]. intros _ ->. discriminate C'.
Qed.

Lemma message_none : nextEventMessage VNull VNull
                     = Ok (Some "No upcoming events for this room").
Proof. reflexivity. Qed.

Lemma handler_final skipParse w room s :
  final (handler skipParse w room s) = final (loadEventsCache (disk w) s).
Proof.
  unfold handler, try_catch, bind, lift, ret, tell, writeTestImage, throw.
  destruct (loadEventsCache (disk w) s) as [[[v|e] s'] t]; [|reflexivity].
  destruct (truthy v); [|reflexivity]. cbn [negb].
  destruct (select v room (timeNow skipParse w)) as [[c n]|]; [|reflexivity].
  cbn [fst snd].
  destruct (generateEventImage host c room n); [|reflexivity].
  destruct (nextEventMessage c n), skipParse, (imageWritable w); reflexivity.
Qed.

Lemma reloaded_reads s f : In ReadFileSync (trace (reloaded s f)).
Proof.
  unfold reloaded. destruct (data f) as [text|]; [|simpl; auto].
  destruct (JSON_parse host text) as [v|]; [|simpl; auto].
  destruct (get v "length") as [len|]; simpl; auto.
  destruct (ToString len); simpl; auto.
Qed.

Lemma invalidate_then_load_reloads s f :
  invalidate_then_load f s
  = reloaded {| eventsCache := eventsCache s; cacheTimestamp := None |} f.
Proof.
  unfold invalidate_then_load, bind, invalidate, set_cacheTimestamp.
  rewrite load_reload by apply reload_due_invalidated.
  destruct (reloaded _ f) as [[r s2] t2]. reflexivity.
Qed.

Lemma select_nothing_eligible room now events :
  Forall (fun x => entry_throws room now x = false) events ->
  Forall (fun x => eligible room now x = false) events ->
  select (VArr events) room now = Ok (VNull, VNull).
Proof.
  intros T E. unfold select. simpl. rewrite for_of_all_quiet.
  - rewrite scan_no_future; [reflexivity|].
    eapply Forall_impl; [|exact E]. intros x Hx. unfold is_future.
    rewrite Hx. reflexivity.
  - apply settled_null.
  - exact T.
  - eapply Forall_impl; [|exact E]. intros x Hx. unfold is_current.
    rewrite Hx. reflexivity.
Qed.

(** C4.  If no event of the store is eligible for the requested room
    today (and the loop body throws on none of the entries), the selector
    returns neither a current nor a next event (both [null]), and the
    response, status 200, carries both as [null] and exactly the message
    ["No upcoming events for this room"]. *)
Theorem no_match_no_upcoming skipParse w room s events image :
  outcome (loadEventsCache (disk w) s) = Ok (VArr events) ->
  Forall (fun x => entry_throws room (timeNow skipParse w) x = false) events ->
  Forall (fun x => eligible room (timeNow skipParse w) x = false) events ->
  generateEventImage host VNull room VNull = Ok image ->
  (skipParse = true -> imageWritable w = true) ->
  select (VArr events) room (timeNow skipParse w) = Ok (VNull, VNull)
  /\ nextEventMessage VNull VNull
     = Ok (Some "No upcoming events for this room")
  /\ outcome (handler skipParse w room s)
     = Ok {| Response.status := 200;
             Response.json :=
               Response.DataJson
                 {| Response.room := room;
                    Response.currentTime := isoFormat (timeNow skipParse w);
                    Response.event := VNull;
                    Response.nextEvent := VNull;
                    Response.nextEventMessage :=
                      Some "No upcoming events for this room";
                    Response.imageBase64 := image |} |}.
Proof.
  intros L T E G W.
  pose proof (select_nothing_eligible _ _ _ T E) as S.
  split; [exact S|]. split; [reflexivity|].
  destruct (loadEventsCache (disk w) s) as [[r s'] t] eqn:Ld.
  unfold outcome in L. simpl in L. subst r.
  eapply (handler_served skipParse w room s (VArr events) s' t VNull VNull);
    eauto using message_none.
Qed.

(** C7.  When the store file does not exist, [loadEventsCache] returns
    [null] and the request is answered with status 500 and the error
    ["Structured events data not found"] (the handler returns normally); a
    later request that finds the file, with a store the selector, the
    renderer and the message of lines 299-307 can process, is answered
    with status 200 and the events selected from that file. *)
Theorem missing_store_then_recovery
  skipParse w room s w' f text events c n image message :
  disk w = None ->
  disk w' = Some f ->
  data f = Some text ->
  JSON_parse host text = Some (VArr events) ->
  select (VArr events) room (timeNow skipParse w') = Ok (c, n) ->
  generateEventImage host c room n = Ok image ->
  (skipParse = true -> imageWritable w' = true) ->
  nextEventMessage c n = Ok message ->
  outcome (loadEventsCache (disk w) s) = Ok VNull
  /\ outcome (handler skipParse w room s)
     = Ok {| Response.status := 500;
             Response.json :=
               Response.ErrorJson "Structured events data not found" |}
  /\ outcome (handler skipParse w' room (final (handler skipParse w room s)))
     = Ok {| Response.status := 200;
             Response.json :=
               Response.DataJson
                 {| Response.room := room;
                    Response.currentTime := isoFormat (timeNow skipParse w');
                    Response.event := c;
                    Response.nextEvent := or_else n VNull;
                    Response.nextEventMessage := message;
                    Response.imageBase64 := image |} |}.
Proof.
  intros D D' Hd Hp S G W N.
  rewrite handler_final, D, load_absent.
  split; [reflexivity|]. split.
  - rewrite (handler_not_found skipParse w room s VNull initial_cache
               [ExistsSync]);
      [reflexivity | rewrite D; apply load_absent | reflexivity].
  - eapply handler_served; eauto; [|reflexivity].
    rewrite D'. unfold final. cbn [fst snd].
    rewrite load_reload by apply reload_due_initial.
    eapply reloaded_list; eassumption.
Qed.

(** C8.  After the invalidation ([cacheTimestamp = null]) the next call of
    [loadEventsCache] reads the store file again and parses it, whatever
    the cached snapshot and the earlier timestamp were, so also when the
    file's modification time has not changed: the variables then hold
    the freshly parsed value and the file's modification time, and the
    call returns that value unless reading its [length] for the log line,
    or printing it, throws. *)
Theorem invalidate_forces_reload s f text :
  data f = Some text ->
  In ReadFileSync (trace (invalidate_then_load f s))
  /\ match JSON_parse host text with
     | Some v =>
         final (invalidate_then_load f s)
         = {| eventsCache := v; cacheTimestamp := Some (mtime f) |}
         /\ outcome (invalidate_then_load f s)
            = rbind (get v "length")
                (fun length => rbind (ToString length) (fun _ => Ok v))
     | None =>
         outcome (invalidate_then_load f s) = Throw SyntaxError
     end.
Proof.
  intros Hd. rewrite invalidate_then_load_reloads.
  split; [apply reloaded_reads|].
  destruct (JSON_parse host text) as [v|] eqn:Hp.
  - split; [eapply reloaded_final | eapply reloaded_outcome]; eassumption.
  - unfold reloaded. rewrite Hd, Hp. reflexivity.
Qed.

(** C9, as the code has it.  When the store file exists and its text does
    not parse, a request leaves both cache variables exactly as they
    were.  Whether it is answered with a server error depends on the
    cache: when the call reloads (no snapshot, no timestamp, or a newer
    file) [JSON.parse] throws and the answer is status 500 with the error
    ["Internal server error"]; otherwise the file is not read and
    [loadEventsCache] returns the earlier snapshot.  In general a call of
    [loadEventsCache] leaves the two variables either both untouched or
    both assigned. *)
Theorem corrupt_store_changes_nothing skipParse w room s f text :
  disk w = Some f ->
  data f = Some text ->
  JSON_parse host text = None ->
  final (loadEventsCache (disk w) s) = s
  /\ final (handler skipParse w room s) = s
  /\ (reload_due (eventsCache s) (cacheTimestamp s) (mtime f) = true ->
      outcome (loadEventsCache (disk w) s) = Throw SyntaxError
      /\ outcome (handler skipParse w room s)
         = Ok {| Response.status := 500;
                 Response.json :=
                   Response.ErrorJson "Internal server error" |})
  /\ (reload_due (eventsCache s) (cacheTimestamp s) (mtime f) = false ->
      loadEventsCache (disk w) s
      = (Ok (eventsCache s), s, [ExistsSync; StatSync]))
  /\ (forall s0 store, wholesale s0 (final (loadEventsCache store s0)) store).
Proof.
  intros D Hd Hp.
  assert (F : final (loadEventsCache (disk w) s) = s).
  { rewrite D.
    destruct (reload_due (eventsCache s) (cacheTimestamp s) (mtime f)) eqn:R.
    - rewrite (load_reload _ _ R). unfold reloaded. rewrite Hd, Hp. reflexivity.
    - rewrite (load_fresh _ _ R). reflexivity. }
  split; [exact F|]. split; [rewrite handler_final; exact F|].
  split; [|split; [|intros; apply load_wholesale]].
  - intros R.
    assert (L : loadEventsCache (disk w) s
                = (Throw SyntaxError, s, [ExistsSync; StatSync; ReadFileSync])).
    { rewrite D, (load_reload _ _ R). unfold reloaded. rewrite Hd, Hp.
      reflexivity. }
    split; [rewrite L; reflexivity|].
    rewrite (handler_load_throws _ _ _ _ _ _ _ L). reflexivity.
  - intros R. rewrite D. apply load_fresh. exact R.
Qed.

(** C10.  When the store file is absent, [loadEventsCache] sets both
    [eventsCache] and [cacheTimestamp] to [null] and returns [null], so a
    snapshot loaded earlier is dropped and the request gets the answer
    500 ["Structured events data not found"] instead of it; the first call
    after the file is back reads and parses it, whatever its modification
    time. *)
Theorem absent_store_drops_snapshot skipParse w room s :
  disk w = None ->
  final (loadEventsCache (disk w) s) = initial_cache
  /\ outcome (loadEventsCache (disk w) s) = Ok VNull
  /\ outcome (handler skipParse w room s)
     = Ok {| Response.status := 500;
             Response.json :=
               Response.ErrorJson "Structured events data not found" |}
  /\ forall f,
       loadEventsCache (Some f) (final (loadEventsCache (disk w) s))
       = reloaded initial_cache f
       /\ In ReadFileSync
            (trace (loadEventsCache (Some f)
                      (final (loadEventsCache (disk w) s)))).
Proof.
  intros D. rewrite D, load_absent. unfold final, outcome. cbn [fst snd].
  split; [reflexivity|]. split; [reflexivity|]. split.
  - rewrite (handler_not_found skipParse w room s VNull initial_cache
               [ExistsSync]);
      [reflexivity | rewrite D; apply load_absent | reflexivity].
  - intros f. rewrite load_reload by apply reload_due_initial.
    split; [reflexivity | apply reloaded_reads].
Qed.

(* ------------------------------------------------------------------ *)
(** ** More on the selector *)
(* ------------------------------------------------------------------ *)

Lemma keep_cases room now kept e :
  keep room now kept e = kept
  \/ (keep room now kept e = e /\ is_future room now e = true).
Proof.
  unfold keep. destruct (is_future room now e); [|auto].
  destruct (keep_earlier_cases e kept) as [->| ->]; auto.
Qed.

Lemma for_of_members room now events :
  forall kept c n,
    settled room now kept ->
    for_of room now events kept = Ok (c, n) ->
    (c = VNull \/ In c events) /\ (n = kept \/ In n events).
Proof.
  induction events as [|x events IH]; intros kept c n K.
  - simpl. intros H. inversion H; subst. auto.
  - rewrite (for_of_step _ _ _ _ _ K).
    destruct (entry_throws room now x); [discriminate|].
    destruct (is_current room now x) eqn:C.
    + intros H. inversion H; subst. simpl. auto.
    + intros H. apply IH in H as [Hc Hn]; [|apply settled_keep; exact K].
      split; [simpl; tauto|].
      destruct Hn as [->|Hn]; [|simpl; auto].
      destruct (keep_cases room now kept x) as [->|[-> _]]; simpl; auto.
Qed.

(** X1.  The selector only reports what is in the store: a current event
    it returns is an entry of the store that is eligible for the room and
    in progress at [now]; a next event it returns is an entry of the store
    that is eligible for the room and starts after [now]. *)
Theorem select_reports_store_entries room now events c n :
  select (VArr events) room now = Ok (c, n) ->
  (c = VNull \/ (In c events /\ is_current room now c = true))
  /\ (n = VNull \/ (In n events /\ is_future room now n = true)).
Proof.
  intros H. destruct (select_reports _ _ _ _ _ H) as [Hc Hn].
  unfold select in H. simpl in H.
  apply for_of_members in H as [Mc Mn]; [|apply settled_null].
  split.
  - destruct Hc as [->|Hc]; [auto|]. right. split; [|exact Hc].
    destruct Mc as [->|Mc]; [discriminate Hc|exact Mc].
  - destruct Hn as [->|Hn]; [auto|]. right. split; [|exact Hn].
    destruct Mn as [->|Mn]; [discriminate Hn|exact Mn].
Qed.

Lemma for_of_filter room now events :
  Forall (fun x => entry_throws room now x = false) events ->
  forall kept,
    settled room now kept ->
    for_of room now events kept
    = for_of room now (filter (eligible room now) events) kept.
Proof.
  induction events as [|x events IH]; intros T kept K; [reflexivity|].
  inversion T as [|? ? Tx Trest]; subst. cbn [filter].
  destruct (eligible room now x) eqn:E.
  - rewrite !(for_of_step _ _ _ _ _ K), Tx.
    destruct (is_current room now x); [reflexivity|].
    apply IH; [exact Trest | apply settled_keep; exact K].
  - rewrite (for_of_step _ _ _ _ _ K), Tx.
    unfold is_current, keep, is_future. rewrite E. cbn [andb].
    apply IH; assumption.
Qed.

(** X2.  Only the eligible entries matter: when the loop body throws on
    no entry of the store (none is [null], none has a location without
    [includes] or a time that cannot be converted), the selection is the
    selection over the sub-list of entries that have both times, list the
    room and start today.  Events of other rooms or other days, and
    incomplete records, have no influence on the answer. *)
Theorem select_only_eligible room now events :
  Forall (fun x => entry_throws room now x = false) events ->
  select (VArr events) room now
  = select (VArr (filter (eligible room now) events)) room now.
Proof.
  intros T. unfold select. simpl. apply for_of_filter; [exact T|].
  apply settled_null.
Qed.

Lemma handler_select_throws skipParse w room s v s' t e :
  loadEventsCache (disk w) s = (Ok v, s', t) ->
  truthy v = true ->
  select v room (timeNow skipParse w) = Throw e ->
  handler skipParse w room s
  = (Ok {| Response.status := 500;
           Response.json := Response.ErrorJson "Internal server error" |},
     s', (t ++ [ConsoleError])%list).
Proof.
  intros L V S. unfold handler, try_catch, bind, lift.
  rewrite L, V, S. cbn [negb app]. rewrite app_nil_r. reflexivity.
Qed.

(** X3.  After the last lesson: when the loop body throws on no entry of
    the store, no entry is in progress for the room and none is a
    candidate for next (every eligible event has started and is over),
    the selector returns neither, and the message of the response is
    ["No upcoming events for this room"]. *)
Theorem select_day_over room now events :
  Forall (fun x => entry_throws room now x = false) events ->
  Forall (fun x => is_current room now x = false) events ->
  Forall (fun x => is_future room now x = false) events ->
  select (VArr events) room now = Ok (VNull, VNull)
  /\ nextEventMessage VNull VNull
     = Ok (Some "No upcoming events for this room").
Proof.
  intros T C F. split; [|reflexivity].
  unfold select. simpl.
  rewrite for_of_all_quiet by (try assumption; apply settled_null).
  rewrite scan_no_future by assumption. reflexivity.
Qed.


Lemma for_of_returns room now events :
  Forall (fun x => entry_throws room now x = false) events ->
  forall kept, settled room now kept ->
               exists c n, for_of room now events kept = Ok (c, n).
Proof.
  induction 1 as [|x rest Tx Trest IH]; intros kept K; [simpl; eauto|].
  rewrite (for_of_step _ _ _ _ _ K), Tx.
  destruct (is_current room now x); [eauto|].
  apply IH. apply settled_keep. exact K.
Qed.

Lemma safe_member events x :
  safe (VArr events) = true -> In x events -> safe x = true.
Proof.
  induction events as [|y events IH]; intros S [].
  - subst. rewrite safe_arr in S. apply andb_prop in S. tauto.
  - rewrite safe_arr in S. apply andb_prop in S as [_ S]. auto.
Qed.

(** X5.  A well-formed store is always answered: when the store is a
    list on none of whose entries the loop body throws and in which no
    object has a property named [toString], the renderer succeeds on what
    is selected and (under [SKIP_PARSE]) the test image can be written,
    the handler answers status 200 with the room, the instant, the
    selected pair, the message and the image, and the message is [null]
    exactly when a current event was found. *)
Theorem wellformed_store_answered skipParse w room s events :
  outcome (loadEventsCache (disk w) s) = Ok (VArr events) ->
  Forall (fun x => entry_throws room (timeNow skipParse w) x = false) events ->
  safe (VArr events) = true ->
  (forall c n, exists image, generateEventImage host c room n = Ok image) ->
  (skipParse = true -> imageWritable w = true) ->
  exists c n message image,
    select (VArr events) room (timeNow skipParse w) = Ok (c, n)
    /\ generateEventImage host c room n = Ok image
    /\ nextEventMessage c n = Ok message
    /\ (message = None <-> c <> VNull)
    /\ outcome (handler skipParse w room s)
       = Ok {| Response.status := 200;
               Response.json :=
                 Response.DataJson
                   {| Response.room := room;
                      Response.currentTime := isoFormat (timeNow skipParse w);
                      Response.event := c;
                      Response.nextEvent := or_else n VNull;
                      Response.nextEventMessage := message;
                      Response.imageBase64 := image |} |}.
Proof.
  intros L T Sa G W.
  destruct (for_of_returns room (timeNow skipParse w) _ T VNull
              (settled_null _ _)) as (c & n & S).
  change (select (VArr events) room (timeNow skipParse w) = Ok (c, n)) in S.
  destruct (G c n) as [image Gi].
  destruct (select_reports _ _ _ _ _ S) as [Hc Hn].
  assert (Sn : safe n = true).
  { pose proof S as S'. unfold select in S'. simpl in S'.
    apply for_of_members in S' as [_ [->|Mn]];
      [reflexivity | eapply safe_member; eassumption | apply settled_null]. }
  destruct (message_defined _ _ _ _ Hc Hn Sn) as (message & Hm & Hnone).
  exists c, n, message, image.
  split; [exact S|]. split; [exact Gi|]. split; [exact Hm|].
  split; [exact Hnone|].
  destruct (loadEventsCache (disk w) s) as [[r s'] t] eqn:Ld.
  unfold outcome in L. simpl in L. subst r.
  eapply handler_served; eauto.
Qed.

(** X6.  A failing renderer fails the request but not the cache: when
    the store loads and the selection succeeds but [generateEventImage]
    rejects, the handler answers status 500 with the error
    ["Internal server error"], and the cache variables are left as the
    load set them. *)
Theorem render_failure_keeps_cache skipParse w room s v c n e :
  outcome (loadEventsCache (disk w) s) = Ok v ->
  truthy v = true ->
  select v room (timeNow skipParse w) = Ok (c, n) ->
  generateEventImage host c room n = Throw e ->
  outcome (handler skipParse w room s)
  = Ok {| Response.status := 500;
          Response.json := Response.ErrorJson "Internal server error" |}
  /\ final (handler skipParse w room s) = final (loadEventsCache (disk w) s).
Proof.
  intros L V S G. split; [|apply handler_final].
  destruct (loadEventsCache (disk w) s) as [[r s'] t] eqn:Ld.
  unfold outcome in L. simpl in L. subst r.
  unfold handler, try_catch, bind, lift. rewrite Ld, V, S.
  cbn [negb fst snd]. rewrite G. reflexivity.
Qed.

(* ------------------------------------------------------------------ *)
(** ** More on the cache *)
(* ------------------------------------------------------------------ *)

Lemma fresh_does_not_read s f :
  reload_due (eventsCache s) (cacheTimestamp s) (mtime f) = false ->
  ~ In ReadFileSync (trace (loadEventsCache (Some f) s)).
Proof.
  intros R. rewrite (load_fresh _ _ R). simpl. intros [H|[H|[]]]; discriminate.
Qed.

Lemma reload_reads s f :
  reload_due (eventsCache s) (cacheTimestamp s) (mtime f) = true ->
  In ReadFileSync (trace (loadEventsCache (Some f) s)).
Proof. intros R. rewrite (load_reload _ _ R). apply reloaded_reads. Qed.

Lemma reload_due_loaded v t m :
  truthy v = true -> t <> 0 ->
  reload_due v (Some t) m = (t <? m).
Proof.
  intros V T. unfold reload_due. rewrite V. simpl.
  destruct (Z.eqb_spec t 0); [contradiction|]. reflexivity.
Qed.

(** X7.  Once a store has been loaded from a file with a non-zero
    modification time, a later call reads the file again exactly when
    the file it finds has a strictly newer modification time; a file that
    is not newer is not opened, whatever it contains, and the snapshot
    loaded before is returned. *)
Theorem file_read_iff_newer s f text v f' :
  reload_due (eventsCache s) (cacheTimestamp s) (mtime f) = true ->
  data f = Some text ->
  JSON_parse host text = Some v ->
  truthy v = true ->
  mtime f <> 0 ->
  (In ReadFileSync
      (trace (loadEventsCache (Some f') (final (loadEventsCache (Some f) s))))
   <-> mtime f < mtime f')
  /\ (mtime f' <= mtime f ->
      outcome (loadEventsCache (Some f') (final (loadEventsCache (Some f) s)))
      = Ok v).
Proof.
  intros R Hd Hp V M.
  assert (F : final (loadEventsCache (Some f) s)
              = {| eventsCache := v; cacheTimestamp := Some (mtime f) |})
    by (rewrite (load_reload _ _ R); eapply reloaded_final; eassumption).
  rewrite F.
  assert (D : reload_due v (Some (mtime f)) (mtime f') = (mtime f <? mtime f'))
    by (apply reload_due_loaded; assumption).
  split; [split|].
  - intros I. destruct (mtime f <? mtime f') eqn:Lt; [apply Z.ltb_lt; exact Lt|].
    exfalso. revert I. apply fresh_does_not_read. exact D.
  - intros Lt. apply reload_reads. simpl. rewrite D. apply Z.ltb_lt. exact Lt.
  - intros Le. rewrite load_fresh; [reflexivity|].
    simpl. rewrite D. apply Z.ltb_ge. exact Le.
Qed.

(** X8.  A store file whose modification time is 0 (the epoch) is never
    cached: the recorded timestamp 0 counts as absent, so after it was
    loaded the very next call reads and parses it again. *)
Theorem epoch_mtime_never_cached s f text v :
  mtime f = 0 ->
  data f = Some text ->
  JSON_parse host text = Some v ->
  final (invalidate_then_load f s)
  = {| eventsCache := v; cacheTimestamp := Some 0 |}
  /\ In ReadFileSync
        (trace (loadEventsCache (Some f) (final (invalidate_then_load f s)))).
Proof.
  intros M Hd Hp.
  assert (F : final (invalidate_then_load f s)
              = {| eventsCache := v; cacheTimestamp := Some 0 |})
    by (rewrite invalidate_then_load_reloads, <- M;
        eapply reloaded_final; eassumption).
  split; [exact F|]. rewrite F. apply reload_reads. simpl.
  unfold reload_due. simpl. destruct (truthy v); reflexivity.
Qed.

Lemma falsy_length_prints v length :
  truthy v = false -> get v "length" = Ok length ->
  exists text, ToString length = Ok text.
Proof.
  destruct v; simpl; intros V G; try discriminate;
    inversion G; subst; eexists; reflexivity.
Qed.

(** X9.  A store file that parses to a falsy value is assigned to the
    cache all the same, together with the file's modification time, and
    the request fails with status 500: with the error
    ["Internal server error"] when the value is [null] (reading its
    [length] for the log line throws), with
    ["Structured events data not found"] when it is [false], [0] or the
    empty string, although the file exists.  Every later call reads the
    file again. *)
Theorem falsy_store_fails_request skipParse w room s f text v :
  disk w = Some f ->
  data f = Some text ->
  JSON_parse host text = Some v ->
  truthy v = false ->
  reload_due (eventsCache s) (cacheTimestamp s) (mtime f) = true ->
  final (handler skipParse w room s)
  = {| eventsCache := v; cacheTimestamp := Some (mtime f) |}
  /\ outcome (handler skipParse w room s)
     = Ok {| Response.status := 500;
             Response.json :=
               Response.ErrorJson
                 match get v "length" with
                 | Ok _ => "Structured events data not found"
                 | Throw _ => "Internal server error"
                 end |}
  /\ In ReadFileSync
        (trace (loadEventsCache (Some f) (final (handler skipParse w room s)))).
Proof.
  intros D Hd Hp V R.
  assert (L : loadEventsCache (disk w) s = reloaded s f)
    by (rewrite D; apply load_reload; exact R).
  assert (F : final (handler skipParse w room s)
              = {| eventsCache := v; cacheTimestamp := Some (mtime f) |})
    by (rewrite handler_final, L; eapply reloaded_final; eassumption).
  split; [exact F|]. split.
  - unfold reloaded in L. rewrite Hd, Hp in L.
    destruct (get v "length") as [len|e] eqn:G; cbn [rbind] in L.
    + destruct (falsy_length_prints _ _ V G) as [shown Hs]. rewrite Hs in L.
      rewrite (handler_not_found _ _ _ _ _ _ _ L V). reflexivity.
    + rewrite (handler_load_throws _ _ _ _ _ _ _ L). reflexivity.
  - rewrite F. apply reload_reads. simpl. unfold reload_due. rewrite V.
    reflexivity.
Qed.

(** X10.  Nothing checks that the store is a list: when the file parses
    to a JSON object it is assigned to the cache like any store, and
    [loadEventsCache] returns it unless printing its [length] for the log
    line throws; either way the request fails with status 500 and the
    error ["Internal server error"], in the first case because the loop
    cannot iterate over an object. *)
Theorem object_store_fails_request skipParse w room s f text props :
  disk w = Some f ->
  data f = Some text ->
  JSON_parse host text = Some (VObj props) ->
  reload_due (eventsCache s) (cacheTimestamp s) (mtime f) = true ->
  outcome (loadEventsCache (disk w) s)
  = rbind (ToString (lookup "length" props)) (fun _ => Ok (VObj props))
  /\ select (VObj props) room (timeNow skipParse w) = Throw TypeError
  /\ final (handler skipParse w room s)
     = {| eventsCache := VObj props; cacheTimestamp := Some (mtime f) |}
  /\ outcome (handler skipParse w room s)
     = Ok {| Response.status := 500;
             Response.json := Response.ErrorJson "Internal server error" |}.
Proof.
  intros D Hd Hp R.
  assert (L : loadEventsCache (disk w) s = reloaded s f)
    by (rewrite D; apply load_reload; exact R).
  split; [rewrite L; apply (reloaded_outcome _ _ _ _ Hd Hp)|].
  split; [reflexivity|].
  split; [rewrite handler_final, L; eapply reloaded_final; eassumption|].
  unfold reloaded in L. rewrite Hd, Hp in L. cbn [get rbind] in L.
  destruct (ToString (lookup "length" props)).
  - rewrite (handler_select_throws _ _ _ _ (VObj props) _ _ TypeError L);
      reflexivity.
  - rewrite (handler_load_throws _ _ _ _ _ _ _ L). reflexivity.
Qed.

(** X11.  Reloading is idempotent: invalidating and loading twice from
    the same file leaves the cache variables, and returns, exactly what
    doing it once does. *)
Theorem reload_idempotent s f :
  final (invalidate_then_load f (final (invalidate_then_load f s)))
  = final (invalidate_then_load f s)
  /\ outcome (invalidate_then_load f (final (invalidate_then_load f s)))
     = outcome (invalidate_then_load f s).
Proof.
  rewrite !invalidate_then_load_reloads. unfold reloaded.
  destruct (data f) as [text|]; [|split; reflexivity].
  destruct (JSON_parse host text) as [v|]; [|split; reflexivity].
  destruct (get v "length") as [len|]; cbn [rbind]; [|split; reflexivity].
  destruct (ToString len); split; reflexivity.
Qed.

(* ------------------------------------------------------------------ *)
(** ** Stripping the Markdown fences *)
(* ------------------------------------------------------------------ *)

Lemma skip_length n s : (String.length (skip n s) <= String.length s)%nat.
Proof.
  revert s. induction n as [|n IH]; intros [|c s]; simpl; try lia.
  specialize (IH s). lia.
Qed.

Lemma drop_newline_length s :
  (String.length (drop_newline s) <= String.length s)%nat.
Proof.
  destruct s as [|c s]; simpl; [lia|].
  destruct (c =? newline)%char; simpl; lia.
Qed.

Lemma remove_all_fuel p0 pat fuel :
  forall fuel' s,
    (String.length s <= fuel)%nat -> (String.length s <= fuel')%nat ->
    remove_all (String p0 pat) fuel s = remove_all (String p0 pat) fuel' s.
Proof.
  induction fuel as [|fuel IH]; intros fuel' [|c r] H H'; simpl in H, H';
    try lia; destruct fuel' as [|fuel']; try lia; try reflexivity.
  cbn [remove_all String.length skip].
  destruct (prefix (String p0 pat) (String c r)).
  - pose proof (drop_newline_length (skip (String.length pat) r)).
    pose proof (skip_length (String.length pat) r).
    apply IH; lia.
  - f_equal. apply IH; lia.
Qed.

Lemma replace_fence_nil pat : replace_fence pat EmptyString = EmptyString.
Proof. reflexivity. Qed.

Lemma replace_fence_cons p0 pat c r :
  replace_fence (String p0 pat) (String c r)
  = if prefix (String p0 pat) (String c r)
    then replace_fence (String p0 pat)
           (drop_newline (skip (String.length pat) r))
    else String c (replace_fence (String p0 pat) r).
Proof.
  unfold replace_fence. cbn [remove_all String.length skip].
  destruct (prefix (String p0 pat) (String c r)); [|reflexivity].
  pose proof (drop_newline_length (skip (String.length pat) r)).
  pose proof (skip_length (String.length pat) r).
  apply remove_all_fuel; lia.
Qed.

Lemma prefix_cons a p b q :
  prefix (String a p) (String b q)
  = if ascii_dec a b then prefix p q else false.
Proof. reflexivity. Qed.

Lemma plain_no_prefix pat s :
  plain s = true -> prefix (String backtick pat) s = false.
Proof.
  destruct s as [|c r]; [reflexivity|]. intros P. cbn [plain] in P.
  rewrite prefix_cons.
  destruct (ascii_dec backtick c) as [<-|]; [|reflexivity].
  rewrite Ascii.eqb_refl in P. discriminate.
Qed.

Lemma replace_fence_plain pat s :
  plain s = true -> replace_fence (String backtick pat) s = s.
Proof.
  induction s as [|c r IH]; intros P; [reflexivity|].
  rewrite replace_fence_cons, (plain_no_prefix _ _ P).
  cbn [plain] in P. apply andb_prop in P as [_ P]. rewrite (IH P).
  reflexivity.
Qed.

Lemma replace_fence_plain_app pat body rest :
  plain body = true ->
  replace_fence (String backtick pat) (body ++ rest)
  = body ++ replace_fence (String backtick pat) rest.
Proof.
  induction body as [|c r IH]; intros P; [reflexivity|].
  cbn [append]. rewrite replace_fence_cons.
  assert (N : prefix (String backtick pat) (String c (r ++ rest)) = false).
  { cbn [plain] in P. rewrite prefix_cons.
    destruct (ascii_dec backtick c) as [<-|]; [|reflexivity].
    rewrite Ascii.eqb_refl in P. discriminate. }
  rewrite N. cbn [plain] in P. apply andb_prop in P as [_ P].
  rewrite (IH P). reflexivity.
Qed.

(** X12.  A reply without backticks passes through the two replacements
    unchanged. *)
Theorem strip_fences_plain text :
  plain text = true -> strip_fences text = text.
Proof.
  intros P. unfold strip_fences, fence, fence_json.
  change "```json" with (String backtick "``json").
  change "```" with (String backtick "``").
  rewrite (replace_fence_plain "``json" _ P).
  apply (replace_fence_plain "``" _ P).
Qed.

(** X13.  A reply wrapped in a Markdown fence is unwrapped: for a body
    without backticks, the reply made of the opening fence (with or
    without the [json] tag), a newline, the body, a newline and the
    closing fence is reduced to the body followed by that newline (which
    [trim] then removes). *)
Theorem strip_fences_unwraps body :
  plain body = true ->
  let nl := String newline EmptyString in
  strip_fences (fence_json ++ nl ++ body ++ nl ++ fence) = body ++ nl
  /\ strip_fences (fence ++ nl ++ body ++ nl ++ fence) = body ++ nl.
Proof.
  intros P nl. unfold strip_fences.
  assert (Tail1 : replace_fence fence_json (nl ++ fence) = nl ++ fence)
    by reflexivity.
  assert (Tail2 : replace_fence fence (nl ++ fence) = nl) by reflexivity.
  assert (Inner : replace_fence fence (body ++ nl ++ fence) = body ++ nl).
  { unfold fence at 1. change "```" with (String backtick "``") at 1.
    rewrite replace_fence_plain_app by exact P.
    change (String backtick "``") with fence. rewrite Tail2. reflexivity. }
  assert (Open : forall rest,
             replace_fence fence (fence ++ nl ++ rest)
             = replace_fence fence rest).
  { intros rest. unfold fence. change "```" with (String backtick "``") at 1.
    cbn [append]. rewrite replace_fence_cons.
    match goal with
    | |- context [prefix ?a ?b] => replace (prefix a b) with true by reflexivity
    end. reflexivity. }
  split.
  - assert (Outer : replace_fence fence_json
                      (fence_json ++ nl ++ body ++ nl ++ fence)
                    = body ++ nl ++ fence).
    { unfold fence_json.
      change "```json" with (String backtick "``json").
      cbn [append]. rewrite replace_fence_cons.
      match goal with
      | |- context [prefix ?a ?b] =>
          replace (prefix a b) with true by reflexivity
      end.
      match goal with
      | |- context [drop_newline ?x] =>
          replace (drop_newline x) with (body ++ nl ++ fence) by reflexivity
      end.
      rewrite replace_fence_plain_app by exact P.
      change (String backtick "``json") with fence_json.
      rewrite Tail1. reflexivity. }
    rewrite Outer. exact Inner.
  - assert (Outer : replace_fence fence_json
                      (fence ++ nl ++ body ++ nl ++ fence)
                    = fence ++ nl ++ body ++ nl ++ fence).
    { unfold fence_json.
      change "```json" with (String backtick "``json").
      unfold fence at 1 3. unfold nl at 1 3. cbn [append].
      do 4 (rewrite replace_fence_cons;
            match goal with
            | |- context [prefix ?a ?b] =>
                replace (prefix a b) with false by reflexivity
            end).
      fold nl. rewrite replace_fence_plain_app by exact P.
      change (String backtick "``json") with fence_json.
      rewrite Tail1. reflexivity. }
    rewrite Outer, Open. exact Inner.
Qed.

Lemma one_tick_two_ticks r :
  prefix (String backtick EmptyString) r = false ->
  prefix (String backtick (String backtick EmptyString)) r = false.
Proof.
  destruct r as [|e r]; [reflexivity|]. rewrite !prefix_cons.
  destruct (ascii_dec backtick e); [|reflexivity].
  destruct r; discriminate.
Qed.

Lemma prefix_empty s : prefix EmptyString s = true.
Proof. destruct s; reflexivity. Qed.

Lemma two_ticks_kept r :
  prefix (String backtick (String backtick EmptyString)) r = false ->
  prefix (String backtick (String backtick EmptyString))
         (replace_fence fence r) = false.
Proof.
  unfold fence. change "```" with (String backtick "``").
  change "``" with (String backtick (String backtick EmptyString)).
  destruct r as [|d r]; [reflexivity|].
  rewrite replace_fence_cons, !prefix_cons.
  destruct (ascii_dec backtick d) as [<-|Nd]; [|intros _; rewrite prefix_cons;
    destruct (ascii_dec backtick d); [contradiction | reflexivity]].
  intros H. rewrite (one_tick_two_ticks _ H), prefix_cons.
  destruct (ascii_dec backtick backtick) as [_|N]; [|reflexivity].
  destruct r as [|e r]; [reflexivity|].
  rewrite prefix_cons in H. rewrite replace_fence_cons, prefix_cons.
  destruct (ascii_dec backtick e) as [<-|Ne].
  - rewrite prefix_empty in H. discriminate.
  - rewrite prefix_cons. destruct (ascii_dec backtick e); [contradiction|].
    reflexivity.
Qed.

Lemma no_fence_left n :
  forall s, (String.length s <= n)%nat ->
            str_includes (replace_fence fence s) fence = false.
Proof.
  induction n as [|n IH]; intros [|c r] H; try reflexivity;
    [simpl in H; lia|].
  assert (E : fence = String backtick "``") by reflexivity.
  rewrite E at 1. rewrite replace_fence_cons. rewrite <- E.
  destruct (prefix fence (String c r)) eqn:Pf.
  - apply IH. simpl in H.
    pose proof (drop_newline_length (skip (String.length "``") r)).
    pose proof (skip_length (String.length "``") r). lia.
  - cbn [str_includes]. rewrite IH by (simpl in H; lia).
    replace (prefix fence (String c (replace_fence fence r))) with false;
      [reflexivity|].
    symmetry. rewrite E in Pf |- * at 1. rewrite prefix_cons in Pf |- *.
    destruct (ascii_dec backtick c); [|reflexivity].
    apply two_ticks_kept. exact Pf.
Qed.

(** X14.  Whatever the reply is, the text handed on after the two
    replacements contains no Markdown fence (three backticks in a row). *)
Theorem strip_fences_leaves_no_fence text :
  str_includes (strip_fences text) fence = false.
Proof. unfold strip_fences. eapply no_fence_left. apply Nat.le_refl. Qed.

(* ------------------------------------------------------------------ *)
(** ** The ingestion job *)
(* ------------------------------------------------------------------ *)

(** X15.  A failed ingestion leaves the cache alone: whenever [parseICal]
    throws (the feed cannot be fetched or holds a [null] entry, the model
    call fails, its reply does not parse after stripping, the directory
    or the file cannot be written) both cache variables are exactly as
    before, in particular the timestamp is not cleared; the job's
    [catch] then only logs. *)
Theorem failed_ingestion_keeps_cache vol s e :
  outcome (parseICal vol s) = Throw e ->
  final (parseICal vol s) = s
  /\ final (ingestionJob vol s) = s
  /\ outcome (ingestionJob vol s) = Ok tt.
Proof.
  unfold ingestionJob, try_catch, parseICal, bind, lift, parse, mkdirSync,
    writeFileSync, tell, throw, ret, invalidate, set_cacheTimestamp,
    outcome, final.
  destruct (fromURL ing) as [events|]; [|auto].
  destruct (Object_values events) as [entries|]; [|auto].
  destruct (map_result pickFields entries) as [eventsArray|]; [|auto].
  destruct (generateContent ing _) as [reply|]; [|auto].
  destruct (JSON_parse host _) as [parsedData|]; [|auto].
  destruct (dirPresent vol), (mkdirOk vol), (writeOk vol); simpl; auto;
    discriminate.
Qed.

(** X16.  A successful ingestion is picked up by the next request: the
    job writes [JSON.stringify] of the parsed reply, keeps the old
    snapshot and clears the timestamp; the next [loadEventsCache] then
    reads the written file, whatever the timestamp recorded before was
    (also when the new file's modification time is not later than it),
    and the cache holds the new events and the new modification time.
    That the runtime's [JSON.parse] reads back what its [JSON.stringify]
    wrote is a hypothesis. *)
Theorem ingestion_then_load vol s summary written :
  outcome (parseICal vol s) = Ok (summary, written) ->
  JSON_parse host (JSON_stringify ing (structuredEvents summary))
  = Some (structuredEvents summary) ->
  final (parseICal vol s)
  = {| eventsCache := eventsCache s; cacheTimestamp := None |}
  /\ written = {| mtime := writeClock vol;
                 data := Some (JSON_stringify ing (structuredEvents summary)) |}
  /\ In ReadFileSync
        (trace (loadEventsCache (Some written) (final (parseICal vol s))))
  /\ final (loadEventsCache (Some written) (final (parseICal vol s)))
     = {| eventsCache := structuredEvents summary;
          cacheTimestamp := Some (writeClock vol) |}.
Proof.
  intros O.
  assert (H : final (parseICal vol s)
              = {| eventsCache := eventsCache s; cacheTimestamp := None |}
              /\ written
                 = {| mtime := writeClock vol;
                      data := Some (JSON_stringify ing
                                      (structuredEvents summary)) |}).
  { revert O.
    unfold parseICal, bind, lift, parse, mkdirSync, writeFileSync, tell,
      throw, ret, invalidate, set_cacheTimestamp, outcome, final.
    destruct (fromURL ing) as [events|]; [|discriminate].
    destruct (Object_values events) as [entries|]; [|discriminate].
    destruct (map_result pickFields entries) as [eventsArray|];
      [|discriminate].
    destruct (generateContent ing _) as [reply|]; [|discriminate].
    destruct (JSON_parse host _) as [parsedData|]; [|discriminate].
    destruct (dirPresent vol), (mkdirOk vol), (writeOk vol); simpl;
      try discriminate; intros O; inversion O; subst; auto. }
  intros RT.
  destruct H as [F Wr]. split; [exact F|]. split; [exact Wr|].
  rewrite F.
  set (s1 := {| eventsCache := eventsCache s; cacheTimestamp := None |}).
  assert (R : reload_due (eventsCache s1) (cacheTimestamp s1) (mtime written)
              = true)
    by apply reload_due_invalidated.
  split.
  - apply reload_reads. exact R.
  - rewrite (load_reload _ _ R), Wr.
    exact (reloaded_final s1
             {| mtime := writeClock vol;
                data := Some (JSON_stringify ing (structuredEvents summary)) |}
             _ _ eq_refl RT).
Qed.

(* ------------------------------------------------------------------ *)
(* ------------------------------------------------------------------ *)
(** ** The renderer *)
(* ------------------------------------------------------------------ *)

Lemma append_assoc (a b c : string) : (a ++ b) ++ c = a ++ b ++ c.
Proof.
  induction a as [|ch a IH]; cbn [append]; [reflexivity|].
  rewrite IH. reflexivity.
Qed.

Lemma get_or_truthy o k1 k2 :
  truthy o = true ->
  get_or o k1 k2
  = Ok (if truthy (field o k1) then field o k1 else field o k2).
Proof.
  intros T. unfold get_or. rewrite !(truthy_get _ T). cbn [rbind].
  destruct (truthy (field o k1)); reflexivity.
Qed.

Lemma safe_or_else a b :
  safe a = true -> safe b = true -> safe (or_else a b) = true.
Proof. unfold or_else. destruct (truthy a); auto. Qed.

Lemma teachersOf_returns event :
  truthy event = true ->
  exists teachers,
    teachersOf event = Ok teachers
    /\ (safe event = true -> safe teachers = true).
Proof.
  intros T. unfold teachersOf. rewrite !(truthy_get _ T). cbn [rbind].
  destruct (truthy (field event "organizer")) eqn:O; cbn [rbind].
  - rewrite !(truthy_get _ O). cbn [rbind].
    destruct (truthy (field (field event "organizer") "name"));
      eexists; (split; [reflexivity|]); intros S;
      repeat apply safe_field; exact S.
  - eexists; split; [reflexivity|]. intros S.
    apply safe_or_else; [apply safe_field; exact S | reflexivity].
Qed.

Lemma formatTime_safe v : safe v = true -> exists text, formatTime v = Ok text.
Proof.
  intros S. unfold formatTime. destruct (truthy v); cbn [negb]; [|eauto].
  destruct (safe_newDate _ S) as [[t|] ->]; cbn [rbind]; eauto.
Qed.

Lemma formatTime_throws v err : formatTime v = Throw err -> err = TypeError.
Proof.
  unfold formatTime. destruct (truthy v); cbn [negb]; [|discriminate].
  destruct (newDate v) as [[t|]|e] eqn:N; cbn [rbind]; try discriminate.
  intros E. inversion E; subst. eapply newDate_throws_TypeError; eassumption.
Qed.

Lemma teacher_of_returns nextEvent :
  truthy nextEvent = true ->
  exists teacher,
    (if truthy (field nextEvent "organizer") then
       name <-- get (field nextEvent "organizer") "name" ;;
       if truthy name then get (field nextEvent "organizer") "name"
       else Ok (VStr EmptyString)
     else Ok (VStr EmptyString))%result = Ok teacher
    /\ (safe nextEvent = true -> safe teacher = true).
Proof.
  intros T. destruct (truthy (field nextEvent "organizer")) eqn:O;
    [|eexists; split; reflexivity].
  rewrite !(truthy_get _ O). cbn [rbind].
  destruct (truthy (field (field nextEvent "organizer") "name"));
    eexists; (split; [reflexivity|]); intros S;
    [repeat apply safe_field; exact S | reflexivity].
Qed.

Lemma freeRoomMessage_safe nextEvent :
  safe nextEvent = true -> exists message, freeRoomMessage nextEvent = Ok message.
Proof.
  intros S. unfold freeRoomMessage. destruct (truthy nextEvent) eqn:T; [|eauto].
  rewrite (get_or_truthy _ _ _ T), !(truthy_get _ T). cbn [rbind].
  destruct (teacher_of_returns _ T) as (teacher & -> & St). cbn [rbind].
  assert (Sti : safe (or_else (field nextEvent "title") (VStr "Sense Títol"))
                = true)
    by (apply safe_or_else; [apply safe_field; exact S | reflexivity]).
  destruct (safe_ToString _ Sti) as [titleText ->]. cbn [rbind].
  destruct (safe_ToString _ (St S)) as [teacherText ->].
  assert (Ssv : safe (if truthy (field nextEvent "startTime")
                      then field nextEvent "startTime"
                      else field nextEvent "start") = true)
    by (destruct (truthy (field nextEvent "startTime"));
        apply safe_field; exact S).
  destruct (safe_newDate _ Ssv) as [date ->].
  destruct (truthy teacher); cbn [rbind];
    match goal with |- context [if ?c then _ else Ok EmptyString] =>
      destruct c end; cbn [rbind]; eauto.
Qed.

Lemma freeRoomMessage_throws nextEvent err :
  freeRoomMessage nextEvent = Throw err -> err = TypeError.
Proof.
  unfold freeRoomMessage. destruct (truthy nextEvent) eqn:T; [|discriminate].
  rewrite (get_or_truthy _ _ _ T), !(truthy_get _ T). cbn [rbind].
  destruct (teacher_of_returns _ T) as (teacher & -> & _). cbn [rbind].
  destruct (ToString (or_else _ _)) as [titleText|e] eqn:Ti; cbn [rbind];
    [clear Ti
    |intros E; inversion E; subst; eapply ToString_throws_TypeError;
     eassumption].
  destruct (truthy teacher); cbn [rbind].
  - destruct (ToString teacher) as [teacherText|e] eqn:Te; cbn [rbind];
      [clear Te
      |intros E; inversion E; subst; eapply ToString_throws_TypeError;
       eassumption].
    match goal with |- context [if ?c then _ else Ok EmptyString] =>
      destruct c end; cbn [rbind]; [|discriminate].
    match goal with |- context [newDate ?v] =>
      destruct (newDate v) as [date|e] eqn:N end; cbn [rbind];
      [discriminate|].
    intros E; inversion E; subst. eapply newDate_throws_TypeError; eassumption.
  - match goal with |- context [if ?c then _ else Ok EmptyString] =>
      destruct c end; cbn [rbind]; [|discriminate].
    match goal with |- context [newDate ?v] =>
      destruct (newDate v) as [date|e] eqn:N end; cbn [rbind];
      [discriminate|].
    intros E; inversion E; subst. eapply newDate_throws_TypeError; eassumption.
Qed.

Lemma shown_title_returns event :
  truthy event = true ->
  (title <-- get event "title" ;;
   if truthy title then Ok title
   else summary <-- get event "summary" ;;
        Ok (or_else summary (VStr "No Title")))%result
  = Ok (if truthy (field event "title") then field event "title"
        else or_else (field event "summary") (VStr "No Title")).
Proof.
  intros T. rewrite !(truthy_get _ T). cbn [rbind].
  destruct (truthy (field event "title")); reflexivity.
Qed.

Lemma shown_title_safe event :
  safe event = true ->
  safe (if truthy (field event "title") then field event "title"
        else or_else (field event "summary") (VStr "No Title")) = true.
Proof.
  intros S. destruct (truthy (field event "title"));
    [apply safe_field; exact S|].
  apply safe_or_else; [apply safe_field; exact S | reflexivity].
Qed.

Lemma canvasHtml_safe event roomCode nextEvent :
  safe event = true -> safe nextEvent = true ->
  exists html, canvasHtml event roomCode nextEvent = Ok html.
Proof.
  intros Se Sn. unfold canvasHtml. destruct (truthy event) eqn:T; cbn [negb].
  - rewrite !(get_or_truthy _ _ _ T). cbn [rbind].
    destruct (teachersOf_returns _ T) as (teachers & -> & St). cbn [rbind].
    assert (S1 : safe (if truthy (field event "startTime")
                       then field event "startTime"
                       else field event "start") = true)
      by (destruct (truthy (field event "startTime"));
          apply safe_field; exact Se).
    assert (S2 : safe (if truthy (field event "endTime")
                       then field event "endTime"
                       else field event "end") = true)
      by (destruct (truthy (field event "endTime"));
          apply safe_field; exact Se).
    destruct (formatTime_safe _ S1) as [startText ->].
    destruct (formatTime_safe _ S2) as [endText ->]. cbn [rbind].
    rewrite !(truthy_get _ T). cbn [rbind].
    pose proof (shown_title_safe _ Se) as Ss.
    destruct (truthy (field event "title")); cbn [rbind];
      destruct (safe_ToString _ Ss) as [titleText ->]; cbn [rbind];
      (destruct (safe_ToString (or_else teachers (VStr EmptyString)))
         as [teachersText ->];
       [apply safe_or_else; [exact (St Se) | reflexivity]|]);
      cbn [rbind]; eauto.
  - destruct (freeRoomMessage_safe _ Sn) as [message ->].
    cbn [rbind]. eauto.
Qed.

Lemma canvasHtml_throws event roomCode nextEvent err :
  canvasHtml event roomCode nextEvent = Throw err -> err = TypeError.
Proof.
  unfold canvasHtml. destruct (truthy event) eqn:T; cbn [negb].
  - rewrite !(get_or_truthy _ _ _ T). cbn [rbind].
    destruct (teachersOf_returns _ T) as (teachers & -> & _). cbn [rbind].
    destruct (formatTime _) as [startText|e] eqn:F1; cbn [rbind];
      [clear F1
      |intros E; inversion E; subst; eapply formatTime_throws; eassumption].
    destruct (formatTime _) as [endText|e] eqn:F2; cbn [rbind];
      [|intros E; inversion E; subst; eapply formatTime_throws; eassumption].
    rewrite !(truthy_get _ T). cbn [rbind].
    clear F2.
    destruct (truthy (field event "title")); cbn [rbind];
      (destruct (ToString _) as [titleText|e] eqn:Ti; cbn [rbind];
       [clear Ti
       |intros E; inversion E; subst; eapply ToString_throws_TypeError;
        eassumption]);
      (destruct (ToString _) as [teachersText|e] eqn:Te; cbn [rbind];
       [discriminate|intros E; inversion E; subst;
                     eapply ToString_throws_TypeError; eassumption]).
  - destruct (freeRoomMessage nextEvent) as [message|e] eqn:F; cbn [rbind];
      [discriminate|].
    intros E; inversion E; subst. eapply freeRoomMessage_throws; eassumption.
Qed.

(** X17.  Building the page throws only on a value that cannot be
    printed: for an event and a next event (or [null]) in which no object
    has a property named [toString], [canvasHtml] yields a page text,
    missing titles, organizers, names and times being all guarded; and
    whatever the arguments, the only error it throws is a TypeError. *)
Theorem canvasHtml_safe_page event roomCode nextEvent :
  (safe event = true -> safe nextEvent = true ->
   exists html, canvasHtml event roomCode nextEvent = Ok html)
  /\ (forall err,
        canvasHtml event roomCode nextEvent = Throw err -> err = TypeError).
Proof.
  split; [apply canvasHtml_safe | apply canvasHtml_throws].
Qed.

Lemma current_times room now c :
  is_current room now c = true ->
  exists s e,
    startMs c = Some s /\ endMs c = Some e
    /\ formatTime (field c "startTime") = Ok (toLocaleTimeString (Some s))
    /\ formatTime (field c "endTime") = Ok (toLocaleTimeString (Some e)).
Proof.
  unfold is_current, in_progress. intros H.
  apply andb_prop in H as [E H]. apply andb_prop in H as [Hs He].
  apply eligible_fields in E as (Ts & Te & _).
  unfold startMs, endMs, formatTime in *.
  rewrite Ts, Te. cbn [negb].
  destruct (timeOf (field c "startTime")) as [s|] eqn:S; [|discriminate].
  destruct (timeOf (field c "endTime")) as [e|] eqn:En; [|discriminate].
  rewrite (timeOf_some _ _ S), (timeOf_some _ _ En).
  exists s, e. auto.
Qed.

Lemma contains_prepend (x y m : string) :
  (exists before after, y = before ++ m ++ after) ->
  exists before after, x ++ y = before ++ m ++ after.
Proof.
  intros (before & after & ->). exists (x ++ before), after.
  rewrite append_assoc. reflexivity.
Qed.

(** The page of a current event has its two times, separated by a dash,
    in it. *)
Lemma eventPage_times startText endText title teachers :
  exists before after,
    Template.eventPage startText endText title teachers
    = before ++ (startText ++ " - " ++ endText) ++ after.
Proof.
  unfold Template.eventPage.
  repeat first
    [ match goal with
      | |- exists before after,
             startText ++ " - " ++ endText ++ ?rest = _ =>
          exists EmptyString, rest; cbn [append];
          rewrite !append_assoc; reflexivity
      end
    | apply contains_prepend ].
Qed.

(** X18.  What the selector hands over is shown with real times.  For a
    store in which no object has a property named [toString]: for the
    current event the selector returns, the page is built and carries the
    local start and end times as hours and minutes (never ["Unknown"]);
    and for the next event it returns, the free-room message is built and
    ends with the local start time (never ["Invalid Date"]). *)
Theorem selected_events_show_times room now events c n roomCode :
  select (VArr events) room now = Ok (c, n) ->
  safe (VArr events) = true ->
  (c <> VNull ->
   exists s e before after html,
     startMs c = Some s /\ endMs c = Some e
     /\ canvasHtml c roomCode n = Ok html
     /\ html = before ++ (toLocaleTimeString (Some s) ++ " - "
                          ++ toLocaleTimeString (Some e)) ++ after)
  /\ (n <> VNull ->
      exists s said,
        startMs n = Some s
        /\ freeRoomMessage n
           = Ok (said ++ "a les <b>" ++ toLocaleTimeString (Some s)
                      ++ "</b>")).
Proof.
  intros S Sa. destruct (select_reports _ _ _ _ _ S) as [Hc Hn].
  pose proof S as S'. unfold select in S'. simpl in S'.
  apply for_of_members in S' as [Mc Mn]; [|apply settled_null]. split.
  - intros Nc. destruct Hc as [->|Hc]; [contradiction Nc; reflexivity|].
    destruct Mc as [->|Mc]; [contradiction Nc; reflexivity|].
    pose proof (safe_member _ _ Sa Mc) as Sc.
    destruct (current_times _ _ _ Hc) as (s & e & Ss & Se & Fs & Fe).
    assert (E : eligible room now c = true)
      by (apply andb_prop in Hc as [E _]; exact E).
    assert (T := eligible_truthy _ _ _ E).
    apply eligible_fields in E as (Ts & Te & _).
    unfold canvasHtml. rewrite T. cbn [negb].
    rewrite !(get_or_truthy _ _ _ T), Ts, Te. cbn [rbind].
    destruct (teachersOf_returns _ T) as (teachers & -> & St). cbn [rbind].
    rewrite Fs, Fe. cbn [rbind].
    rewrite !(truthy_get _ T). cbn [rbind].
    pose proof (shown_title_safe _ Sc) as Ssh.
    destruct (truthy (field c "title")); cbn [rbind];
      destruct (safe_ToString _ Ssh) as [titleText ->]; cbn [rbind];
      (destruct (safe_ToString (or_else teachers (VStr EmptyString)))
         as [teachersText ->];
       [apply safe_or_else; [exact (St Sc) | reflexivity]|]);
      cbn [rbind];
      destruct (eventPage_times (toLocaleTimeString (Some s))
                  (toLocaleTimeString (Some e)) titleText teachersText)
        as (before & after & Page);
      exists s, e, before, after; eauto 10.
  - intros Nn. destruct Hn as [->|Hn]; [contradiction Nn; reflexivity|].
    destruct Mn as [->|Mn]; [contradiction Nn; reflexivity|].
    pose proof (safe_member _ _ Sa Mn) as Sn.
    destruct (future_start _ _ _ Hn) as (s & Ss & _).
    assert (E : eligible room now n = true)
      by (apply andb_prop in Hn as [E _]; exact E).
    assert (T := eligible_truthy _ _ _ E).
    apply eligible_fields in E as (Ts & _).
    exists s. unfold freeRoomMessage. rewrite T.
    rewrite (get_or_truthy _ _ _ T), Ts, !(truthy_get _ T). cbn [rbind].
    destruct (teacher_of_returns _ T) as (teacher & -> & St). cbn [rbind].
    assert (Sti : safe (or_else (field n "title") (VStr "Sense Títol")) = true)
      by (apply safe_or_else; [apply safe_field; exact Sn | reflexivity]).
    destruct (safe_ToString _ Sti) as [titleText ->]. cbn [rbind].
    destruct (safe_ToString _ (St Sn)) as [teacherText ->].
    unfold startMs in Ss. rewrite Ts, (timeOf_some _ _ Ss).
    destruct (truthy teacher); cbn [rbind];
      eexists; (split; [exact Ss|]); f_equal;
      rewrite <- !append_assoc; reflexivity.
Qed.

Lemma shoot_calls html :
  ~ In ClosePage (snd (shoot html)) /\ ~ In NewPage (snd (shoot html))
  /\ ~ In Launch (snd (shoot html)).
Proof.
  unfold shoot. destruct (setViewportOk pup); cbn [negb];
    [destruct (setContentOk pup html); cbn [negb]|];
    simpl; repeat split; intros H;
    repeat (destruct H as [H|H]; [discriminate H|]); exact H.
Qed.

Lemma getBrowser_calls browserInstance :
  ~ In NewPage (snd (getBrowser browserInstance))
  /\ ~ In ClosePage (snd (getBrowser browserInstance)).
Proof.
  unfold getBrowser. destruct browserInstance, (launchOk pup); simpl;
    split; intros H; repeat (destruct H as [H|H]; [discriminate H|]);
    exact H.
Qed.

(** X19.  A page that was opened is always closed: whenever
    [browser.newPage] succeeds, [page.close] is the last call made,
    exactly once, whether setting the viewport or the content or taking
    the screenshot fails or not; and no page is closed that was not
    opened. *)
Theorem opened_page_is_closed event roomCode nextEvent browserInstance :
  let calls := snd (generateEventImage_impl event roomCode nextEvent
                      browserInstance) in
  (In NewPage calls -> newPageOk pup = true ->
   exists before, calls = (before ++ [ClosePage])%list
                  /\ ~ In ClosePage before)
  /\ (In ClosePage calls -> In NewPage calls /\ newPageOk pup = true).
Proof.
  unfold generateEventImage_impl.
  destruct (canvasHtml event roomCode nextEvent) as [html|err];
    [|cbn [snd]; split; intros H; contradiction].
  pose proof (getBrowser_calls browserInstance) as (PN & PC).
  destruct (getBrowser browserInstance) as [[[u|e] instance] pre].
  - destruct (newPageOk pup); cbn [negb].
    + destruct (shoot html) as [taken made] eqn:Sh.
      pose proof (shoot_calls html) as (NC & _). rewrite Sh in NC.
      cbn [snd] in *. split.
      * intros _ _. exists (pre ++ NewPage :: made)%list. split.
        -- rewrite <- app_assoc. reflexivity.
        -- intros H. apply in_app_or in H as [H|[H|H]];
             [exact (PC H) | discriminate H | exact (NC H)].
      * intros _. split; [|reflexivity].
        apply in_or_app. right. left. reflexivity.
    + cbn [snd]. split; [intros _ D; discriminate D|].
      intros H. apply in_app_or in H as [H|[H|[]]];
        [contradiction (PC H) | discriminate H].
  - cbn [snd]. split; intros H; contradiction.
Qed.

Lemma shoot_no_launch html : ~ In Launch (snd (shoot html)).
Proof. apply shoot_calls. Qed.

Lemma launch_once ev rc ne b :
  snd (fst (generateEventImage_impl ev rc ne b))
  = match canvasHtml ev rc ne with
    | Ok _ => b || launchOk pup
    | Throw _ => b
    end
  /\ (In Launch (snd (generateEventImage_impl ev rc ne b))
      <-> b = false /\ exists html, canvasHtml ev rc ne = Ok html).
Proof.
  unfold generateEventImage_impl.
  destruct (canvasHtml ev rc ne) as [html|err].
  - assert (Q : forall P : Prop, P <-> P /\ exists html0, Ok html = Ok html0)
      by (intros P; split; [intros p; split; [exact p | eauto] | tauto]).
    rewrite <- Q. clear Q. unfold getBrowser.
    destruct b, (launchOk pup), (newPageOk pup); cbn [negb];
      try destruct (shoot html) as [taken made] eqn:Sh;
      pose proof (shoot_no_launch html) as NL; try rewrite Sh in NL;
      cbn [fst snd orb app] in *;
      (split; [reflexivity|]); split; intros H; try discriminate H;
      try (left; reflexivity); try reflexivity;
      repeat (destruct H as [H|H]; [discriminate H|]);
      try contradiction;
      try (apply in_app_or in H as [H|H]; [contradiction|];
           destruct H as [H|[]]; discriminate H).
  - cbn [fst snd]. split; [reflexivity|]. split; [intros []|].
    intros [_ [html H]]. discriminate H.
Qed.

(** X20.  The browser is launched at most once.  A call whose page
    building throws makes no browser call and leaves [browserInstance] as
    it was; otherwise a call that finds it set launches nothing and
    leaves it set, and a call that finds it [null] launches, and sets it
    exactly when the launch succeeds.  So once a call has left it set, no
    later call launches. *)
Theorem browser_launched_once event roomCode nextEvent browserInstance :
  snd (fst (generateEventImage_impl event roomCode nextEvent browserInstance))
  = match canvasHtml event roomCode nextEvent with
    | Ok _ => browserInstance || launchOk pup
    | Throw _ => browserInstance
    end
  /\ (In Launch (snd (generateEventImage_impl event roomCode nextEvent
                        browserInstance))
      <-> browserInstance = false
          /\ exists html, canvasHtml event roomCode nextEvent = Ok html)
  /\ (forall event' roomCode' nextEvent',
        snd (fst (generateEventImage_impl event roomCode nextEvent
                    browserInstance)) = true ->
        ~ In Launch
            (snd (generateEventImage_impl event' roomCode' nextEvent'
                    (snd (fst (generateEventImage_impl event roomCode
                                 nextEvent browserInstance)))))).
Proof.
  destruct (launch_once event roomCode nextEvent browserInstance) as [S L].
  split; [exact S|]. split; [exact L|].
  intros event' roomCode' nextEvent' T.
  destruct (launch_once event' roomCode' nextEvent'
              (snd (fst (generateEventImage_impl event roomCode nextEvent
                           browserInstance)))) as [_ L'].
  intros H. apply L' in H as [H _]. congruence.
Qed.

Lemma earliest_is_minimal room now pre n post x :
  first_earliest room now pre n post ->
  In x (pre ++ n :: post) ->
  is_future room now x = true ->
  num_le (startMs n) (startMs x) = true.
Proof.
  intros (Fn & Hpre & Hpost) Hin Fx.
  apply in_app_or in Hin as [Hin|[<-|Hin]].
  - specialize (Hpre _ Hin Fx).
    destruct (startMs n), (startMs x); simpl in *; try discriminate.
    apply Z.leb_le. apply Z.ltb_lt in Hpre. lia.
  - destruct (future_start _ _ _ Fn) as (s & -> & _). simpl.
    apply Z.leb_refl.
  - apply Hpost; assumption.
Qed.

Lemma select_quiet room now events :
  Forall (fun x => entry_throws room now x = false) events ->
  Forall (fun x => is_current room now x = false) events ->
  select (VArr events) room now = Ok (VNull, scan room now events VNull).
Proof.
  intros T C. unfold select. simpl.
  apply for_of_all_quiet; [apply settled_null | exact T | exact C].
Qed.

(** X21.  Without a current event the order of the store does not decide
    when the next event starts: two stores with the same entries, in any
    order and multiplicity, none of which is current or makes the loop
    body throw, give next events with the same start time (or both none).
    Only among events starting at the same instant does the order pick
    the one reported. *)
Theorem next_start_order_independent room now events events' :
  (forall x, In x events <-> In x events') ->
  Forall (fun x => entry_throws room now x = false) events ->
  Forall (fun x => is_current room now x = false) events ->
  exists n n',
    select (VArr events) room now = Ok (VNull, n)
    /\ select (VArr events') room now = Ok (VNull, n')
    /\ startMs n = startMs n'
    /\ (n = VNull <-> n' = VNull).
Proof.
  intros Same T C.
  assert (T' : Forall (fun x => entry_throws room now x = false) events').
  { apply Forall_forall. intros x Hx. rewrite Forall_forall in T.
    apply T, Same, Hx. }
  assert (C' : Forall (fun x => is_current room now x = false) events').
  { apply Forall_forall. intros x Hx. rewrite Forall_forall in C.
    apply C, Same, Hx. }
  exists (scan room now events VNull), (scan room now events' VNull).
  split; [apply select_quiet; assumption|].
  split; [apply select_quiet; assumption|].
  destruct (existsb (is_future room now) events) eqn:Ex.
  - assert (Ex' : existsb (is_future room now) events' = true).
    { apply existsb_exists in Ex as (e & He & Fe). apply existsb_exists.
      exists e. split; [apply Same, He | exact Fe]. }
    destruct (scan_first_earliest _ _ _ Ex)
      as (pre & n & post & E & -> & Fn & Hpre & Hpost).
    destruct (scan_first_earliest _ _ _ Ex')
      as (pre' & n' & post' & E' & -> & Fn' & Hpre' & Hpost').
    assert (In1 : In n' (pre ++ n :: post)).
    { rewrite <- E. apply Same. rewrite E'. apply in_or_app. right. left.
      reflexivity. }
    assert (In2 : In n (pre' ++ n' :: post')).
    { rewrite <- E'. apply Same. rewrite E. apply in_or_app. right. left.
      reflexivity. }
    pose proof (earliest_is_minimal room now pre n post n'
                  (conj Fn (conj Hpre Hpost)) In1 Fn') as L1.
    pose proof (earliest_is_minimal room now pre' n' post' n
                  (conj Fn' (conj Hpre' Hpost')) In2 Fn) as L2.
    destruct (future_start _ _ _ Fn) as (s & Sn & _).
    destruct (future_start _ _ _ Fn') as (s' & Sn' & _).
    rewrite Sn, Sn' in *. simpl in L1, L2.
    apply Z.leb_le in L1. apply Z.leb_le in L2.
    split; [f_equal; lia|].
    split; intros ->; discriminate.
  - pose proof (no_future_forall _ _ _ Ex) as F.
    assert (F' : Forall (fun x => is_future room now x = false) events').
    { apply Forall_forall. intros x Hx. rewrite Forall_forall in F.
      apply F, Same, Hx. }
    rewrite !scan_no_future by assumption.
    split; [reflexivity | tauto].
Qed.

End Server.

(* ================================================================== *)
(** * The properties on the sample stores *)
(* ================================================================== *)

Import Sample.

Ltac each :=
  repeat (apply Forall_cons; [vm_compute; reflexivity|]); apply Forall_nil.

Example sample_instants :
  Date_parse utc "2025-11-07T09:00:00Z" = Some pinnedNow
  /\ Date_parse utc "2025-11-07T09:30:00Z" = Some at_0930
  /\ Date_parse utc "2025-11-07T10:30:00Z" = Some at_1030
  /\ isoFormat at_1030 = "2025-11-07T10:30:00.000Z".
Proof. vm_compute. repeat split. Qed.

Example scenario_A :
  select utc (VArr [anatomy]) "2.05" at_0930 = Ok (anatomy, VNull).
Proof. vm_compute. reflexivity. Qed.

Example scenario_B :
  select utc (VArr [anatomy; histology]) "2.05" at_1030 = Ok (VNull, histology)
  /\ nextEventMessage utc VNull histology
     = Ok (Some ("Next event " ++ dquote ++ "Histologia" ++ dquote
                 ++ " starts at 2025-11-07T11:00:00.000Z")).
Proof. vm_compute. split; reflexivity. Qed.

(** Both bounds of the interval count. *)
Example current_at_both_bounds :
  select utc (VArr [anatomy]) "2.05" at_0900 = Ok (anatomy, VNull)
  /\ select utc (VArr [anatomy]) "2.05" at_1000 = Ok (anatomy, VNull)
  /\ select utc (VArr [anatomy]) "2.05" (at_1000 + 1) = Ok (VNull, VNull).
Proof. vm_compute. repeat split. Qed.

(** The calendar date is the local one: at 22:00 UTC a lesson starting
    at 23:30 UTC is today's for a server in UTC and tomorrow's for a
    server an hour ahead. *)
Example local_date_decides :
  select utc (VArr [late]) "2.05" at_2200 = Ok (VNull, late)
  /\ select cet (VArr [late]) "2.05" at_2200 = Ok (VNull, VNull).
Proof. vm_compute. split; reflexivity. Qed.

(** Under [SKIP_PARSE] the request is answered for 09:00 UTC of
    2025-11-07 whatever the clock says, and the test image is written. *)
Example pinned_clock :
  let w := request_world (Some (store_file 100 (VArr [anatomy; histology])))
                         at_1030 in
  timeNow true w = pinnedNow
  /\ timeNow false w = at_1030
  /\ handler utc true w "2.05" initial_cache
     = (Ok {| Response.status := 200;
              Response.json :=
                Response.DataJson
                  {| Response.room := "2.05";
                     Response.currentTime := "2025-11-07T09:00:00.000Z";
                     Response.event := anatomy;
                     Response.nextEvent := VNull;
                     Response.nextEventMessage := None;
                     Response.imageBase64 := png |} |},
        {| eventsCache := VArr [anatomy; histology];
           cacheTimestamp := Some 100 |},
        [ExistsSync; StatSync; ReadFileSync; ConsoleLog; WriteFileSync;
         ConsoleLog]).
Proof. vm_compute. repeat split. Qed.

(** A [null] entry, or a location that is neither list nor string, makes
    the loop throw, which the handler turns into a 500 answer. *)
Example null_entry_throws :
  select utc (VArr [VNull; anatomy]) "2.05" at_0930 = Throw TypeError
  /\ select utc (VArr [VObj [("startTime", VStr "2025-11-07T09:00:00Z");
                             ("endTime", VStr "2025-11-07T10:00:00Z");
                             ("location", VNum 205)]]) "2.05" at_0930
     = Throw TypeError.
Proof. vm_compute. split; reflexivity. Qed.

(** An object with a property named [toString] cannot be converted: not
    to a string, not to a date, and not as an element of a list either. *)
Example unprintable_throws :
  ToString utc unprintable = Throw TypeError
  /\ newDate utc unprintable = Throw TypeError
  /\ ToString utc (VArr [VStr "a"; unprintable]) = Throw TypeError
  /\ ToString utc (VArr [VStr "a"; VNull; VNum 2]) = Ok "a,,2"
  /\ ToString utc (VObj [("name", VStr "M. Ferrer")]) = Ok "[object Object]".
Proof. vm_compute. repeat split. Qed.

(** Such an object as start or end time of an entry of the room makes the
    loop throw (lines 263 and 273), also when a current event follows;
    an entry of another room is skipped before its times are converted. *)
Example unprintable_time_throws :
  select utc (VArr [badStart; anatomy]) "2.05" at_0930 = Throw TypeError
  /\ select utc (VArr [badEnd; anatomy]) "2.05" at_0930 = Throw TypeError
  /\ select utc (VArr [badEnd]) "2.05" at_1030 = Throw TypeError
  /\ entry_throws utc "2.05" at_0930 badStart = true
  /\ entry_throws utc "2.05" at_0930 badEnd = true
  /\ entry_throws utc "1.10" at_0930 badStart = false
  /\ select utc (VArr [badStart; anatomy]) "1.10" at_0930 = Ok (VNull, VNull).
Proof. vm_compute. repeat split. Qed.

(** The handler answers such stores with 500: the store [badStart]
    throws in the loop; the store [badSummary] is selected from and
    rendered, and then the message of line 303 throws. *)
Example unprintable_fails_request :
  outcome (handler lenient false
             (request_world (Some (store_file 100 (VArr [badStart]))) at_0930)
             "2.05" initial_cache)
  = Ok {| Response.status := 500;
          Response.json := Response.ErrorJson "Internal server error" |}
  /\ select lenient (VArr [badSummary]) "2.05" at_1030
     = Ok (VNull, badSummary)
  /\ nextEventMessage lenient VNull badSummary = Throw TypeError
  /\ outcome (handler lenient false
                (request_world (Some (store_file 100 (VArr [badSummary])))
                   at_1030)
                "2.05" initial_cache)
     = Ok {| Response.status := 500;
             Response.json := Response.ErrorJson "Internal server error" |}.
Proof. vm_compute. repeat split. Qed.

(** A store that is an object whose [length] cannot be printed: both
    cache variables are assigned, then the log line of line 48 throws. *)
Example unprintable_length_throws :
  let f := store_file 100 (VObj [("length", unprintable)]) in
  loadEventsCache lenient (Some f) initial_cache
  = (Throw TypeError,
     {| eventsCache := VObj [("length", unprintable)];
        cacheTimestamp := Some 100 |},
     [ExistsSync; StatSync; ReadFileSync]).
Proof. vm_compute. reflexivity. Qed.

(** The page of the 09:00-10:00 lesson shows both times. *)
Example page_shows_times :
  canvasHtml utc anatomy "2.05" VNull
  = Ok (Template.eventPage "09:00" "10:00" "Anatomia" "M. Ferrer").
Proof. vm_compute. reflexivity. Qed.

(** A current event whose title cannot be printed: building the page
    throws before the browser is asked for anything. *)
Example unprintable_title_throws :
  select utc (VArr [badTitle]) "2.05" at_0930 = Ok (badTitle, VNull)
  /\ canvasHtml utc badTitle "2.05" VNull = Throw TypeError
  /\ generateEventImage_impl utc chrome badTitle "2.05" VNull false
     = (Throw TypeError, false, [])
  /\ freeRoomMessage utc badSummary
     = Ok ("La pròxima classe és <b>Sense Títol</b>  a les <b>11:00</b>")
  /\ freeRoomMessage utc (VObj [("title", unprintable)]) = Throw TypeError.
Proof. vm_compute. repeat split. Qed.

(** The sample lessons are entries as the data model has them. *)
Example lessons_wellformed :
  Forall (fun x => shaped x = true /\ safe x = true)
         [anatomy; histology; surgery; tomorrow; untimed; ended; elsewhere]
  /\ shaped misplaced = false
  /\ safe badStart = false
  /\ shaped VNull = false.
Proof.
  split; [repeat constructor|]. vm_compute. repeat split.
Qed.

(** Scenario A with clutter around it: the 09:00-10:00 lesson is found as
    current at 09:30 although a record without end time and a later
    lesson come first. *)
Lemma select_first_current_sample :
  is_current utc "2.05" at_0930 anatomy = true
  /\ Forall (fun x => entry_throws utc "2.05" at_0930 x = false)
            [untimed; histology]
  /\ exists c n,
       select utc (VArr ([untimed; histology] ++ anatomy :: [surgery]))
              "2.05" at_0930 = Ok (c, n)
       /\ find (is_current utc "2.05" at_0930)
               ([untimed; histology] ++ anatomy :: [surgery]) = Some c
       /\ is_current utc "2.05" at_0930 c = true.
Proof.
  assert (C : is_current utc "2.05" at_0930 anatomy = true)
    by (vm_compute; reflexivity).
  assert (T : Forall (fun x => entry_throws utc "2.05" at_0930 x = false)
                     [untimed; histology]) by each.
  split; [exact C|]. split; [exact T|].
  exact (select_first_current utc "2.05" at_0930 [untimed; histology]
           anatomy [surgery] C T).
Defined.

(** The store lists the 11:00 lesson before the 09:00 one.  At 09:30 the
    loop first keeps the 11:00 lesson as candidate, then meets the current
    one and stops: the response carries both. *)
Lemma next_beside_current_counterexample :
  select utc (VArr [histology; anatomy]) "2.05" at_0930
  = Ok (anatomy, histology)
  /\ outcome (handler utc false
                (request_world
                   (Some (store_file 100 (VArr [histology; anatomy])))
                   at_0930)
                "2.05" initial_cache)
     = Ok {| Response.status := 200;
             Response.json :=
               Response.DataJson
                 {| Response.room := "2.05";
                    Response.currentTime := "2025-11-07T09:30:00.000Z";
                    Response.event := anatomy;
                    Response.nextEvent := histology;
                    Response.nextEventMessage := None;
                    Response.imageBase64 := png |} |}
  /\ anatomy <> VNull
  /\ histology <> VNull
  /\ ~ (forall allEvents room now c n,
          select utc allEvents room now = Ok (c, n) ->
          c <> VNull -> n = VNull).
Proof.
  assert (S : select utc (VArr [histology; anatomy]) "2.05" at_0930
              = Ok (anatomy, histology)) by (vm_compute; reflexivity).
  split; [exact S|]. split; [vm_compute; reflexivity|].
  split; [discriminate|]. split; [discriminate|].
  intros H. specialize (H _ _ _ _ _ S). discriminate H. discriminate.
Defined.

(** Scenario A: with nothing eligible ahead of the current lesson, next is
    [null], and the lesson listed after it is not looked at. *)
Lemma next_beside_current_sample :
  is_current utc "2.05" at_0930 anatomy = true
  /\ Forall (fun x => entry_throws utc "2.05" at_0930 x = false)
            [tomorrow; untimed]
  /\ Forall (fun x => is_current utc "2.05" at_0930 x = false)
            [tomorrow; untimed]
  /\ select utc (VArr [tomorrow; untimed; anatomy; histology]) "2.05" at_0930
     = Ok (anatomy, VNull).
Proof.
  assert (C : is_current utc "2.05" at_0930 anatomy = true)
    by (vm_compute; reflexivity).
  assert (T : Forall (fun x => entry_throws utc "2.05" at_0930 x = false)
                     [tomorrow; untimed]) by each.
  assert (Q : Forall (fun x => is_current utc "2.05" at_0930 x = false)
                     [tomorrow; untimed]) by each.
  split; [exact C|]. split; [exact T|]. split; [exact Q|].
  exact (proj1 (next_beside_current utc "2.05" at_0930 [tomorrow; untimed]
                  anatomy [histology] C T Q)).
Defined.

(** Scenario B with a tie: at 10:30 two lessons start at 11:00; the one
    listed first is next. *)
Lemma select_earliest_next_sample :
  Forall (fun x => entry_throws utc "2.05" at_1030 x = false)
         [anatomy; surgery; histology]
  /\ Forall (fun x => is_current utc "2.05" at_1030 x = false)
            [anatomy; surgery; histology]
  /\ In histology [anatomy; surgery; histology]
  /\ is_future utc "2.05" at_1030 histology = true
  /\ exists pre n post,
       [anatomy; surgery; histology] = (pre ++ n :: post)%list
       /\ select utc (VArr [anatomy; surgery; histology]) "2.05" at_1030
          = Ok (VNull, n)
       /\ is_future utc "2.05" at_1030 n = true
       /\ (forall x, In x pre -> is_future utc "2.05" at_1030 x = true ->
                     num_lt (startMs utc n) (startMs utc x) = true)
       /\ (forall x, In x post -> is_future utc "2.05" at_1030 x = true ->
                     num_le (startMs utc n) (startMs utc x) = true).
Proof.
  assert (T : Forall (fun x => entry_throws utc "2.05" at_1030 x = false)
                     [anatomy; surgery; histology]) by each.
  assert (Q : Forall (fun x => is_current utc "2.05" at_1030 x = false)
                     [anatomy; surgery; histology]) by each.
  assert (I : In histology [anatomy; surgery; histology])
    by (simpl; auto).
  assert (F : is_future utc "2.05" at_1030 histology = true)
    by (vm_compute; reflexivity).
  split; [exact T|]. split; [exact Q|]. split; [exact I|]. split; [exact F|].
  exact (select_earliest_next utc "2.05" at_1030
           [anatomy; surgery; histology] histology T Q I F).
Defined.

(** Scenario C: a room no event of the store is in. *)
Lemma no_match_no_upcoming_sample :
  let w := request_world (Some (store_file 100 (VArr [anatomy; histology])))
                         at_0930 in
  outcome (loadEventsCache utc (disk w) initial_cache)
  = Ok (VArr [anatomy; histology])
  /\ Forall (fun x => entry_throws utc "3.01" (timeNow false w) x = false)
            [anatomy; histology]
  /\ Forall (fun x => eligible utc "3.01" (timeNow false w) x = false)
            [anatomy; histology]
  /\ generateEventImage utc VNull "3.01" VNull = Ok png
  /\ select utc (VArr [anatomy; histology]) "3.01" (timeNow false w)
     = Ok (VNull, VNull)
  /\ outcome (handler utc false w "3.01" initial_cache)
     = Ok {| Response.status := 200;
             Response.json :=
               Response.DataJson
                 {| Response.room := "3.01";
                    Response.currentTime := isoFormat (timeNow false w);
                    Response.event := VNull;
                    Response.nextEvent := VNull;
                    Response.nextEventMessage :=
                      Some "No upcoming events for this room";
                    Response.imageBase64 := png |} |}.
Proof.
  intros w.
  assert (L : outcome (loadEventsCache utc (disk w) initial_cache)
              = Ok (VArr [anatomy; histology])) by (vm_compute; reflexivity).
  assert (T : Forall (fun x => entry_throws utc "3.01" (timeNow false w) x
                               = false) [anatomy; histology]) by each.
  assert (E : Forall (fun x => eligible utc "3.01" (timeNow false w) x = false)
                     [anatomy; histology]) by each.
  assert (G : generateEventImage utc VNull "3.01" VNull = Ok png)
    by reflexivity.
  assert (W : false = true -> imageWritable w = true) by discriminate.
  split; [exact L|]. split; [exact T|]. split; [exact E|]. split; [exact G|].
  destruct (no_match_no_upcoming utc false w "3.01" initial_cache
              [anatomy; histology] png L T E G W) as (S & _ & O).
  split; [exact S | exact O].
Defined.

(** A lesson of the next day in the same room is reported neither as
    current nor as next. *)
Lemma other_day_never_reported_sample :
  select utc (VArr [tomorrow; histology]) "2.05" at_1030
  = Ok (VNull, histology)
  /\ tomorrow <> VNull
  /\ starts_today utc at_1030 tomorrow = false
  /\ VNull <> tomorrow /\ histology <> tomorrow.
Proof.
  assert (S : select utc (VArr [tomorrow; histology]) "2.05" at_1030
              = Ok (VNull, histology)) by (vm_compute; reflexivity).
  assert (N : tomorrow <> VNull) by discriminate.
  assert (D : starts_today utc at_1030 tomorrow = false)
    by (vm_compute; reflexivity).
  split; [exact S|]. split; [exact N|]. split; [exact D|].
  exact (other_day_never_reported utc (VArr [tomorrow; histology]) "2.05"
           at_1030 VNull histology tomorrow S N D).
Defined.

(** A record without end time between two lessons changes nothing. *)
Lemma incomplete_event_skipped_sample :
  is_record untimed = true
  /\ incomplete untimed = true
  /\ (forall kept,
        loop_body utc "2.05" at_1030 untimed kept = Ok (Continue kept))
  /\ select utc (VArr ([anatomy] ++ untimed :: [histology])) "2.05" at_1030
     = select utc (VArr ([anatomy] ++ [histology])) "2.05" at_1030.
Proof.
  assert (R : is_record untimed = true) by reflexivity.
  assert (I : incomplete untimed = true) by reflexivity.
  split; [exact R|]. split; [exact I|].
  exact (incomplete_event_skipped utc "2.05" at_1030 [anatomy] untimed
           [histology] R I).
Defined.

(** Scenario D: a request while the file is missing, then one after a
    two-lesson store has appeared. *)
Lemma missing_store_then_recovery_sample :
  let w := request_world None at_1030 in
  let f := store_file 200 (VArr [anatomy; histology]) in
  let w' := request_world (Some f) at_1030 in
  let message := Some ("Next event " ++ dquote ++ "Histologia" ++ dquote
                       ++ " starts at 2025-11-07T11:00:00.000Z") in
  disk w = None
  /\ disk w' = Some f
  /\ data f = Some (stringify (VArr [anatomy; histology]))
  /\ JSON_parse utc (stringify (VArr [anatomy; histology]))
     = Some (VArr [anatomy; histology])
  /\ select utc (VArr [anatomy; histology]) "2.05" (timeNow false w')
     = Ok (VNull, histology)
  /\ generateEventImage utc VNull "2.05" histology = Ok png
  /\ nextEventMessage utc VNull histology = Ok message
  /\ outcome (loadEventsCache utc (disk w) loaded_cache) = Ok VNull
  /\ outcome (handler utc false w "2.05" loaded_cache)
     = Ok {| Response.status := 500;
             Response.json :=
               Response.ErrorJson "Structured events data not found" |}
  /\ outcome (handler utc false w' "2.05"
                (final (handler utc false w "2.05" loaded_cache)))
     = Ok {| Response.status := 200;
             Response.json :=
               Response.DataJson
                 {| Response.room := "2.05";
                    Response.currentTime := isoFormat (timeNow false w');
                    Response.event := VNull;
                    Response.nextEvent := or_else histology VNull;
                    Response.nextEventMessage := message;
                    Response.imageBase64 := png |} |}.
Proof.
  intros w f w' message.
  assert (P : JSON_parse utc (stringify (VArr [anatomy; histology]))
              = Some (VArr [anatomy; histology])) by (vm_compute; reflexivity).
  assert (S : select utc (VArr [anatomy; histology]) "2.05" (timeNow false w')
              = Ok (VNull, histology)) by (vm_compute; reflexivity).
  assert (G : generateEventImage utc VNull "2.05" histology = Ok png)
    by reflexivity.
  assert (W : false = true -> imageWritable w' = true) by discriminate.
  assert (N : nextEventMessage utc VNull histology = Ok message)
    by (vm_compute; reflexivity).
  split; [reflexivity|]. split; [reflexivity|]. split; [reflexivity|].
  split; [exact P|]. split; [exact S|]. split; [exact G|]. split; [exact N|].
  exact (missing_store_then_recovery utc false w "2.05" loaded_cache w' f
           (stringify (VArr [anatomy; histology])) [anatomy; histology]
           VNull histology png message eq_refl eq_refl eq_refl P S G W N).
Defined.

(** The file still carries the stamp 100 of the last load.  Without the
    invalidation it is not read; after it, it is read and parsed. *)
Lemma invalidate_forces_reload_sample :
  let f := store_file 100 (VArr [anatomy; histology]) in
  data f = Some (stringify (VArr [anatomy; histology]))
  /\ trace (loadEventsCache utc (Some f) loaded_cache) = [ExistsSync; StatSync]
  /\ In ReadFileSync (trace (invalidate_then_load utc f loaded_cache))
  /\ match JSON_parse utc (stringify (VArr [anatomy; histology])) with
     | Some v =>
         final (invalidate_then_load utc f loaded_cache)
         = {| eventsCache := v; cacheTimestamp := Some (mtime f) |}
         /\ outcome (invalidate_then_load utc f loaded_cache)
            = rbind (get v "length")
                (fun length => rbind (ToString utc length) (fun _ => Ok v))
     | None =>
         outcome (invalidate_then_load utc f loaded_cache) = Throw SyntaxError
     end.
Proof.
  intros f. split; [reflexivity|]. split; [vm_compute; reflexivity|].
  exact (invalidate_forces_reload utc loaded_cache f
           (stringify (VArr [anatomy; histology])) eq_refl).
Defined.

(** The snapshot was loaded from a file stamped 100; the file now there
    carries the same stamp and does not parse.  It is not read, and the
    request is answered 200 from the snapshot. *)
Lemma corrupt_store_changes_nothing_counterexample :
  let f := corrupt_file 100 in
  let w := request_world (Some f) at_0930 in
  disk w = Some f
  /\ data f = Some "[{"
  /\ JSON_parse utc "[{" = None
  /\ trace (loadEventsCache utc (disk w) loaded_cache) = [ExistsSync; StatSync]
  /\ outcome (handler utc false w "2.05" loaded_cache)
     = Ok {| Response.status := 200;
             Response.json :=
               Response.DataJson
                 {| Response.room := "2.05";
                    Response.currentTime := "2025-11-07T09:30:00.000Z";
                    Response.event := anatomy;
                    Response.nextEvent := VNull;
                    Response.nextEventMessage := None;
                    Response.imageBase64 := png |} |}
  /\ ~ (forall skipParse w room s f text,
          disk w = Some f -> data f = Some text ->
          JSON_parse utc text = None ->
          exists said,
            outcome (handler utc skipParse w room s)
            = Ok {| Response.status := 500;
                    Response.json := Response.ErrorJson said |}).
Proof.
  intros f w.
  assert (P : JSON_parse utc "[{" = None) by (vm_compute; reflexivity).
  assert (O : outcome (handler utc false w "2.05" loaded_cache)
              = Ok {| Response.status := 200;
                      Response.json :=
                        Response.DataJson
                          {| Response.room := "2.05";
                             Response.currentTime := "2025-11-07T09:30:00.000Z";
                             Response.event := anatomy;
                             Response.nextEvent := VNull;
                             Response.nextEventMessage := None;
                             Response.imageBase64 := png |} |})
    by (vm_compute; reflexivity).
  split; [reflexivity|]. split; [reflexivity|]. split; [exact P|].
  split; [vm_compute; reflexivity|]. split; [exact O|].
  intros H.
  destruct (H false w "2.05" loaded_cache f "[{" eq_refl eq_refl P)
    as [said E].
  rewrite O in E. discriminate E.
Defined.

(** A newer file that does not parse: the request fails and the snapshot
    stamped 100 stays. *)
Lemma corrupt_store_changes_nothing_sample :
  let f := corrupt_file 200 in
  let w := request_world (Some f) at_0930 in
  disk w = Some f
  /\ data f = Some "[{"
  /\ JSON_parse utc "[{" = None
  /\ reload_due (eventsCache loaded_cache) (cacheTimestamp loaded_cache)
                (mtime f) = true
  /\ final (loadEventsCache utc (disk w) loaded_cache) = loaded_cache
  /\ final (handler utc false w "2.05" loaded_cache) = loaded_cache
  /\ outcome (loadEventsCache utc (disk w) loaded_cache) = Throw SyntaxError
  /\ outcome (handler utc false w "2.05" loaded_cache)
     = Ok {| Response.status := 500;
             Response.json := Response.ErrorJson "Internal server error" |}.
Proof.
  intros f w.
  assert (P : JSON_parse utc "[{" = None) by (vm_compute; reflexivity).
  assert (R : reload_due (eventsCache loaded_cache)
                         (cacheTimestamp loaded_cache) (mtime f) = true)
    by reflexivity.
  destruct (corrupt_store_changes_nothing utc false w "2.05" loaded_cache f
              "[{" eq_refl eq_refl P) as (F1 & F2 & F3 & _).
  destruct (F3 R) as [O1 O2].
  repeat (split; [first [reflexivity | assumption]|]). exact O2.
Defined.

(** The file disappears after a load: the snapshot is dropped, and when
    a file stamped like the old one comes back it is read again. *)
Lemma absent_store_drops_snapshot_sample :
  let w := request_world None at_0930 in
  let f := store_file 100 (VArr [anatomy]) in
  disk w = None
  /\ final (loadEventsCache utc (disk w) loaded_cache) = initial_cache
  /\ outcome (loadEventsCache utc (disk w) loaded_cache) = Ok VNull
  /\ outcome (handler utc false w "2.05" loaded_cache)
     = Ok {| Response.status := 500;
             Response.json :=
               Response.ErrorJson "Structured events data not found" |}
  /\ In ReadFileSync
        (trace (loadEventsCache utc (Some f)
                  (final (loadEventsCache utc (disk w) loaded_cache)))).
Proof.
  intros w f.
  destruct (absent_store_drops_snapshot utc false w "2.05" loaded_cache
              eq_refl) as (A & B & C & D).
  split; [reflexivity|]. split; [exact A|]. split; [exact B|].
  split; [exact C|]. exact (proj2 (D f)).
Defined.

(* ================================================================== *)
(** * The further properties on the sample stores *)
(* ================================================================== *)

(** At 10:30 the store holds an ended lesson, a lesson elsewhere and the
    11:00 lesson: what is reported is an entry of the store. *)
Lemma select_reports_store_entries_sample :
  select utc (VArr [ended; elsewhere; histology]) "2.05" at_1030
  = Ok (VNull, histology)
  /\ (VNull = VNull
      \/ In VNull [ended; elsewhere; histology]
         /\ is_current utc "2.05" at_1030 VNull = true)
  /\ (histology = VNull
      \/ In histology [ended; elsewhere; histology]
         /\ is_future utc "2.05" at_1030 histology = true).
Proof.
  assert (S : select utc (VArr [ended; elsewhere; histology]) "2.05" at_1030
              = Ok (VNull, histology)) by (vm_compute; reflexivity).
  split; [exact S|].
  exact (select_reports_store_entries utc "2.05" at_1030
           [ended; elsewhere; histology] VNull histology S).
Defined.

(** An entry of another room with an unprintable start time is among
    those that have no influence: it is skipped before the conversion. *)
Lemma select_only_eligible_sample :
  Forall (fun x => entry_throws utc "1.10" at_0930 x = false)
         [untimed; badStart; tomorrow; surgery; elsewhere]
  /\ filter (eligible utc "1.10" at_0930)
            [untimed; badStart; tomorrow; surgery; elsewhere]
     = [surgery; elsewhere]
  /\ select utc (VArr [untimed; badStart; tomorrow; surgery; elsewhere])
            "1.10" at_0930
     = select utc
         (VArr (filter (eligible utc "1.10" at_0930)
                  [untimed; badStart; tomorrow; surgery; elsewhere]))
         "1.10" at_0930.
Proof.
  assert (T : Forall (fun x => entry_throws utc "1.10" at_0930 x = false)
                     [untimed; badStart; tomorrow; surgery; elsewhere])
    by each.
  split; [exact T|]. split; [vm_compute; reflexivity|].
  exact (select_only_eligible utc "1.10" at_0930
           [untimed; badStart; tomorrow; surgery; elsewhere] T).
Defined.

(** At 10:30 the only lessons of the room today are over. *)
Lemma select_day_over_sample :
  Forall (fun x => entry_throws utc "2.05" at_1030 x = false)
         [ended; anatomy; tomorrow]
  /\ Forall (fun x => is_current utc "2.05" at_1030 x = false)
            [ended; anatomy; tomorrow]
  /\ Forall (fun x => is_future utc "2.05" at_1030 x = false)
            [ended; anatomy; tomorrow]
  /\ eligible utc "2.05" at_1030 anatomy = true
  /\ select utc (VArr [ended; anatomy; tomorrow]) "2.05" at_1030
     = Ok (VNull, VNull)
  /\ nextEventMessage utc VNull VNull
     = Ok (Some "No upcoming events for this room").
Proof.
  assert (T : Forall (fun x => entry_throws utc "2.05" at_1030 x = false)
                     [ended; anatomy; tomorrow]) by each.
  assert (C : Forall (fun x => is_current utc "2.05" at_1030 x = false)
                     [ended; anatomy; tomorrow]) by each.
  assert (F : Forall (fun x => is_future utc "2.05" at_1030 x = false)
                     [ended; anatomy; tomorrow]) by each.
  split; [exact T|]. split; [exact C|]. split; [exact F|].
  split; [vm_compute; reflexivity|].
  exact (select_day_over utc "2.05" at_1030 [ended; anatomy; tomorrow] T C F).
Defined.


Lemma wellformed_store_answered_sample :
  let w := request_world (Some (store_file 100 (VArr [untimed; anatomy])))
                         at_0930 in
  outcome (loadEventsCache utc (disk w) initial_cache)
  = Ok (VArr [untimed; anatomy])
  /\ Forall (fun x => entry_throws utc "2.05" (timeNow false w) x = false)
            [untimed; anatomy]
  /\ safe (VArr [untimed; anatomy]) = true
  /\ (forall c n, exists image, generateEventImage utc c "2.05" n = Ok image)
  /\ exists c n message image,
       select utc (VArr [untimed; anatomy]) "2.05" (timeNow false w)
       = Ok (c, n)
       /\ generateEventImage utc c "2.05" n = Ok image
       /\ nextEventMessage utc c n = Ok message
       /\ (message = None <-> c <> VNull)
       /\ outcome (handler utc false w "2.05" initial_cache)
          = Ok {| Response.status := 200;
                  Response.json :=
                    Response.DataJson
                      {| Response.room := "2.05";
                         Response.currentTime := isoFormat (timeNow false w);
                         Response.event := c;
                         Response.nextEvent := or_else n VNull;
                         Response.nextEventMessage := message;
                         Response.imageBase64 := image |} |}.
Proof.
  intros w.
  assert (L : outcome (loadEventsCache utc (disk w) initial_cache)
              = Ok (VArr [untimed; anatomy])) by (vm_compute; reflexivity).
  assert (T : Forall (fun x => entry_throws utc "2.05" (timeNow false w) x
                               = false) [untimed; anatomy]) by each.
  assert (Sa : safe (VArr [untimed; anatomy]) = true) by reflexivity.
  assert (G : forall c n, exists image,
               generateEventImage utc c "2.05" n = Ok image)
    by (intros; exists png; reflexivity).
  assert (W : false = true -> imageWritable w = true) by discriminate.
  split; [exact L|]. split; [exact T|]. split; [exact Sa|]. split; [exact G|].
  exact (wellformed_store_answered utc false w "2.05" initial_cache
           [untimed; anatomy] L T Sa G W).
Defined.

Lemma render_failure_keeps_cache_sample :
  let w := request_world (Some (store_file 200 (VArr [anatomy; histology])))
                         at_0930 in
  outcome (loadEventsCache unrendered (disk w) loaded_cache)
  = Ok (VArr [anatomy; histology])
  /\ select unrendered (VArr [anatomy; histology]) "2.05" (timeNow false w)
     = Ok (anatomy, VNull)
  /\ generateEventImage unrendered anatomy "2.05" VNull = Throw RenderError
  /\ outcome (handler unrendered false w "2.05" loaded_cache)
     = Ok {| Response.status := 500;
             Response.json := Response.ErrorJson "Internal server error" |}
  /\ final (handler unrendered false w "2.05" loaded_cache)
     = {| eventsCache := VArr [anatomy; histology];
          cacheTimestamp := Some 200 |}.
Proof.
  intros w.
  assert (L : outcome (loadEventsCache unrendered (disk w) loaded_cache)
              = Ok (VArr [anatomy; histology])) by (vm_compute; reflexivity).
  assert (S : select unrendered (VArr [anatomy; histology]) "2.05"
                     (timeNow false w) = Ok (anatomy, VNull))
    by (vm_compute; reflexivity).
  assert (G : generateEventImage unrendered anatomy "2.05" VNull
              = Throw RenderError) by reflexivity.
  destruct (render_failure_keeps_cache unrendered false w "2.05" loaded_cache
              (VArr [anatomy; histology]) anatomy VNull RenderError
              L eq_refl S G) as [O F].
  split; [exact L|]. split; [exact S|]. split; [exact G|].
  split; [exact O|]. rewrite F. vm_compute. reflexivity.
Defined.

(** A store stamped 200 is loaded; a rewritten file stamped 150 is not
    opened, one stamped 201 is. *)
Lemma file_read_iff_newer_sample :
  let f := store_file 200 (VArr [anatomy; histology]) in
  let older := store_file 150 (VArr [anatomy]) in
  let text := stringify (VArr [anatomy; histology]) in
  reload_due (eventsCache loaded_cache) (cacheTimestamp loaded_cache)
             (mtime f) = true
  /\ data f = Some text
  /\ JSON_parse utc text = Some (VArr [anatomy; histology])
  /\ mtime older <= mtime f
  /\ (In ReadFileSync
         (trace (loadEventsCache utc (Some older)
                   (final (loadEventsCache utc (Some f) loaded_cache))))
      <-> mtime f < mtime older)
  /\ outcome (loadEventsCache utc (Some older)
                (final (loadEventsCache utc (Some f) loaded_cache)))
     = Ok (VArr [anatomy; histology]).
Proof.
  intros f older text.
  assert (P : JSON_parse utc text = Some (VArr [anatomy; histology]))
    by (vm_compute; reflexivity).
  assert (Le : mtime older <= mtime f) by (simpl; lia).
  assert (M : mtime f <> 0) by discriminate.
  destruct (file_read_iff_newer utc loaded_cache f text
              (VArr [anatomy; histology]) older eq_refl eq_refl P eq_refl M)
    as [I O].
  split; [reflexivity|]. split; [reflexivity|]. split; [exact P|].
  split; [exact Le|]. split; [exact I | exact (O Le)].
Defined.

Lemma epoch_mtime_never_cached_sample :
  let f := store_file 0 (VArr [anatomy]) in
  mtime f = 0
  /\ data f = Some (stringify (VArr [anatomy]))
  /\ JSON_parse utc (stringify (VArr [anatomy])) = Some (VArr [anatomy])
  /\ final (invalidate_then_load utc f initial_cache)
     = {| eventsCache := VArr [anatomy]; cacheTimestamp := Some 0 |}
  /\ In ReadFileSync
        (trace (loadEventsCache utc (Some f)
                  (final (invalidate_then_load utc f initial_cache)))).
Proof.
  intros f.
  assert (P : JSON_parse utc (stringify (VArr [anatomy]))
              = Some (VArr [anatomy])) by (vm_compute; reflexivity).
  split; [reflexivity|]. split; [reflexivity|]. split; [exact P|].
  exact (epoch_mtime_never_cached utc initial_cache f
           (stringify (VArr [anatomy])) (VArr [anatomy]) eq_refl eq_refl P).
Defined.

(** The file holds [null]. *)
Lemma falsy_store_fails_request_sample :
  let f := store_file 200 VNull in
  let w := request_world (Some f) at_0930 in
  disk w = Some f
  /\ data f = Some "null"
  /\ JSON_parse lenient "null" = Some VNull
  /\ truthy VNull = false
  /\ reload_due (eventsCache loaded_cache) (cacheTimestamp loaded_cache)
                (mtime f) = true
  /\ final (handler lenient false w "2.05" loaded_cache)
     = {| eventsCache := VNull; cacheTimestamp := Some 200 |}
  /\ outcome (handler lenient false w "2.05" loaded_cache)
     = Ok {| Response.status := 500;
             Response.json := Response.ErrorJson "Internal server error" |}
  /\ In ReadFileSync
        (trace (loadEventsCache lenient (Some f)
                  (final (handler lenient false w "2.05" loaded_cache)))).
Proof.
  intros f w.
  assert (P : JSON_parse lenient "null" = Some VNull)
    by (vm_compute; reflexivity).
  destruct (falsy_store_fails_request lenient false w "2.05" loaded_cache f
              "null" VNull eq_refl eq_refl P eq_refl eq_refl)
    as (F & O & R).
  split; [reflexivity|]. split; [reflexivity|]. split; [exact P|].
  split; [reflexivity|]. split; [reflexivity|].
  split; [exact F|]. split; [exact O | exact R].
Defined.

(** The file holds [false]: the file exists, and the answer says the
    data was not found. *)
Example false_store_not_found :
  outcome (handler lenient false
             (request_world (Some (store_file 200 (VBool false))) at_0930)
             "2.05" loaded_cache)
  = Ok {| Response.status := 500;
          Response.json :=
            Response.ErrorJson "Structured events data not found" |}.
Proof. vm_compute. reflexivity. Qed.

(** The model wrapped the list in an object. *)
Lemma object_store_fails_request_sample :
  let props := [("events", VArr [anatomy])] in
  let f := store_file 200 (VObj props) in
  let w := request_world (Some f) at_0930 in
  disk w = Some f
  /\ data f = Some (stringify (VObj props))
  /\ JSON_parse lenient (stringify (VObj props)) = Some (VObj props)
  /\ reload_due (eventsCache loaded_cache) (cacheTimestamp loaded_cache)
                (mtime f) = true
  /\ outcome (loadEventsCache lenient (disk w) loaded_cache) = Ok (VObj props)
  /\ select lenient (VObj props) "2.05" (timeNow false w) = Throw TypeError
  /\ final (handler lenient false w "2.05" loaded_cache)
     = {| eventsCache := VObj props; cacheTimestamp := Some (mtime f) |}
  /\ outcome (handler lenient false w "2.05" loaded_cache)
     = Ok {| Response.status := 500;
             Response.json := Response.ErrorJson "Internal server error" |}.
Proof.
  intros props f w.
  assert (P : JSON_parse lenient (stringify (VObj props)) = Some (VObj props))
    by (vm_compute; reflexivity).
  split; [reflexivity|]. split; [reflexivity|]. split; [exact P|].
  split; [reflexivity|].
  exact (object_store_fails_request lenient false w "2.05" loaded_cache f
           (stringify (VObj props)) props eq_refl eq_refl P eq_refl).
Defined.

Lemma strip_fences_plain_sample :
  plain (stringify (VArr [anatomy])) = true
  /\ strip_fences (stringify (VArr [anatomy])) = stringify (VArr [anatomy]).
Proof.
  assert (P : plain (stringify (VArr [anatomy])) = true)
    by (vm_compute; reflexivity).
  split; [exact P|]. exact (strip_fences_plain _ P).
Defined.

Lemma strip_fences_unwraps_sample :
  plain (stringify (VArr [anatomy])) = true
  /\ strip_fences (fence_json ++ line_break ++ stringify (VArr [anatomy])
                              ++ line_break ++ fence)
     = stringify (VArr [anatomy]) ++ line_break
  /\ strip_fences (fence ++ line_break ++ stringify (VArr [anatomy])
                         ++ line_break ++ fence)
     = stringify (VArr [anatomy]) ++ line_break.
Proof.
  assert (P : plain (stringify (VArr [anatomy])) = true)
    by (vm_compute; reflexivity).
  split; [exact P|]. exact (strip_fences_unwraps _ P).
Defined.

(** The model answers with prose: nothing is written and the cache stays
    as it was, timestamp included. *)
Lemma failed_ingestion_keeps_cache_sample :
  outcome (parseICal utc chatty_model (json_dir 300) loaded_cache)
  = Throw SyntaxError
  /\ final (parseICal utc chatty_model (json_dir 300) loaded_cache)
     = loaded_cache
  /\ final (ingestionJob utc chatty_model (json_dir 300) loaded_cache)
     = loaded_cache
  /\ outcome (ingestionJob utc chatty_model (json_dir 300) loaded_cache)
     = Ok tt.
Proof.
  assert (O : outcome (parseICal utc chatty_model (json_dir 300) loaded_cache)
              = Throw SyntaxError) by (vm_compute; reflexivity).
  split; [exact O|].
  exact (failed_ingestion_keeps_cache utc chatty_model (json_dir 300)
           loaded_cache SyntaxError O).
Defined.

(** The job writes a file stamped 50, older than the 100 recorded at the
    last load: the next call reads it all the same. *)
Lemma ingestion_then_load_sample :
  let summary := {| originalEventCount := 2;
                    structuredEvents := VArr [anatomy; histology] |} in
  let written := store_file 50 (VArr [anatomy; histology]) in
  outcome (parseICal utc fencing_model (json_dir 50) loaded_cache)
  = Ok (summary, written)
  /\ JSON_parse utc (JSON_stringify fencing_model (structuredEvents summary))
     = Some (structuredEvents summary)
  /\ final (parseICal utc fencing_model (json_dir 50) loaded_cache)
     = {| eventsCache := eventsCache loaded_cache; cacheTimestamp := None |}
  /\ In ReadFileSync
        (trace (loadEventsCache utc (Some written)
                  (final (parseICal utc fencing_model (json_dir 50)
                            loaded_cache))))
  /\ final (loadEventsCache utc (Some written)
              (final (parseICal utc fencing_model (json_dir 50)
                        loaded_cache)))
     = {| eventsCache := VArr [anatomy; histology];
          cacheTimestamp := Some 50 |}.
Proof.
  intros summary written.
  assert (O : outcome (parseICal utc fencing_model (json_dir 50) loaded_cache)
              = Ok (summary, written)) by (vm_compute; reflexivity).
  assert (P : JSON_parse utc
                (JSON_stringify fencing_model (structuredEvents summary))
              = Some (structuredEvents summary)) by (vm_compute; reflexivity).
  destruct (ingestion_then_load utc fencing_model (json_dir 50) loaded_cache
              summary written O P) as (F & _ & R & E).
  split; [exact O|]. split; [exact P|]. split; [exact F|].
  split; [exact R | exact E].
Defined.

(** A lesson and the next one are printable, so the page is built; an
    unprintable title makes page building throw, and what it throws is a
    TypeError. *)
Lemma canvasHtml_safe_page_sample :
  safe anatomy = true
  /\ safe histology = true
  /\ (exists html, canvasHtml utc anatomy "2.05" histology = Ok html)
  /\ canvasHtml utc badTitle "2.05" VNull = Throw TypeError.
Proof.
  assert (Sa : safe anatomy = true) by reflexivity.
  assert (Sh : safe histology = true) by reflexivity.
  split; [exact Sa|]. split; [exact Sh|].
  split;
    [exact (proj1 (canvasHtml_safe_page utc anatomy "2.05" histology) Sa Sh)|].
  destruct (canvasHtml utc badTitle "2.05" VNull) as [html|err] eqn:E;
    [vm_compute in E; discriminate E|].
  rewrite (proj2 (canvasHtml_safe_page utc badTitle "2.05" VNull) err E).
  reflexivity.
Defined.

Lemma selected_events_show_times_sample :
  select utc (VArr [histology; anatomy]) "2.05" at_0930
  = Ok (anatomy, histology)
  /\ safe (VArr [histology; anatomy]) = true
  /\ (exists s e before after html,
        startMs utc anatomy = Some s /\ endMs utc anatomy = Some e
        /\ canvasHtml utc anatomy "2.05" histology = Ok html
        /\ html = before ++ (toLocaleTimeString utc (Some s) ++ " - "
                             ++ toLocaleTimeString utc (Some e)) ++ after)
  /\ (exists s said,
        startMs utc histology = Some s
        /\ freeRoomMessage utc histology
           = Ok (said ++ "a les <b>" ++ toLocaleTimeString utc (Some s)
                      ++ "</b>")).
Proof.
  assert (S : select utc (VArr [histology; anatomy]) "2.05" at_0930
              = Ok (anatomy, histology)) by (vm_compute; reflexivity).
  assert (Sa : safe (VArr [histology; anatomy]) = true) by reflexivity.
  destruct (selected_events_show_times utc "2.05" at_0930
              [histology; anatomy] anatomy histology "2.05" S Sa) as [C N].
  split; [exact S|]. split; [exact Sa|].
  split; [apply C | apply N]; discriminate.
Defined.

(** Setting the page content fails: the page is closed all the same. *)
Lemma opened_page_is_closed_sample :
  In NewPage
     (snd (generateEventImage_impl utc stalling VNull "2.05" histology false))
  /\ newPageOk stalling = true
  /\ fst (fst (generateEventImage_impl utc stalling VNull "2.05" histology
                 false)) = Throw RenderError
  /\ exists before,
       snd (generateEventImage_impl utc stalling VNull "2.05" histology false)
       = (before ++ [ClosePage])%list
       /\ ~ In ClosePage before.
Proof.
  assert (I : In NewPage
                (snd (generateEventImage_impl utc stalling VNull "2.05"
                        histology false)))
    by (vm_compute; auto).
  split; [exact I|]. split; [reflexivity|].
  split; [vm_compute; reflexivity|].
  exact (proj1 (opened_page_is_closed utc stalling VNull "2.05" histology
                  false) I eq_refl).
Defined.

(** The first call launches the browser; a call whose page cannot be
    built launches nothing; nor does the call after the first. *)
Lemma browser_launched_once_sample :
  snd (fst (generateEventImage_impl utc chrome VNull "2.05" histology false))
  = true
  /\ In Launch
        (snd (generateEventImage_impl utc chrome VNull "2.05" histology false))
  /\ ~ In Launch
         (snd (generateEventImage_impl utc chrome badTitle "2.05" VNull false))
  /\ ~ In Launch
         (snd (generateEventImage_impl utc chrome anatomy "2.05" VNull
                 (snd (fst (generateEventImage_impl utc chrome VNull "2.05"
                              histology false))))).
Proof.
  destruct (browser_launched_once utc chrome VNull "2.05" histology false)
    as (S & L & N).
  destruct (browser_launched_once utc chrome badTitle "2.05" VNull false)
    as (_ & L' & _).
  assert (S' : snd (fst (generateEventImage_impl utc chrome VNull "2.05"
                           histology false)) = true)
    by (rewrite S; vm_compute; reflexivity).
  split; [exact S'|]. split.
  - apply L. split; [reflexivity|]. vm_compute. eauto.
  - split.
    + intros H. apply L' in H as [_ [html E]]. vm_compute in E.
      discriminate E.
    + exact (N anatomy "2.05" VNull S').
Defined.

(** Two lessons start at 11:00; either order gives a next event starting
    at 11:00, though not the same one. *)
Lemma next_start_order_independent_sample :
  (forall x, In x [surgery; histology; ended]
             <-> In x [ended; histology; surgery])
  /\ Forall (fun x => entry_throws utc "2.05" at_1030 x = false)
            [surgery; histology; ended]
  /\ Forall (fun x => is_current utc "2.05" at_1030 x = false)
            [surgery; histology; ended]
  /\ select utc (VArr [surgery; histology; ended]) "2.05" at_1030
     = Ok (VNull, surgery)
  /\ select utc (VArr [ended; histology; surgery]) "2.05" at_1030
     = Ok (VNull, histology)
  /\ exists n n',
       select utc (VArr [surgery; histology; ended]) "2.05" at_1030
       = Ok (VNull, n)
       /\ select utc (VArr [ended; histology; surgery]) "2.05" at_1030
          = Ok (VNull, n')
       /\ startMs utc n = startMs utc n'
       /\ (n = VNull <-> n' = VNull).
Proof.
  assert (Same : forall x, In x [surgery; histology; ended]
                           <-> In x [ended; histology; surgery])
    by (intros x; simpl; tauto).
  assert (T : Forall (fun x => entry_throws utc "2.05" at_1030 x = false)
                     [surgery; histology; ended]) by each.
  assert (C : Forall (fun x => is_current utc "2.05" at_1030 x = false)
                     [surgery; histology; ended]) by each.
  split; [exact Same|]. split; [exact T|]. split; [exact C|].
  split; [vm_compute; reflexivity|]. split; [vm_compute; reflexivity|].
  exact (next_start_order_independent utc "2.05" at_1030
           [surgery; histology; ended] [ended; histology; surgery] Same T C).
Defined.
